(** * CSV table core of the data-science app: parsing, store and query functions

    A shallow embedding of the TypeScript/Svelte code that loads a CSV file
    into the in-memory store and serves filtered, sorted and paginated views:

    - [parseCSVContent]      (routes/data-visualization/components/D3Demo.svelte)
    - [processSingleFile]    (routes/data-visualization/components/PlotlyDemo.svelte)
    - [filterDataSimple], [sortData], [paginateData], [tableInfo]
                             (the data table component)
    - [csvDataActions]       (stores/csvDataStore.js)

    The functions of the data table are given twice: in [DataTable] on the
    rows an array holds, and in [Heap] on array references, where it shows
    which array a function returns and which it writes to.

    Modelling conventions.
    - A JavaScript string is the list of its UTF-16 code units ([list N]);
      [str] turns an ASCII literal into such a list.
    - A cell value is [VUndefined], [VNull], a number or a string.  Numbers are
      the integer-valued ones (the only numbers the loaders create are row
      indices), so [Z] is exact for them.
    - A row object is the list of its own properties in insertion order.
      The names a row inherits from [Object.prototype] ([inherited]) are
      outside the model: [get] and [setProp] are the read and the write of
      the code for every other name, and a property that depends on a read
      or a write under a name says that the name is not one of them.
    - [toLowerCase] and [localeCompare] depend on the Unicode tables and on the
      host locale: they are the two fields of the class [Locale]. *)

From Stdlib Require Import ZArith NArith List Ascii String Lia Bool Sorted.
From Stdlib Require Import Numbers.DecimalString.
From stdpp Require Import gmap list.

Import ListNotations.
Local Open Scope Z_scope.

(* ===================================================================== *)
(** ** JavaScript strings *)
(* ===================================================================== *)

Module JsString.

Abbreviation jsstring := (list N).

(** An ASCII literal as a list of code units. *)
Definition str (s : string) : jsstring :=
  List.map N_of_ascii (list_ascii_of_string s).

Definition LF : N := 10%N.
Definition COMMA : N := 44%N.
Definition DQUOTE : N := 34%N.

Definition eqb (s t : jsstring) : bool := bool_decide (s = t).

(** WhiteSpace and LineTerminator code points of ECMAScript, the ones
    [String.prototype.trim] strips. *)
Definition is_white_space (c : N) : bool :=
  ((9 <=? c) && (c <=? 13) || (c =? 32) || (c =? 160) || (c =? 5760)
   || (8192 <=? c) && (c <=? 8202) || (c =? 8232) || (c =? 8233)
   || (c =? 8239) || (c =? 8287) || (c =? 12288) || (c =? 65279))%N.

Fixpoint trimStart (s : jsstring) : jsstring :=
  match s with
  | [] => []
  | c :: s' => if is_white_space c then trimStart s' else s
  end.

Definition trimEnd (s : jsstring) : jsstring := rev (trimStart (rev s)).

(** [s.trim()] *)
Definition trim (s : jsstring) : jsstring := trimEnd (trimStart s).

(** [s.split(sep)] for a separator of one code unit: one more piece than
    there are separators, so the empty string splits into one empty piece. *)
Fixpoint split (sep : N) (s : jsstring) : list jsstring :=
  match s with
  | [] => [[]]
  | c :: s' =>
      if (c =? sep)%N then [] :: split sep s'
      else match split sep s' with
           | [] => [[c]]
           | p :: ps => (c :: p) :: ps
           end
  end.

(** [pieces.join(sep)] *)
Fixpoint join (sep : N) (pieces : list jsstring) : jsstring :=
  match pieces with
  | [] => []
  | [p] => p
  | p :: ps => p ++ sep :: join sep ps
  end.

Fixpoint startsWith (s sub : jsstring) : bool :=
  match sub, s with
  | [], _ => true
  | _ :: _, [] => false
  | d :: sub', c :: s' => (c =? d)%N && startsWith s' sub'
  end.

(** [s.includes(sub)] *)
Fixpoint includes (s sub : jsstring) : bool :=
  startsWith s sub
  || match s with
     | [] => false
     | _ :: s' => includes s' sub
     end.

(** Decimal digits of an integer, as [String(n)] prints an integer-valued
    number below 1e21. *)
Definition of_Z (z : Z) : jsstring :=
  str (NilZero.string_of_int (Z.to_int z)).

End JsString.

Import JsString.

(** The two string operations that depend on the Unicode tables and on the
    host locale.  [toLowerCase] maps the empty string to itself and nothing
    else to it. *)
Class Locale := {
  toLowerCase : jsstring -> jsstring;
  localeCompare : jsstring -> jsstring -> Z;
  toLowerCase_empty : toLowerCase [] = [];
  toLowerCase_nonempty : forall s, toLowerCase s = [] -> s = []
}.

(* ===================================================================== *)
(** ** Values and row objects *)
(* ===================================================================== *)

Inductive value :=
  | VUndefined
  | VNull
  | VNum (n : Z)
  | VStr (s : jsstring).

Global Instance value_eq_dec : EqDecision value.
Proof. solve_decision. Defined.

(** [String(v)] *)
Definition ToString (v : value) : jsstring :=
  match v with
  | VUndefined => str "undefined"
  | VNull => str "null"
  | VNum n => of_Z n
  | VStr s => s
  end.

(** Truthiness, as [!v], [v || d] and [cond ? a : b] read it. *)
Definition truthy (v : value) : bool :=
  match v with
  | VUndefined | VNull => false
  | VNum n => negb (n =? 0)
  | VStr s => negb (Nat.eqb (length s) 0)
  end.

(** [v || d] *)
Definition or_else (v d : value) : value := if truthy v then v else d.

(** [v == null] *)
Definition is_nullish (v : value) : bool :=
  match v with
  | VUndefined | VNull => true
  | _ => false
  end.

(** A row object: its own properties, in insertion order. *)
Abbreviation Row := (list (jsstring * value)).

(** [row[key]] for a [key] that is a property of the row itself or that
    [Object.prototype] does not define (see [inherited]). *)
Fixpoint get (row : Row) (key : jsstring) : value :=
  match row with
  | [] => VUndefined
  | (k, v) :: row' => if JsString.eqb k key then v else get row' key
  end.

(** [row[key] = v]: an existing property keeps its place.  For the key
    [__proto__] the code runs the setter of [Object.prototype] and creates no
    property: that key is outside the model (see [PROTO]). *)
Fixpoint setProp (row : Row) (key : jsstring) (v : value) : Row :=
  match row with
  | [] => [(key, v)]
  | (k, w) :: row' =>
      if JsString.eqb k key then (k, v) :: row' else (k, w) :: setProp row' key v
  end.

(** The one name whose write is not a write of a property. *)
Definition PROTO : jsstring := str "__proto__".

(** The names every object inherits from [Object.prototype]: for a row that
    has no property of its own under one of them, [row[key]] is the inherited
    function (or, for [__proto__], the prototype), not [undefined]. *)
Definition Object_prototype_names : list jsstring :=
  [ str "constructor"; str "hasOwnProperty"; str "isPrototypeOf";
    str "propertyIsEnumerable"; str "toLocaleString"; str "toString";
    str "valueOf"; PROTO; str "__defineGetter__"; str "__defineSetter__";
    str "__lookupGetter__"; str "__lookupSetter__" ].

Definition inherited (key : jsstring) : bool :=
  existsb (JsString.eqb key) Object_prototype_names.

(** [Object.values(row)] *)
Definition Object_values (row : Row) : list value := List.map snd row.

(** [Object.keys(row)] *)
Definition Object_keys (row : Row) : list jsstring := List.map fst row.

(** [l.forEach((x, i) => ...)] threading the state the callback updates. *)
Fixpoint forEach_from {A S : Type} (f : S -> A -> nat -> S) (i : nat)
    (l : list A) (s : S) : S :=
  match l with
  | [] => s
  | x :: l' => forEach_from f (Datatypes.S i) l' (f s x i)
  end.

Definition forEach {A S : Type} (f : S -> A -> nat -> S) (l : list A) (s : S) : S :=
  forEach_from f 0%nat l s.

(** [l.map((x, i) => ...)] *)
Fixpoint mapi_from {A B : Type} (f : A -> nat -> B) (i : nat) (l : list A) : list B :=
  match l with
  | [] => []
  | x :: l' => f x i :: mapi_from f (Datatypes.S i) l'
  end.

Definition mapi {A B : Type} (f : A -> nat -> B) (l : list A) : list B :=
  mapi_from f 0%nat l.

(** [l.slice(1)] *)
Definition slice_from_1 {A : Type} (l : list A) : list A := List.skipn 1 l.

(* ===================================================================== *)
(** ** CSV parsing *)
(* ===================================================================== *)

(** [content.split("\n").filter((line) => line.trim())] *)
Definition nonblank_lines (content : jsstring) : list jsstring :=
  List.filter (fun line => truthy (VStr (trim line))) (split LF content).

(** The cell the two parsers write for column [index]:
    [index < values.length ? values[index].trim() : null]. *)
Definition cell_at (values : list jsstring) (index : nat) : value :=
  match nth_error values index with
  | Some v => VStr (trim v)
  | None => VNull
  end.

(** [parseCSVContent] of D3Demo.svelte. *)
Definition parseCSVContent (content : jsstring) : list Row :=
  let lines := nonblank_lines content in
  if (length lines <? 2)%nat then []
  else
    let headers := List.map trim (split COMMA (nth 0 lines [])) in
    List.map
      (fun line =>
         let values := split COMMA line in
         forEach (fun row header index => setProp row header (cell_at values index))
                 headers [])
      (slice_from_1 lines).

(** A column definition as [processSingleFile] builds it from the backend's
    column analysis (the display-only statistics are left out). *)
Record Column := {
  col_id : jsstring;
  col_name : jsstring;
  col_type : jsstring;
  col_nullable : bool
}.

(** One entry of the backend's [analyze_csv_columns] answer. *)
Record ColumnInfo := {
  ci_name : jsstring;
  ci_data_type : jsstring;
  ci_nullable : bool
}.

Record QualityReport := {
  valid_rows : Z;
  issues : list jsstring
}.


(* ===================================================================== *)
(** ** The CSV data store (stores/csvDataStore.js) *)
(* ===================================================================== *)

(** An entry of [store.files]; [rowCount] and [columnCount] are absent until
    [updateFile] writes them ([uploadedAt] is left out). *)
Record FileEntry := {
  file_id : jsstring;
  file_name : jsstring;
  file_path : jsstring;
  file_size : Z;
  file_rowCount : option Z;
  file_columnCount : option Z
}.

(** The argument of [addFile]. *)
Record FileData := {
  fd_name : jsstring;
  fd_path : jsstring;
  fd_size : Z
}.

(** What the backend's [read_csv_file] and [validate_csv_file] answer, as far
    as the loader reads them. *)
Record FileContent := { content : jsstring }.

Record ValidationResult := {
  estimated_rows : Z;
  column_count : Z
}.

Record FileStats := {
  fs_validationResult : ValidationResult;
  fs_columnAnalysis : list ColumnInfo;
  fs_qualityReport : QualityReport;
  fs_fileContent : FileContent
}.

(** The store object.  Each [Map] is a finite map keyed by file id; the
    values of [filters], [sortConfig] and [selectedRows] are not inspected by
    the store, so their types are parameters. *)
Record Store (Filters SortConfig SelectedRows : Type) := {
  files : list FileEntry;
  currentFileId : option jsstring;
  parsedData : gmap jsstring (list Row);
  filteredData : gmap jsstring (list Row);
  columns : gmap jsstring (list Column);
  filters : gmap jsstring Filters;
  sortConfig : gmap jsstring SortConfig;
  selectedRows : gmap jsstring SelectedRows;
  fileStats : gmap jsstring FileStats
}.

Arguments files {_ _ _} _.
Arguments currentFileId {_ _ _} _.
Arguments parsedData {_ _ _} _.
Arguments filteredData {_ _ _} _.
Arguments columns {_ _ _} _.
Arguments filters {_ _ _} _.
Arguments sortConfig {_ _ _} _.
Arguments selectedRows {_ _ _} _.
Arguments fileStats {_ _ _} _.

Module csvDataActions.
Section Actions.
Context {Filters SortConfig SelectedRows : Type}.
Local Abbreviation store := (Store Filters SortConfig SelectedRows).

(** The initial store and the one [clearAll] sets. *)
Definition clearAll : store :=
  {| files := []; currentFileId := None; parsedData := ∅; filteredData := ∅;
     columns := ∅; filters := ∅; sortConfig := ∅; selectedRows := ∅;
     fileStats := ∅ |}.

(** [addFile(fileData)]; [fileId] is the id the action draws from the clock
    and the random generator, and returns. *)
Definition addFile (fileId : jsstring) (fileData : FileData) (s : store) : store :=
  {| files := files s ++ [{| file_id := fileId; file_name := fd_name fileData;
                             file_path := fd_path fileData;
                             file_size := fd_size fileData;
                             file_rowCount := None; file_columnCount := None |}];
     currentFileId := currentFileId s; parsedData := parsedData s;
     filteredData := filteredData s; columns := columns s; filters := filters s;
     sortConfig := sortConfig s; selectedRows := selectedRows s;
     fileStats := fileStats s |}.

(** [findIndex] then overwrite: only the first entry with that id changes. *)
Fixpoint update_first (fileId : jsstring) (f : FileEntry -> FileEntry)
    (l : list FileEntry) : list FileEntry :=
  match l with
  | [] => []
  | e :: l' =>
      if JsString.eqb (file_id e) fileId then f e :: l'
      else e :: update_first fileId f l'
  end.

(** [updateFile(fileId, { rowCount, columnCount })] *)
Definition updateFile (fileId : jsstring) (rowCount columnCount : Z) (s : store) : store :=
  {| files := update_first fileId
                (fun e => {| file_id := file_id e; file_name := file_name e;
                             file_path := file_path e; file_size := file_size e;
                             file_rowCount := Some rowCount;
                             file_columnCount := Some columnCount |})
                (files s);
     currentFileId := currentFileId s; parsedData := parsedData s;
     filteredData := filteredData s; columns := columns s; filters := filters s;
     sortConfig := sortConfig s; selectedRows := selectedRows s;
     fileStats := fileStats s |}.

Definition setCurrentFile (fileId : option jsstring) (s : store) : store :=
  {| files := files s; currentFileId := fileId; parsedData := parsedData s;
     filteredData := filteredData s; columns := columns s; filters := filters s;
     sortConfig := sortConfig s; selectedRows := selectedRows s;
     fileStats := fileStats s |}.

Definition setParsedData (fileId : jsstring) (data : list Row) (cols : list Column)
    (s : store) : store :=
  {| files := files s; currentFileId := currentFileId s;
     parsedData := <[fileId := data]> (parsedData s);
     filteredData := <[fileId := data]> (filteredData s);
     columns := <[fileId := cols]> (columns s);
     filters := filters s; sortConfig := sortConfig s;
     selectedRows := selectedRows s; fileStats := fileStats s |}.

Definition setFilteredData (fileId : jsstring) (data : list Row) (s : store) : store :=
  {| files := files s; currentFileId := currentFileId s; parsedData := parsedData s;
     filteredData := <[fileId := data]> (filteredData s);
     columns := columns s; filters := filters s; sortConfig := sortConfig s;
     selectedRows := selectedRows s; fileStats := fileStats s |}.

Definition setFilters (fileId : jsstring) (v : Filters) (s : store) : store :=
  {| files := files s; currentFileId := currentFileId s; parsedData := parsedData s;
     filteredData := filteredData s; columns := columns s;
     filters := <[fileId := v]> (filters s); sortConfig := sortConfig s;
     selectedRows := selectedRows s; fileStats := fileStats s |}.

Definition setSortConfig (fileId : jsstring) (v : SortConfig) (s : store) : store :=
  {| files := files s; currentFileId := currentFileId s; parsedData := parsedData s;
     filteredData := filteredData s; columns := columns s; filters := filters s;
     sortConfig := <[fileId := v]> (sortConfig s);
     selectedRows := selectedRows s; fileStats := fileStats s |}.

Definition setSelectedRows (fileId : jsstring) (v : SelectedRows) (s : store) : store :=
  {| files := files s; currentFileId := currentFileId s; parsedData := parsedData s;
     filteredData := filteredData s; columns := columns s; filters := filters s;
     sortConfig := sortConfig s; selectedRows := <[fileId := v]> (selectedRows s);
     fileStats := fileStats s |}.

Definition setFileStats (fileId : jsstring) (stats : FileStats) (s : store) : store :=
  {| files := files s; currentFileId := currentFileId s; parsedData := parsedData s;
     filteredData := filteredData s; columns := columns s; filters := filters s;
     sortConfig := sortConfig s; selectedRows := selectedRows s;
     fileStats := <[fileId := stats]> (fileStats s) |}.

(** [removeFile(fileId)] *)
Definition removeFile (fileId : jsstring) (s : store) : store :=
  let files' := List.filter (fun f => negb (JsString.eqb (file_id f) fileId)) (files s) in
  {| files := files';
     currentFileId :=
       if bool_decide (currentFileId s = Some fileId)
       then match files' with
            | f :: _ => Some (file_id f)
            | [] => None
            end
       else currentFileId s;
     parsedData := delete fileId (parsedData s);
     filteredData := delete fileId (filteredData s);
     columns := delete fileId (columns s);
     filters := delete fileId (filters s);
     sortConfig := delete fileId (sortConfig s);
     selectedRows := delete fileId (selectedRows s);
     fileStats := delete fileId (fileStats s) |}.

(** One call of a store action, and a run of calls in order. *)
Inductive action :=
  | AddFile (fileId : jsstring) (fileData : FileData)
  | UpdateFile (fileId : jsstring) (rowCount columnCount : Z)
  | SetCurrentFile (fileId : option jsstring)
  | SetParsedData (fileId : jsstring) (data : list Row) (cols : list Column)
  | SetFilteredData (fileId : jsstring) (data : list Row)
  | SetFilters (fileId : jsstring) (v : Filters)
  | SetSortConfig (fileId : jsstring) (v : SortConfig)
  | SetSelectedRows (fileId : jsstring) (v : SelectedRows)
  | SetFileStats (fileId : jsstring) (stats : FileStats)
  | RemoveFile (fileId : jsstring)
  | ClearAll.

Definition step (a : action) (s : store) : store :=
  match a with
  | AddFile fileId fileData => addFile fileId fileData s
  | UpdateFile fileId rowCount columnCount => updateFile fileId rowCount columnCount s
  | SetCurrentFile fileId => setCurrentFile fileId s
  | SetParsedData fileId data cols => setParsedData fileId data cols s
  | SetFilteredData fileId data => setFilteredData fileId data s
  | SetFilters fileId v => setFilters fileId v s
  | SetSortConfig fileId v => setSortConfig fileId v s
  | SetSelectedRows fileId v => setSelectedRows fileId v s
  | SetFileStats fileId stats => setFileStats fileId stats s
  | RemoveFile fileId => removeFile fileId s
  | ClearAll => clearAll
  end.

Definition run (later : list action) (s : store) : store :=
  List.fold_left (fun s a => step a s) later s.

(** The action stores something under [fileId]. *)
Definition stores_under (fileId : jsstring) (a : action) : bool :=
  match a with
  | SetParsedData k _ _ | SetFilteredData k _ | SetFilters k _ | SetSortConfig k _
  | SetSelectedRows k _ | SetFileStats k _ => JsString.eqb k fileId
  | _ => false
  end.

(** The maps of the store hold nothing under [fileId]. *)
Definition forgotten (fileId : jsstring) (s : store) : Prop :=
  parsedData s !! fileId = None
  /\ filteredData s !! fileId = None
  /\ columns s !! fileId = None
  /\ filters s !! fileId = None
  /\ sortConfig s !! fileId = None
  /\ selectedRows s !! fileId = None
  /\ fileStats s !! fileId = None.

End Actions.
End csvDataActions.

Definition SLASH : N := 47%N.

(** [path.split("/").pop()] *)
Definition last_segment (path : jsstring) : jsstring :=
  List.last (split SLASH path) [].

(** The name [selectFiles] gives the file of a path:
    [path.split("/").pop() || "unknown.csv"]. *)
Definition name_of_path (path : jsstring) : jsstring :=
  ToString (or_else (VStr (last_segment path)) (VStr (str "unknown.csv"))).

Module PlotlyDemo.

(** [columnAnalysis.map((col) => ({ id: col.name, name: col.name, ... }))] *)
Definition columns_of (columnAnalysis : list ColumnInfo) : list Column :=
  List.map (fun col => {| col_id := ci_name col; col_name := ci_name col;
                          col_type := ci_data_type col;
                          col_nullable := ci_nullable col |})
           columnAnalysis.

(** [{ valid_rows: fileContent.content.split("\n").length - 1, issues: [] }] *)
Definition qualityReport (content : jsstring) : QualityReport :=
  {| valid_rows := Z.of_nat (length (split LF content)) - 1; issues := [] |}.

(** The rows [processSingleFile] hands to [setParsedData]. *)
Definition parsedData (columns : list Column) (content : jsstring) : list Row :=
  let contentLines := nonblank_lines content in
  let dataRows := slice_from_1 contentLines in
  mapi
    (fun row index =>
       let values := split COMMA row in
       forEach (fun obj col colIndex => setProp obj (col_id col) (cell_at values colIndex))
               columns [(str "id", VNum (Z.of_nat index))])
    dataRows.

Section Load.
Context {Filters SortConfig SelectedRows : Type}.
Local Abbreviation store := (Store Filters SortConfig SelectedRows).

(** The [catch] block.  The [fileId] of the [try] block is not in scope
    there, so [typeof fileId] is "undefined" and the id removed is
    [tempFileId]. *)
Definition on_error (tempFileId : jsstring) (s : store) : store :=
  if truthy (VStr tempFileId) then csvDataActions.removeFile tempFileId s else s.

(** The file [processSingleFile] is given is an object (the first guard of
    the function passes), a [FileData] whose [name] or [path] may be missing:
    a missing one is the empty string, which [||] and [!] read as they read
    [undefined].

    [file?.name || file?.path?.split("/").pop() || "unknown_file.csv"] *)
Definition fileName_of (file : FileData) : jsstring :=
  ToString (or_else (or_else (VStr (fd_name file)) (VStr (last_segment (fd_path file))))
                    (VStr (str "unknown_file.csv"))).

(** [file?.path || file?.name] *)
Definition filePath_of (file : FileData) : jsstring :=
  ToString (or_else (VStr (fd_path file)) (VStr (fd_name file))).

(** [processSingleFile(file)] on the CSV data store.  [tempFileId] and
    [fileId] are the two ids drawn from the clock and the random generator;
    [read], [validated] and [analysed] are the answers of the backend's
    [read_csv_file], [validate_csv_file] and [analyze_csv_columns], [None]
    when the call is rejected.  The boolean tells whether the load
    completed ([false]: the function throws).  Without a path and a name the
    function throws before its [try] block: the store is not touched and the
    [catch] block does not run. *)
Definition processSingleFile (tempFileId fileId : jsstring) (file : FileData)
    (read : option FileContent) (validated : option ValidationResult)
    (analysed : option (list ColumnInfo)) (s : store) : store * bool :=
  let fileName := fileName_of file in
  let filePath := filePath_of file in
  if negb (truthy (VStr filePath)) then (s, false)
  else
  let s := csvDataActions.addFile fileId
             {| fd_name := fileName; fd_path := filePath; fd_size := fd_size file |} s in
  match read, validated, analysed with
  | Some fileContent, Some validationResult, Some columnAnalysis =>
      let report := qualityReport (content fileContent) in
      let cols := columns_of columnAnalysis in
      let s := csvDataActions.updateFile fileId (estimated_rows validationResult)
                 (column_count validationResult) s in
      if negb (truthy (VStr (content fileContent))) then (on_error tempFileId s, false)
      else
        let rows := parsedData cols (content fileContent) in
        let s := csvDataActions.setParsedData fileId rows cols s in
        let s := csvDataActions.setFileStats fileId
                   {| fs_validationResult := validationResult;
                      fs_columnAnalysis := columnAnalysis;
                      fs_qualityReport := report;
                      fs_fileContent := fileContent |} s in
        (csvDataActions.setCurrentFile (Some fileId) s, true)
  | _, _, _ => (on_error tempFileId s, false)
  end.

End Load.

End PlotlyDemo.

(* ===================================================================== *)
(** ** The data table component: filter, sort, paginate *)
(* ===================================================================== *)

(** [Array.prototype.slice(start, end)]: a negative index counts from the
    end, and both are clamped to the array. *)
Definition relative_index (len i : Z) : Z :=
  if i <? 0 then Z.max (len + i) 0 else Z.min i len.

Definition Array_slice {A : Type} (l : list A) (start end_ : Z) : list A :=
  let len := Z.of_nat (length l) in
  let k := relative_index len start in
  let final := relative_index len end_ in
  List.firstn (Z.to_nat (Z.max (final - k) 0)) (List.skipn (Z.to_nat k) l).

(** [Array.prototype.sort(compare)].  The sort is stable: [x] goes before the
    first later element it does not compare greater than.  ECMAScript fixes
    the result for a consistent comparator only, and there every stable sort
    returns this list. *)
Fixpoint sorted_insert {A : Type} (compare : A -> A -> Z) (x : A) (l : list A) : list A :=
  match l with
  | [] => [x]
  | y :: l' =>
      if compare x y <=? 0 then x :: y :: l' else y :: sorted_insert compare x l'
  end.

Definition Array_sort {A : Type} (compare : A -> A -> Z) (l : list A) : list A :=
  List.fold_right (sorted_insert compare) [] l.

(** [Math.ceil(a / b)] for integers [0 <= a] and [1 <= b] (the quotient of two
    array-sized integers is never rounded onto an integer, so the floating
    point result is the exact ceiling). *)
Definition Math_ceil_div (a b : Z) : Z := - ((- a) / b).

Record TableInfo := {
  totalRows : Z;
  filteredRows : Z;
  currentPage : Z;
  totalPages : Z;
  startRow : Z;
  endRow : Z
}.

Module DataTable.
Section Component.
Context {L : Locale}.
Context {Filters SortConfig SelectedRows : Type}.

Definition asc : jsstring := str "asc".

(** The reactive [parsedData] of the component:
    [currentFileId ? $csvDataStore.parsedData.get(currentFileId) : []];
    [None] is JavaScript's [undefined]. *)
Definition parsedData_view (s : Store Filters SortConfig SelectedRows)
    : option (list Row) :=
  match currentFileId s with
  | Some fileId => if truthy (VStr fileId) then parsedData s !! fileId else Some []
  | None => Some []
  end.

(** [$: tableInfo = { ... }] *)
Definition tableInfo (parsed filtered : list Row) (page pageSize : Z) : TableInfo :=
  {| totalRows := Z.of_nat (length parsed);
     filteredRows := Z.of_nat (length filtered);
     currentPage := page;
     totalPages := Math_ceil_div (Z.of_nat (length filtered)) pageSize;
     startRow := (page - 1) * pageSize + 1;
     endRow := Z.min (page * pageSize) (Z.of_nat (length filtered)) |}.

(** The entries of [columnFilters] that are kept:
    [Array.from(columnFilters.entries()).filter(([_, value]) => value?.trim())]. *)
Definition columnFilterEntries (columnFilters : list (jsstring * jsstring))
    : list (jsstring * jsstring) :=
  List.filter (fun '(_, v) => truthy (VStr (trim v))) columnFilters.

(** [globalFilter?.trim()?.toLowerCase() || ""] *)
Definition globalFilterLower (globalFilter : jsstring) : jsstring :=
  ToString (or_else (VStr (toLowerCase (trim globalFilter))) (VStr [])).

(** [String(row[columnId] || "").toLowerCase()] *)
Definition cellValue (row : Row) (columnId : jsstring) : jsstring :=
  toLowerCase (ToString (or_else (get row columnId) (VStr []))).

(** The callback of [data.filter] in [filterDataSimple]. *)
Definition row_passes (globalLower : jsstring) (entries : list (jsstring * jsstring))
    (row : Row) : bool :=
  let hasGlobalFilter := (0 <? length globalLower)%nat in
  if hasGlobalFilter
     && negb (existsb (fun v => includes (toLowerCase (ToString v)) globalLower)
                      (Object_values row))
  then false
  else forallb (fun '(columnId, filterValue) =>
                  includes (cellValue row columnId) (toLowerCase filterValue))
               entries.

(** [filterDataSimple(data, globalFilter, columnFilters)].  [data] is an
    array (the caller tests [parsedData] first), [columnFilters] the entries
    of the [Map], whose values are the trimmed input strings. *)
Definition filterDataSimple (data : list Row) (globalFilter : jsstring)
    (columnFilters : list (jsstring * jsstring)) : list Row :=
  if Nat.eqb (length data) 0 then []
  else
    let globalLower := globalFilterLower globalFilter in
    let hasGlobalFilter := (0 <? length globalLower)%nat in
    let entries := columnFilterEntries columnFilters in
    if negb hasGlobalFilter && Nat.eqb (length entries) 0 then data
    else List.filter (row_passes globalLower entries) data.

(** The comparator [sortData] hands to [sort]. *)
Definition compare_rows (column direction : jsstring) (a b : Row) : Z :=
  let aVal := get a column in
  let bVal := get b column in
  if is_nullish aVal && is_nullish bVal then 0
  else if is_nullish aVal then (if JsString.eqb direction asc then -1 else 1)
  else if is_nullish bVal then (if JsString.eqb direction asc then 1 else -1)
  else
    let comparison :=
      match aVal, bVal with
      | VNum x, VNum y => x - y
      | _, _ => localeCompare (ToString aVal) (ToString bVal)
      end in
    if JsString.eqb direction asc then comparison else - comparison.

(** [sortData(data, column, direction)]: [if (!column || !data) return data],
    then the sort of a copy. *)
Definition sortData (data : list Row) (column direction : jsstring) : list Row :=
  if negb (truthy (VStr column)) then data
  else Array_sort (compare_rows column direction) data.

(** [paginateData(data, page, size)] *)
Definition paginateData (data : list Row) (page size : Z) : list Row :=
  let startIndex := (page - 1) * size in
  let endIndex := startIndex + size in
  Array_slice data startIndex endIndex.

End Component.
End DataTable.

(* ===================================================================== *)
(** ** The same three functions on array references *)
(* ===================================================================== *)

(** Arrays are objects: [data.filter], [data.slice] and [[...data]] allocate
    a new array, [sort] rewrites the array it is called on, and [return data]
    hands back the caller's own array.  The heap maps an array reference to
    the rows the array holds (none of the three functions writes to a row
    object, so rows are kept as values). *)
Module Heap.

Abbreviation loc := positive.
Abbreviation heap := (gmap positive (list Row)).

(** A computation reads and updates the heap; [None] is a read through a
    reference that holds no array. *)
Definition M (A : Type) : Type := heap -> option (A * heap).

Definition ret {A : Type} (a : A) : M A := fun h => Some (a, h).

Definition bind {A B : Type} (m : M A) (k : A -> M B) : M B :=
  fun h => match m h with
           | Some (a, h') => k a h'
           | None => None
           end.

Notation "'do' x <- m ; k" := (bind m (fun x => k))
  (at level 10, x name, m at level 100, k at level 200).

Definition read (a : loc) : M (list Row) :=
  fun h => match h !! a with
           | Some rows => Some (rows, h)
           | None => None
           end.

Definition write (a : loc) (rows : list Row) : M unit :=
  fun h => Some (tt, <[a := rows]> h).

Definition alloc (rows : list Row) : M loc :=
  fun h => let a := fresh (dom h) in Some (a, <[a := rows]> h).

(** [[...data]] *)
Definition spread (data : loc) : M loc :=
  do rows <- read data; alloc rows.

(** [a.sort(compare)]: sorts [a] itself and returns it. *)
Definition sort_in_place (compare : Row -> Row -> Z) (a : loc) : M loc :=
  do rows <- read a;
  do u <- write a (Array_sort compare rows);
  ret a.

Section Functions.
Context {L : Locale}.

Definition filterDataSimple (data : loc) (globalFilter : jsstring)
    (columnFilters : list (jsstring * jsstring)) : M loc :=
  do rows <- read data;
  if Nat.eqb (length rows) 0 then alloc []
  else
    let globalLower := DataTable.globalFilterLower globalFilter in
    let hasGlobalFilter := (0 <? length globalLower)%nat in
    let entries := DataTable.columnFilterEntries columnFilters in
    if negb hasGlobalFilter && Nat.eqb (length entries) 0 then ret data
    else alloc (List.filter (DataTable.row_passes globalLower entries) rows).

Definition sortData (data : loc) (column direction : jsstring) : M loc :=
  if negb (truthy (VStr column)) then ret data
  else
    do copy <- spread data;
    sort_in_place (DataTable.compare_rows column direction) copy.

Definition paginateData (data : loc) (page size : Z) : M loc :=
  let startIndex := (page - 1) * size in
  let endIndex := startIndex + size in
  do rows <- read data;
  alloc (Array_slice rows startIndex endIndex).

End Functions.

End Heap.

(* ===================================================================== *)
(** ** The data table component: state and handlers *)
(* ===================================================================== *)

(** A JavaScript [Map] with string keys: its entries in insertion order,
    one per key.  [set] keeps the place of a key that is there; [delete]
    removes the key. *)
Module JsMap.

Fixpoint set {V : Type} (m : list (jsstring * V)) (key : jsstring) (v : V)
    : list (jsstring * V) :=
  match m with
  | [] => [(key, v)]
  | (k, w) :: m' =>
      if JsString.eqb k key then (k, v) :: m' else (k, w) :: set m' key v
  end.

Definition delete {V : Type} (m : list (jsstring * V)) (key : jsstring)
    : list (jsstring * V) :=
  List.filter (fun kv => negb (JsString.eqb (fst kv) key)) m.

End JsMap.

(** The [let] variables of the component the handlers write. *)
Record TableState := {
  ts_globalFilter : jsstring;
  ts_sortColumn : jsstring;
  ts_sortDirection : jsstring;
  ts_currentPage : Z;
  ts_pageSize : Z;
  ts_columnFilters : list (jsstring * jsstring)
}.

Module DataTableHandlers.

Definition desc : jsstring := str "desc".

(** The state the component starts in, [pageSize] read from the UI store. *)
Definition initial (pageSize : Z) : TableState :=
  {| ts_globalFilter := []; ts_sortColumn := []; ts_sortDirection := DataTable.asc;
     ts_currentPage := 1; ts_pageSize := pageSize; ts_columnFilters := [] |}.

Definition handleGlobalFilterChange (v : jsstring) (st : TableState) : TableState :=
  {| ts_globalFilter := v; ts_sortColumn := ts_sortColumn st;
     ts_sortDirection := ts_sortDirection st; ts_currentPage := 1;
     ts_pageSize := ts_pageSize st; ts_columnFilters := ts_columnFilters st |}.

Definition handleSort (columnId : jsstring) (st : TableState) : TableState :=
  if JsString.eqb (ts_sortColumn st) columnId
  then {| ts_globalFilter := ts_globalFilter st; ts_sortColumn := ts_sortColumn st;
          ts_sortDirection :=
            if JsString.eqb (ts_sortDirection st) DataTable.asc then desc
            else DataTable.asc;
          ts_currentPage := 1; ts_pageSize := ts_pageSize st;
          ts_columnFilters := ts_columnFilters st |}
  else {| ts_globalFilter := ts_globalFilter st; ts_sortColumn := columnId;
          ts_sortDirection := DataTable.asc; ts_currentPage := 1;
          ts_pageSize := ts_pageSize st; ts_columnFilters := ts_columnFilters st |}.

(** [handlePageSizeChange]: [size] is the number the selected option holds. *)
Definition handlePageSizeChange (size : Z) (st : TableState) : TableState :=
  {| ts_globalFilter := ts_globalFilter st; ts_sortColumn := ts_sortColumn st;
     ts_sortDirection := ts_sortDirection st; ts_currentPage := 1;
     ts_pageSize := size; ts_columnFilters := ts_columnFilters st |}.

Definition handlePageChange (page : Z) (st : TableState) : TableState :=
  {| ts_globalFilter := ts_globalFilter st; ts_sortColumn := ts_sortColumn st;
     ts_sortDirection := ts_sortDirection st; ts_currentPage := page;
     ts_pageSize := ts_pageSize st; ts_columnFilters := ts_columnFilters st |}.

Definition with_filters (cf : list (jsstring * jsstring)) (st : TableState) : TableState :=
  {| ts_globalFilter := ts_globalFilter st; ts_sortColumn := ts_sortColumn st;
     ts_sortDirection := ts_sortDirection st; ts_currentPage := 1;
     ts_pageSize := ts_pageSize st; ts_columnFilters := cf |}.

Definition clearColumnFilter (columnId : jsstring) (st : TableState) : TableState :=
  with_filters (JsMap.delete (ts_columnFilters st) columnId) st.

Definition clearAllFilters (st : TableState) : TableState :=
  {| ts_globalFilter := []; ts_sortColumn := ts_sortColumn st;
     ts_sortDirection := ts_sortDirection st; ts_currentPage := 1;
     ts_pageSize := ts_pageSize st; ts_columnFilters := [] |}.

(** [handleColumnFilterInput(columnId, event)], [v] the text of the input. *)
Definition handleColumnFilterInput (columnId v : jsstring) (st : TableState) : TableState :=
  if JsString.eqb (trim v) []
  then with_filters (JsMap.delete (ts_columnFilters st) columnId) st
  else with_filters (JsMap.set (ts_columnFilters st) columnId (trim v)) st.

(** What the user does to the table. *)
Inductive event :=
  | GlobalFilterChange (v : jsstring)
  | Sort (columnId : jsstring)
  | PageSizeChange (size : Z)
  | PageChange (page : Z)
  | ClearColumnFilter (columnId : jsstring)
  | ClearAllFilters
  | ColumnFilterInput (columnId v : jsstring).

Definition handle (e : event) (st : TableState) : TableState :=
  match e with
  | GlobalFilterChange v => handleGlobalFilterChange v st
  | Sort columnId => handleSort columnId st
  | PageSizeChange size => handlePageSizeChange size st
  | PageChange page => handlePageChange page st
  | ClearColumnFilter columnId => clearColumnFilter columnId st
  | ClearAllFilters => clearAllFilters st
  | ColumnFilterInput columnId v => handleColumnFilterInput columnId v st
  end.

Definition handle_all (events : list event) (st : TableState) : TableState :=
  List.fold_left (fun st e => handle e st) events st.

(** The page buttons of the template:
    [Array.from({ length: Math.min(5, totalPages) },
                (_, i) => Math.max(1, currentPage - 2) + i)
       .filter((page) => page <= totalPages)]. *)
Definition pageNumbers (page pages : Z) : list Z :=
  List.filter (fun p => p <=? pages)
    (List.map (fun i => Z.max 1 (page - 2) + Z.of_nat i)
              (seq 0 (Z.to_nat (Z.min 5 pages)))).

Section Locale.
Context {L : Locale}.

(** [filterData(data, filter)], the filter on all columns the component had
    first. *)
Definition filterData (data : list Row) (filter : jsstring) : list Row :=
  if negb (truthy (VStr filter)) then data
  else
    let lowerFilter := toLowerCase filter in
    List.filter
      (fun row => existsb (fun v => includes (toLowerCase (ToString v)) lowerFilter)
                          (Object_values row))
      data.

End Locale.

Section Format.
(** [n.toLocaleString()], and the text [new Date(value).toLocaleDateString()]
    gives when [new Date(value)] is a date ([None] when it is not): both
    depend on the host. *)
Context (toLocaleString : Z -> jsstring) (toLocaleDateString : value -> option jsstring).

(** [formatCellValue(value, type)] *)
Definition formatCellValue (v : value) (type : jsstring) : value :=
  if bool_decide (v = VNull) || bool_decide (v = VUndefined) || bool_decide (v = VStr [])
  then VStr (str "null")
  else if JsString.eqb type (str "number")
  then match v with
       | VNum n => VStr (toLocaleString n)
       | _ => v
       end
  else if JsString.eqb type (str "date")
  then match toLocaleDateString v with
       | Some text => VStr text
       | None => v
       end
  else if JsString.eqb type (str "boolean")
  then (if truthy v then VStr (str "true") else VStr (str "false"))
  else VStr (ToString v).

End Format.

End DataTableHandlers.

(* ===================================================================== *)
(** ** The file store and the UI state store (stores/fileStore.js, uiStateStore.js) *)
(* ===================================================================== *)

(** An entry of [processingStatus].  [progress] and [message] are absent
    from an entry made by [updateProcessingStatus] for an id without one. *)
Record ProcessingStatus := {
  ps_status : jsstring;
  ps_progress : option Z;
  ps_message : option jsstring
}.

(** The file store; the [File] objects, the metadata and the validation
    results are kept as they come. *)
Record FileStore (File Metadata Validation : Type) := {
  uploadedFiles : gmap jsstring File;
  fileMetadata : gmap jsstring Metadata;
  validationResults : gmap jsstring Validation;
  processingStatus : gmap jsstring ProcessingStatus;
  processingQueue : list jsstring
}.

Arguments uploadedFiles {_ _ _} _.
Arguments fileMetadata {_ _ _} _.
Arguments validationResults {_ _ _} _.
Arguments processingStatus {_ _ _} _.
Arguments processingQueue {_ _ _} _.

Record ProcessingStats := {
  stat_total : Z;
  stat_pending : Z;
  stat_processing : Z;
  stat_completed : Z;
  stat_failed : Z;
  stat_queued : Z
}.

Module fileActions.
Section Actions.
Context {File Metadata Validation : Type}.
Local Abbreviation store := (FileStore File Metadata Validation).

Definition clearAll : store :=
  {| uploadedFiles := ∅; fileMetadata := ∅; validationResults := ∅;
     processingStatus := ∅; processingQueue := [] |}.

Definition addUploadedFile (fileId : jsstring) (file : File) (s : store) : store :=
  {| uploadedFiles := <[fileId := file]> (uploadedFiles s);
     fileMetadata := fileMetadata s; validationResults := validationResults s;
     processingStatus :=
       <[fileId := {| ps_status := str "pending"; ps_progress := Some 0;
                      ps_message := Some (str "Waiting to process...") |}]>
         (processingStatus s);
     processingQueue := processingQueue s |}.

Definition setFileMetadata (fileId : jsstring) (metadata : Metadata) (s : store) : store :=
  {| uploadedFiles := uploadedFiles s;
     fileMetadata := <[fileId := metadata]> (fileMetadata s);
     validationResults := validationResults s;
     processingStatus := processingStatus s; processingQueue := processingQueue s |}.

Definition setValidationResult (fileId : jsstring) (result : Validation) (s : store)
    : store :=
  {| uploadedFiles := uploadedFiles s; fileMetadata := fileMetadata s;
     validationResults := <[fileId := result]> (validationResults s);
     processingStatus := processingStatus s; processingQueue := processingQueue s |}.

(** [updateProcessingStatus(fileId, status, progress = null, message = null)]:
    the entry of the id (or the empty object) with [status] written over it,
    and [progress] and [message] written over it when they are given. *)
Definition updateProcessingStatus (fileId status : jsstring) (progress : option Z)
    (message : option jsstring) (s : store) : store :=
  let current := processingStatus s !! fileId in
  {| uploadedFiles := uploadedFiles s; fileMetadata := fileMetadata s;
     validationResults := validationResults s;
     processingStatus :=
       <[fileId :=
           {| ps_status := status;
              ps_progress := match progress with
                             | Some p => Some p
                             | None => current ≫= ps_progress
                             end;
              ps_message := match message with
                            | Some m => Some m
                            | None => current ≫= ps_message
                            end |}]>
         (processingStatus s);
     processingQueue := processingQueue s |}.

(** [processingQueue.includes(fileId)] *)
Definition queued (fileId : jsstring) (q : list jsstring) : bool :=
  existsb (JsString.eqb fileId) q.

Definition addToProcessingQueue (fileId : jsstring) (s : store) : store :=
  {| uploadedFiles := uploadedFiles s; fileMetadata := fileMetadata s;
     validationResults := validationResults s;
     processingStatus := processingStatus s;
     processingQueue :=
       if negb (queued fileId (processingQueue s)) then processingQueue s ++ [fileId]
       else processingQueue s |}.

Definition removeFromProcessingQueue (fileId : jsstring) (s : store) : store :=
  {| uploadedFiles := uploadedFiles s; fileMetadata := fileMetadata s;
     validationResults := validationResults s;
     processingStatus := processingStatus s;
     processingQueue :=
       List.filter (fun id => negb (JsString.eqb id fileId)) (processingQueue s) |}.

(** [getNextInQueue()]: the id it returns ([null] for an empty queue) and
    the store it leaves. *)
Definition getNextInQueue (s : store) : option jsstring * store :=
  match processingQueue s with
  | [] => (None, s)
  | next :: rest =>
      (Some next,
       {| uploadedFiles := uploadedFiles s; fileMetadata := fileMetadata s;
          validationResults := validationResults s;
          processingStatus := processingStatus s; processingQueue := rest |})
  end.

Definition removeFile (fileId : jsstring) (s : store) : store :=
  {| uploadedFiles := delete fileId (uploadedFiles s);
     fileMetadata := delete fileId (fileMetadata s);
     validationResults := delete fileId (validationResults s);
     processingStatus := delete fileId (processingStatus s);
     processingQueue :=
       List.filter (fun id => negb (JsString.eqb id fileId)) (processingQueue s) |}.

(** The pass of [getProcessingStats] over [processingStatus]: one count up
    for an entry whose status is the one of the counter. *)
Definition count_status (status : jsstring) (m : gmap jsstring ProcessingStatus) : Z :=
  map_fold (fun _ st n => if JsString.eqb (ps_status st) status then n + 1 else n) 0 m.

(** [getProcessingStats()]; the store is left as it is. *)
Definition getProcessingStats (s : store) : ProcessingStats :=
  {| stat_total := Z.of_nat (size (uploadedFiles s));
     stat_pending := count_status (str "pending") (processingStatus s);
     stat_processing := count_status (str "processing") (processingStatus s);
     stat_completed := count_status (str "completed") (processingStatus s);
     stat_failed := count_status (str "failed") (processingStatus s);
     stat_queued := Z.of_nat (length (processingQueue s)) |}.

(** One call of an action of the file store. *)
Inductive action :=
  | AddUploadedFile (fileId : jsstring) (file : File)
  | SetFileMetadata (fileId : jsstring) (metadata : Metadata)
  | SetValidationResult (fileId : jsstring) (result : Validation)
  | UpdateProcessingStatus (fileId status : jsstring) (progress : option Z)
      (message : option jsstring)
  | AddToProcessingQueue (fileId : jsstring)
  | RemoveFromProcessingQueue (fileId : jsstring)
  | GetNextInQueue
  | RemoveFile (fileId : jsstring)
  | ClearAll.

Definition step (a : action) (s : store) : store :=
  match a with
  | AddUploadedFile fileId file => addUploadedFile fileId file s
  | SetFileMetadata fileId metadata => setFileMetadata fileId metadata s
  | SetValidationResult fileId result => setValidationResult fileId result s
  | UpdateProcessingStatus fileId status progress message =>
      updateProcessingStatus fileId status progress message s
  | AddToProcessingQueue fileId => addToProcessingQueue fileId s
  | RemoveFromProcessingQueue fileId => removeFromProcessingQueue fileId s
  | GetNextInQueue => snd (getNextInQueue s)
  | RemoveFile fileId => removeFile fileId s
  | ClearAll => clearAll
  end.

Definition run (actions : list action) (s : store) : store :=
  List.fold_left (fun s a => step a s) actions s.

End Actions.
End fileActions.

(** The UI state store. *)
Record UiState := {
  isLoading : bool;
  loadingMessage : jsstring;
  showFilters : bool;
  tableView : jsstring;
  theme : jsstring;
  sidebarCollapsed : bool;
  showColumnAnalyzer : bool;
  showDataSummary : bool;
  searchQuery : jsstring;
  selectedColumns : gset jsstring;
  ui_pageSize : Z;
  ui_currentPage : Z;
  fullscreenMode : bool
}.

Module uiStateActions.

Definition reset : UiState :=
  {| isLoading := false; loadingMessage := []; showFilters := false;
     tableView := str "grid"; theme := str "light"; sidebarCollapsed := false;
     showColumnAnalyzer := false; showDataSummary := true; searchQuery := [];
     selectedColumns := ∅; ui_pageSize := 50; ui_currentPage := 1;
     fullscreenMode := false |}.

Definition with_selection (sel : gset jsstring) (s : UiState) : UiState :=
  {| isLoading := isLoading s; loadingMessage := loadingMessage s;
     showFilters := showFilters s; tableView := tableView s; theme := theme s;
     sidebarCollapsed := sidebarCollapsed s;
     showColumnAnalyzer := showColumnAnalyzer s;
     showDataSummary := showDataSummary s; searchQuery := searchQuery s;
     selectedColumns := sel; ui_pageSize := ui_pageSize s;
     ui_currentPage := ui_currentPage s; fullscreenMode := fullscreenMode s |}.

(** [toggleColumnSelection(columnId)] *)
Definition toggleColumnSelection (columnId : jsstring) (s : UiState) : UiState :=
  with_selection
    (if bool_decide (columnId ∈ selectedColumns s)
     then selectedColumns s ∖ {[columnId]}
     else selectedColumns s ∪ {[columnId]})
    s.

(** [setPageSize(size)]: back to the first page. *)
Definition setPageSize (size : Z) (s : UiState) : UiState :=
  {| isLoading := isLoading s; loadingMessage := loadingMessage s;
     showFilters := showFilters s; tableView := tableView s; theme := theme s;
     sidebarCollapsed := sidebarCollapsed s;
     showColumnAnalyzer := showColumnAnalyzer s;
     showDataSummary := showDataSummary s; searchQuery := searchQuery s;
     selectedColumns := selectedColumns s; ui_pageSize := size;
     ui_currentPage := 1; fullscreenMode := fullscreenMode s |}.

Definition setCurrentPage (page : Z) (s : UiState) : UiState :=
  {| isLoading := isLoading s; loadingMessage := loadingMessage s;
     showFilters := showFilters s; tableView := tableView s; theme := theme s;
     sidebarCollapsed := sidebarCollapsed s;
     showColumnAnalyzer := showColumnAnalyzer s;
     showDataSummary := showDataSummary s; searchQuery := searchQuery s;
     selectedColumns := selectedColumns s; ui_pageSize := ui_pageSize s;
     ui_currentPage := page; fullscreenMode := fullscreenMode s |}.

End uiStateActions.

(* ===================================================================== *)
(** ** The chart component's filters and the export of the table *)
(* ===================================================================== *)

(** [v === null || v === undefined || v === ""] *)
Definition is_missing (v : value) : bool :=
  bool_decide (v = VNull) || bool_decide (v = VUndefined) || bool_decide (v = VStr []).

(** [[...new Set(values)]]: the values without repeats, each at the place
    of its first occurrence. *)
Fixpoint Set_values (values : list value) : list value :=
  match values with
  | [] => []
  | v :: values' =>
      v :: List.filter (fun w => negb (bool_decide (w = v))) (Set_values values')
  end.

Module Charts.
Section Component.
Context {Filters SortConfig SelectedRows : Type}.
Local Abbreviation store := (Store Filters SortConfig SelectedRows).

(** [currentFileId ? $csvDataStore.filteredData.get(currentFileId) || [] : []] *)
Definition filteredData_view (s : store) : list Row :=
  match currentFileId s with
  | Some fileId =>
      if truthy (VStr fileId) then default [] (filteredData s !! fileId) else []
  | None => []
  end.

(** [(currentFileId && $csvDataStore.columns.get(currentFileId)) || []] *)
Definition availableColumns (s : store) : list Column :=
  match currentFileId s with
  | Some fileId =>
      if truthy (VStr fileId) then default [] (columns s !! fileId) else []
  | None => []
  end.

(** [if (currentFileId) csvDataActions.setFilteredData(currentFileId, rows)] *)
Definition set_current_filtered (rows : list Row) (s : store) : store :=
  match currentFileId s with
  | Some fileId =>
      if truthy (VStr fileId) then csvDataActions.setFilteredData fileId rows s else s
  | None => s
  end.

(** [$csvDataStore.parsedData.get(currentFileId) || []] *)
Definition originalData (s : store) : list Row :=
  match currentFileId s with
  | Some fileId => default [] (parsedData s !! fileId)
  | None => []
  end.

(** [getUniqueValues(columnId)] *)
Definition getUniqueValues (columnId : jsstring) (s : store) : list value :=
  let values :=
    Set_values
      (List.filter (fun v => negb (is_missing v))
                   (List.map (fun row => get row columnId) (filteredData_view s))) in
  Array_slice values 0 50.

(** [applyCategoryFilter()], with the column and the value the two selects
    hold. *)
Definition applyCategoryFilter (categoryFilterColumn categoryFilterValue : jsstring)
    (s : store) : store :=
  if negb (truthy (VStr categoryFilterColumn)) || negb (truthy (VStr categoryFilterValue))
  then set_current_filtered (originalData s) s
  else
    let filtered :=
      List.filter
        (fun row => bool_decide (get row categoryFilterColumn = VStr categoryFilterValue))
        (filteredData_view s) in
    set_current_filtered filtered s.

(** The rows with a value in every column, and the rows that miss one. *)
Definition complete_rows (cols : list Column) (rows : list Row) : list Row :=
  List.filter (fun row => forallb (fun col => negb (is_missing (get row (col_id col)))) cols)
              rows.

Definition incomplete_rows (cols : list Column) (rows : list Row) : list Row :=
  List.filter (fun row => existsb (fun col => is_missing (get row (col_id col))) cols)
              rows.

(** [applyPresetFilter(type)].  The rows the case "outliers" keeps are
    computed in floating point (quartiles of [parseFloat] values): [outliers]
    stands for that case. *)
Definition applyPresetFilter (outliers : list Row -> list Row) (type : jsstring)
    (s : store) : store :=
  match currentFileId s with
  | Some fileId =>
      if truthy (VStr fileId) then
        let original := default [] (parsedData s !! fileId) in
        let filtered :=
          if JsString.eqb type (str "complete")
          then complete_rows (availableColumns s) original
          else if JsString.eqb type (str "incomplete")
          then incomplete_rows (availableColumns s) original
          else if JsString.eqb type (str "outliers") then outliers original
          else original in
        csvDataActions.setFilteredData fileId filtered s
      else s
  | None => s
  end.

(** [clearAdvancedFilters()] on the store. *)
Definition clearAdvancedFilters (s : store) : store :=
  set_current_filtered (originalData s) s.

End Component.
End Charts.

Module D3Demo.

(** The rows [handleDataExport] hands to the backend: under each column's
    name the cell the row has under the column's id. *)
Definition exportData (data : list Row) (cols : list Column) : list Row :=
  List.map
    (fun row =>
       List.fold_left (fun exportRow col => setProp exportRow (col_name col)
                                               (get row (col_id col)))
                      cols [])
    data.

End D3Demo.

(* ===================================================================== *)
(** ** The table's page handlers and the UI state store *)
(* ===================================================================== *)

(** [handlePageSizeChange] and [handlePageChange] write the component's
    variables and call [uiStateActions.setPageSize] and
    [uiStateActions.setCurrentPage]; the other handlers leave the UI state
    store alone. *)
Module DataTableWithStore.

Definition handle_store (e : DataTableHandlers.event) (ui : UiState) : UiState :=
  match e with
  | DataTableHandlers.PageSizeChange size => uiStateActions.setPageSize size ui
  | DataTableHandlers.PageChange page => uiStateActions.setCurrentPage page ui
  | _ => ui
  end.

Definition handle (e : DataTableHandlers.event) (p : TableState * UiState)
    : TableState * UiState :=
  (DataTableHandlers.handle e (fst p), handle_store e (snd p)).

Definition handle_all (events : list DataTableHandlers.event) (p : TableState * UiState)
    : TableState * UiState :=
  List.fold_left (fun p e => handle e p) events p.

(** The component as it is mounted: [pageSize = $uiStateStore.pageSize]. *)
Definition mounted (ui : UiState) : TableState * UiState :=
  (DataTableHandlers.initial (ui_pageSize ui), ui).

(** The events that move the page through the store. *)
Definition is_page_event (e : DataTableHandlers.event) : bool :=
  match e with
  | DataTableHandlers.PageSizeChange _ | DataTableHandlers.PageChange _ => true
  | _ => false
  end.

End DataTableWithStore.

(* ===================================================================== *)
(** ** A concrete locale and the predicates the properties are stated with *)
(* ===================================================================== *)

(** Lower-casing of the ASCII letters, other code units kept. *)
Definition ascii_toLowerCase (s : jsstring) : jsstring :=
  List.map (fun c => if ((65 <=? c) && (c <=? 90))%N then (c + 32)%N else c) s.

(** Comparison by code units, first difference first. *)
Fixpoint codeUnitCompare (s t : jsstring) : Z :=
  match s, t with
  | [], [] => 0
  | [], _ :: _ => -1
  | _ :: _, [] => 1
  | c :: s', d :: t' =>
      if (c <? d)%N then -1 else if (d <? c)%N then 1 else codeUnitCompare s' t'
  end.

(** The locale the concrete examples are evaluated in. *)
Definition ascii_locale : Locale.
Proof.
  refine {| toLowerCase := ascii_toLowerCase; localeCompare := codeUnitCompare |}.
  - reflexivity.
  - intros [|c s] H; [reflexivity|discriminate].
Defined.

(** Two lines of text, the second on a new line. *)
Definition nl (a b : jsstring) : jsstring := a ++ LF :: b.

(** A string between double quotes. *)
Definition quoted (s : jsstring) : jsstring := DQUOTE :: s ++ [DQUOTE].

(** What a row built from the fields [values] of a line holds under the
    column names [keys] other than [__proto__]: [null] for a column past the
    last field, and the trimmed field of its own position for a column whose
    name is not used again by a later column (of the columns of one name the
    last one decides). *)
Definition row_reads (keys values : list jsstring) (row : Row) : Prop :=
  (forall i k, nth_error keys i = Some k -> k <> PROTO -> (length values <= i)%nat ->
               get row k = VNull)
  /\ (forall i k v, nth_error keys i = Some k -> k <> PROTO ->
                    nth_error values i = Some v ->
                    (forall j, (i < j)%nat -> nth_error keys j <> Some k) ->
                    get row k = VStr (trim v)).

(** Every property of the row is the cell of a declared column (the field at
    a position below the number of [keys]) or satisfies [extra]. *)
Definition row_only (keys values : list jsstring) (extra : jsstring * value -> Prop)
    (row : Row) : Prop :=
  Forall (fun kv => extra kv
                    \/ exists i, nth_error keys i = Some (fst kv)
                                 /\ snd kv = cell_at values i)
         row.

(** A cell that holds no comma: [null], a number, or a string without one. *)
Definition comma_free (v : value) : bool :=
  match v with
  | VStr s => negb (existsb (N.eqb COMMA) s)
  | _ => true
  end.

(** What a row made from [line] holds when the line is cut at every comma
    and nowhere else: the line has one field more than it has commas, the
    fields joined by commas are the line, and a column (other than
    [__proto__]) whose name no later column repeats holds the field of its
    position, trimmed, with every double quote the field has; no cell of the
    row holds a comma. *)
Definition cut_at_commas (keys : list jsstring) (line : jsstring) (row : Row) : Prop :=
  let fields := split COMMA line in
  length fields = Datatypes.S (length (List.filter (N.eqb COMMA) line))
  /\ join COMMA fields = line
  /\ (forall i k field,
        nth_error keys i = Some k -> k <> PROTO ->
        nth_error fields i = Some field ->
        (forall j, (i < j)%nat -> nth_error keys j <> Some k) ->
        get row k = VStr (trim field)
        /\ length (List.filter (N.eqb DQUOTE) (trim field))
           = length (List.filter (N.eqb DQUOTE) field))
  /\ forallb (fun kv => comma_free (snd kv)) row = true.

(** The row has no value in the column: [row[column] == null]. *)
Definition null_at (column : jsstring) (row : Row) : bool :=
  is_nullish (get row column).

(** No row with a value comes after a row without one. *)
Fixpoint nulls_last (column : jsstring) (rows : list Row) : bool :=
  match rows with
  | [] => true
  | r :: rows' =>
      (if null_at column r then forallb (null_at column) rows' else true)
      && nulls_last column rows'
  end.

(** A cell as the loaders write it: a string or [null], never a number. *)
Definition is_text_or_null (v : value) : bool :=
  match v with
  | VStr _ | VNull => true
  | _ => false
  end.

(** A cell without content: [undefined], [null] or the empty string. *)
Definition blank_cell (v : value) : bool :=
  match v with
  | VUndefined | VNull | VStr [] => true
  | _ => false
  end.

(** Both rows hold a number in the column, the first not above the second. *)
Definition number_le (column : jsstring) (a b : Row) : Prop :=
  match get a column, get b column with
  | VNum x, VNum y => x <= y
  | _, _ => False
  end.

(** The rows a page of the table shows, by their 1-based positions. *)
Definition rows_from_to {A : Type} (first last : Z) (l : list A) : list A :=
  List.firstn (Z.to_nat (last - first + 1)) (List.skipn (Z.to_nat (first - 1)) l).

(** The string is empty or starts with a code unit that is not white space. *)
Definition starts_clean (s : jsstring) : bool :=
  match s with
  | [] => true
  | c :: _ => negb (is_white_space c)
  end.

(** What the handlers keep true of the state: the filter map has one entry
    per column, each a trimmed text that is not empty, and the direction is
    one of the two. *)
Definition table_state_ok (st : TableState) : Prop :=
  Forall (fun kv => snd kv <> [] /\ trim (snd kv) = snd kv) (ts_columnFilters st)
  /\ NoDup (List.map fst (ts_columnFilters st))
  /\ (ts_sortDirection st = DataTable.asc \/ ts_sortDirection st = DataTableHandlers.desc).

(** The three backend calls of a load answered, and the file content is not
    empty. *)
Definition backend_ok (read : option FileContent) (validated : option ValidationResult)
    (analysed : option (list ColumnInfo)) : bool :=
  match read, validated, analysed with
  | Some fileContent, Some _, Some _ => truthy (VStr (content fileContent))
  | _, _, _ => false
  end.


(** Every uploaded file has a processing status, with a progress and a
    message. *)
Definition uploads_have_status {File Metadata Validation : Type}
    (s : FileStore File Metadata Validation) : Prop :=
  forall fileId, is_Some (uploadedFiles s !! fileId) ->
    exists st, processingStatus s !! fileId = Some st
               /\ is_Some (ps_progress st) /\ is_Some (ps_message st).

(** The status is one of the four [getProcessingStats] counts. *)
Definition counted_status (st : ProcessingStatus) : bool :=
  JsString.eqb (ps_status st) (str "pending")
  || JsString.eqb (ps_status st) (str "processing")
  || JsString.eqb (ps_status st) (str "completed")
  || JsString.eqb (ps_status st) (str "failed").

(* ===================================================================== *)
(** * Properties *)
(* ===================================================================== *)

(** ** Strings *)

Lemma split_nonempty (sep : N) (s : jsstring) : split sep s <> [].
Proof.
  destruct s as [|c s]; simpl; [discriminate|].
  destruct (c =? sep)%N; [discriminate|].
  destruct (split sep s); discriminate.
Qed.

(** Splitting loses nothing and rewrites nothing: joining the pieces with the
    separator gives the string back. *)
Lemma join_split (sep : N) (s : jsstring) : join sep (split sep s) = s.
Proof.
  induction s as [|c s IH]; simpl; [reflexivity|].
  destruct (N.eqb_spec c sep) as [->|Hne].
  - pose proof (split_nonempty sep s) as Hs.
    destruct (split sep s) as [|p ps]; [congruence|].
    simpl. f_equal. exact IH.
  - pose proof (split_nonempty sep s) as Hs.
    destruct (split sep s) as [|p ps]; [congruence|].
    rewrite <- IH. destruct ps; reflexivity.
Qed.

(** No piece of a split holds the separator. *)
Lemma split_pieces_free (sep : N) (s : jsstring) :
  Forall (fun p => existsb (N.eqb sep) p = false) (split sep s).
Proof.
  induction s as [|c s IH]; simpl.
  - constructor; [reflexivity|constructor].
  - destruct (N.eqb_spec c sep) as [->|Hne].
    + constructor; [reflexivity|exact IH].
    + destruct (split sep s) as [|p ps].
      * constructor; [|constructor]. simpl.
        destruct (N.eqb_spec sep c); [congruence|reflexivity].
      * inversion IH; subst. constructor; [|assumption].
        simpl. destruct (N.eqb_spec sep c); [congruence|assumption].
Qed.

(** The number of pieces is the number of separators plus one. *)
Lemma length_split (sep : N) (s : jsstring) :
  length (split sep s) = Datatypes.S (length (List.filter (N.eqb sep) s)).
Proof.
  induction s as [|c s IH]; simpl; [reflexivity|].
  rewrite (N.eqb_sym sep c).
  destruct (c =? sep)%N; simpl; [now rewrite IH|].
  pose proof (split_nonempty sep s) as Hs.
  destruct (split sep s); [congruence|exact IH].
Qed.

Lemma trimStart_free (c : N) (s : jsstring) :
  existsb (N.eqb c) s = false -> existsb (N.eqb c) (trimStart s) = false.
Proof.
  induction s as [|d s IH]; simpl; [auto|].
  intros H. apply orb_false_iff in H as [Hd Hs].
  destruct (is_white_space d); [auto|].
  simpl. now rewrite Hd, Hs.
Qed.

Lemma existsb_rev {A : Type} (f : A -> bool) (l : list A) :
  existsb f (rev l) = existsb f l.
Proof.
  induction l as [|x l IH]; simpl; [reflexivity|].
  rewrite existsb_app, IH. simpl. rewrite orb_false_r. apply orb_comm.
Qed.

(** Trimming only removes code units. *)
Lemma trim_free (c : N) (s : jsstring) :
  existsb (N.eqb c) s = false -> existsb (N.eqb c) (trim s) = false.
Proof.
  intros H. unfold trim, trimEnd.
  rewrite existsb_rev. apply trimStart_free.
  rewrite existsb_rev. now apply trimStart_free.
Qed.

Lemma eqb_refl (s : jsstring) : JsString.eqb s s = true.
Proof. unfold JsString.eqb. now apply bool_decide_eq_true. Qed.

Lemma eqb_neq (s t : jsstring) : s <> t -> JsString.eqb s t = false.
Proof. unfold JsString.eqb. intros. now apply bool_decide_eq_false. Qed.

Lemma eqb_true (s t : jsstring) : JsString.eqb s t = true -> s = t.
Proof. unfold JsString.eqb. intros H. now apply bool_decide_eq_true in H. Qed.

Lemma nth_error_lt {A : Type} (l : list A) (n : nat) (x : A) :
  nth_error l n = Some x -> (n < length l)%nat.
Proof. intros H. apply nth_error_Some. congruence. Qed.

(** ** Row objects *)

Lemma get_setProp_eq (row : Row) (k : jsstring) (v : value) :
  get (setProp row k v) k = v.
Proof.
  induction row as [|[k' w] row IH]; simpl.
  - now rewrite eqb_refl.
  - destruct (JsString.eqb k' k) eqn:E; simpl; rewrite E; auto.
Qed.

Lemma get_setProp_ne (row : Row) (k k' : jsstring) (v : value) :
  k <> k' -> get (setProp row k v) k' = get row k'.
Proof.
  intros Hne. induction row as [|[k0 w] row IH]; simpl.
  - now rewrite eqb_neq.
  - destruct (JsString.eqb k0 k) eqn:E; simpl.
    + apply eqb_true in E; subst. now rewrite eqb_neq.
    + now rewrite IH.
Qed.

Lemma in_setProp (row : Row) (k : jsstring) (v : value) (kv : jsstring * value) :
  In kv (setProp row k v) -> In kv row \/ kv = (k, v).
Proof.
  induction row as [|[k0 w] row IH]; simpl.
  - intros [<-|[]]. now right.
  - destruct (JsString.eqb k0 k) eqn:E; simpl.
    + apply eqb_true in E; subst. intros [<-|H]; auto.
    + intros [<-|H]; auto. destruct (IH H); auto.
Qed.

(** ** The loop that fills a row

    Both parsers fill a row with
    [keys.forEach((x, i) => row[key(x)] = i < values.length ? values[i].trim() : null)]. *)

Section FillRow.
Context {A : Type} (key_of : A -> jsstring) (values : list jsstring).

Let fill (obj : Row) (x : A) (i : nat) : Row :=
  setProp obj (key_of x) (cell_at values i).

Lemma fill_get_other (l : list A) (i : nat) (init : Row) (k : jsstring) :
  (forall x, In x l -> key_of x <> k) ->
  get (forEach_from fill i l init) k = get init k.
Proof.
  revert i init. induction l as [|x l IH]; intros i init Hk; simpl; [reflexivity|].
  rewrite IH by (intros y Hy; apply Hk; now right).
  unfold fill. apply get_setProp_ne. apply Hk. now left.
Qed.

(** The last column of a name decides the value under that name. *)
Lemma fill_get_last (l : list A) (i : nat) (init : Row) (j : nat) (x : A) :
  nth_error l j = Some x ->
  (forall j' y, (j < j')%nat -> nth_error l j' = Some y -> key_of y <> key_of x) ->
  get (forEach_from fill i l init) (key_of x) = cell_at values (i + j).
Proof.
  revert i init j. induction l as [|y l IH]; intros i init j Hj Hlast.
  - destruct j; discriminate.
  - destruct j as [|j]; simpl in *.
    + injection Hj as ->.
      rewrite fill_get_other.
      * unfold fill. rewrite get_setProp_eq. f_equal. lia.
      * intros z Hz. apply In_nth_error in Hz as [n Hn].
        apply (Hlast (Datatypes.S n) z); [lia|exact Hn].
    + rewrite (IH (Datatypes.S i) _ j Hj).
      * f_equal. lia.
      * intros j' z Hlt Hz. apply (Hlast (Datatypes.S j') z); [lia|exact Hz].
Qed.

(** Past the end of [values] every column reads [null]. *)
Lemma fill_get_padded (l : list A) (i : nat) (init : Row) (k : jsstring) :
  (length values <= i)%nat ->
  (exists x, In x l /\ key_of x = k) ->
  get (forEach_from fill i l init) k = VNull.
Proof.
  revert i init. induction l as [|y l IH]; intros i init Hi [x [Hx Hk]].
  - destruct Hx.
  - simpl.
    destruct (existsb (fun z => JsString.eqb (key_of z) k) l) eqn:E.
    + apply existsb_exists in E as [z [Hz Hzk]]. apply eqb_true in Hzk.
      apply IH; [lia|eauto].
    + assert (Hno : forall z, In z l -> key_of z <> k).
      { intros z Hz Heq.
        assert (existsb (fun z => JsString.eqb (key_of z) k) l = true) as Ht.
        { apply existsb_exists. exists z. split; [exact Hz|].
          rewrite Heq. apply eqb_refl. }
        congruence. }
      rewrite fill_get_other by exact Hno.
      destruct Hx as [->|Hx]; [|exfalso; now apply (Hno x)].
      rewrite <- Hk. unfold fill. rewrite get_setProp_eq.
      unfold cell_at.
      destruct (nth_error values i) eqn:Hn; [|reflexivity].
      apply nth_error_lt in Hn. lia.
Qed.

(** A column that is declared reads a cell of the line. *)
Lemma fill_get_cell (l : list A) (i : nat) (init : Row) (k : jsstring) :
  (exists x, In x l /\ key_of x = k) ->
  exists j, get (forEach_from fill i l init) k = cell_at values j.
Proof.
  revert i init. induction l as [|y l IH]; intros i init [x [Hx Hk]].
  - destruct Hx.
  - simpl.
    destruct (existsb (fun z => JsString.eqb (key_of z) k) l) eqn:E.
    + apply existsb_exists in E as [z [Hz Hzk]]. apply eqb_true in Hzk.
      apply IH. eauto.
    + assert (Hno : forall z, In z l -> key_of z <> k).
      { intros z Hz Heq.
        assert (existsb (fun z => JsString.eqb (key_of z) k) l = true) as Ht.
        { apply existsb_exists. exists z. split; [exact Hz|].
          rewrite Heq. apply eqb_refl. }
        congruence. }
      rewrite fill_get_other by exact Hno.
      destruct Hx as [->|Hx]; [|exfalso; now apply (Hno x)].
      rewrite <- Hk. unfold fill. rewrite get_setProp_eq. eauto.
Qed.

Lemma forEach_from_app (l1 l2 : list A) (i : nat) (init : Row) :
  forEach_from fill i (l1 ++ l2) init
  = forEach_from fill (i + length l1) l2 (forEach_from fill i l1 init).
Proof.
  revert i init. induction l1 as [|x l1 IH]; intros i init; simpl.
  - f_equal. lia.
  - rewrite IH. f_equal. lia.
Qed.

Lemma fill_get_padded_at (l : list A) (init : Row) (j : nat) (x : A) :
  nth_error l j = Some x ->
  (length values <= j)%nat ->
  get (forEach_from fill 0 l init) (key_of x) = VNull.
Proof.
  intros Hj Hlen.
  rewrite <- (firstn_skipn j l), forEach_from_app.
  apply fill_get_padded.
  - rewrite length_firstn. apply nth_error_lt in Hj. lia.
  - exists x. split; [|reflexivity].
    apply (nth_error_In (skipn j l) 0).
    rewrite nth_error_skipn. now rewrite Nat.add_0_r.
Qed.

(** Every property of the filled row is one the loop wrote or one of [init]. *)
Lemma fill_props (l : list A) (i : nat) (init : Row) :
  Forall (fun kv => In kv init
                    \/ exists j x, nth_error l j = Some x /\ fst kv = key_of x
                                   /\ snd kv = cell_at values (i + j))
         (forEach_from fill i l init).
Proof.
  revert i init. induction l as [|x l IH]; intros i init; simpl.
  - apply List.Forall_forall. intros kv Hkv. now left.
  - eapply List.Forall_impl; [|apply IH].
    intros kv [Hin|[j [y [Hj [Hk Hv]]]]].
    + apply in_setProp in Hin as [Hin| ->]; [now left|].
      right. exists 0%nat, x. simpl. rewrite Nat.add_0_r. auto.
    + right. exists (Datatypes.S j), y. simpl.
      replace (i + Datatypes.S j)%nat with (Datatypes.S i + j)%nat by lia. auto.
Qed.

End FillRow.

Section FillRowSpec.
Context {A : Type} (key_of : A -> jsstring) (values : list jsstring).

Lemma fill_row_reads (l : list A) (init : Row) :
  row_reads (List.map key_of l) values
    (forEach (fun obj x i => setProp obj (key_of x) (cell_at values i)) l init).
Proof.
  split.
  - intros i k Hk _ Hlen.
    rewrite nth_error_map in Hk.
    destruct (nth_error l i) as [x|] eqn:Hx; [|discriminate].
    injection Hk as <-.
    now apply (fill_get_padded_at key_of values l init i x).
  - intros i k v Hk _ Hv Hlast.
    rewrite nth_error_map in Hk.
    destruct (nth_error l i) as [x|] eqn:Hx; [|discriminate].
    injection Hk as <-.
    unfold forEach.
    rewrite (fill_get_last key_of values l 0 init i x Hx).
    + simpl. unfold cell_at. now rewrite Hv.
    + intros j' y Hlt Hy Heq. apply (Hlast j' Hlt).
      rewrite nth_error_map, Hy. simpl. now rewrite Heq.
Qed.

Lemma fill_row_only (l : list A) (init : Row) :
  row_only (List.map key_of l) values (fun kv => In kv init)
    (forEach (fun obj x i => setProp obj (key_of x) (cell_at values i)) l init).
Proof.
  unfold row_only, forEach.
  eapply List.Forall_impl; [|apply (fill_props key_of values l 0 init)].
  intros kv [Hin|[j [x [Hj [Hk Hv]]]]]; [now left|].
  right. exists j. rewrite nth_error_map, Hj. simpl. now rewrite Hk.
Qed.

End FillRowSpec.

Lemma Forall2_map_self {A B : Type} (P : A -> B -> Prop) (f : A -> B) (l : list A) :
  (forall x, P x (f x)) -> Forall2 P l (List.map f l).
Proof. intros H. induction l; simpl; constructor; auto. Qed.

Lemma Forall2_mapi_from {A B : Type} (P : A -> B -> Prop) (f : A -> nat -> B)
    (i : nat) (l : list A) :
  (forall x n, P x (f x n)) -> Forall2 P l (mapi_from f i l).
Proof. intros H. revert i. induction l; intros i; simpl; constructor; auto. Qed.

(** ** Short and long rows (C1) *)

(** C1, as the code has it.  In both parsers ([parseCSVContent] and the loop
    of [processSingleFile]) each data line gives one row; under a column name
    other than [__proto__], a column past the last field of the line reads
    [null], and a column whose name no later column repeats reads the
    trimmed field of its own position (so does the last declared column,
    whatever follows it in the line; of the columns of one name the last one
    decides); and the row has no property besides the cells of the declared
    columns (and [id] in [processSingleFile]): the fields in excess of the
    header are left out, not appended to the last column. *)
Theorem parsed_rows_pad_short_cut_long :
  forall (content : jsstring) (cols : list Column),
    let lines := nonblank_lines content in
    let headers := List.map trim (split COMMA (nth 0 lines [])) in
    let ids := List.map col_id cols in
    Forall2 (fun line row =>
               row_reads headers (split COMMA line) row
               /\ row_only headers (split COMMA line) (fun _ => False) row)
            (slice_from_1 lines) (parseCSVContent content)
    /\ Forall2 (fun line row =>
                  row_reads ids (split COMMA line) row
                  /\ row_only ids (split COMMA line)
                       (fun kv => fst kv = str "id" /\ exists n, snd kv = VNum n) row)
               (slice_from_1 lines) (PlotlyDemo.parsedData cols content).
Proof.
  intros content cols lines headers ids. split.
  - unfold parseCSVContent. fold lines. fold headers.
    destruct (length lines <? 2)%nat eqn:E.
    + apply Nat.ltb_lt in E.
      destruct lines as [|l0 [|l1 rest]]; simpl in *; try lia; constructor.
    + apply Forall2_map_self. intros line. split.
      * rewrite <- (map_id headers) at 1.
        apply (fill_row_reads (fun h : jsstring => h)).
      * rewrite <- (map_id headers) at 1.
        eapply List.Forall_impl;
          [|apply (fill_row_only (fun h : jsstring => h) (split COMMA line) headers [])].
        intros kv [[]|H]; right; exact H.
  - unfold PlotlyDemo.parsedData. fold lines. unfold mapi.
    apply Forall2_mapi_from. intros line n. split.
    + apply (fill_row_reads col_id).
    + eapply List.Forall_impl;
        [|apply (fill_row_only col_id (split COMMA line) cols
                   [(str "id", VNum (Z.of_nat n))])].
      intros kv [[<-|[]]|H]; [left|right; exact H].
      split; [reflexivity|eauto].
Qed.

(** C1 as stated fails: the line [1,2,3] under the header [a,b] gives the row
    [{a: "1", b: "2"}], the third field is in no column. *)
Lemma excess_fields_are_dropped :
  parseCSVContent (nl (str "a,b") (str "1,2,3"))
  = [[(str "a", VStr (str "1")); (str "b", VStr (str "2"))]]
  /\ PlotlyDemo.parsedData
       [{| col_id := str "a"; col_name := str "a"; col_type := str "integer";
           col_nullable := false |};
        {| col_id := str "b"; col_name := str "b"; col_type := str "integer";
           col_nullable := false |}]
       (nl (str "a,b") (str "1,2,3"))
     = [[(str "id", VNum 0); (str "a", VStr (str "1")); (str "b", VStr (str "2"))]].
Proof. split; vm_compute; reflexivity. Qed.

(** A row shorter than the header, for comparison: the missing columns read
    [null]. *)
Example short_row_is_padded :
  parseCSVContent (nl (str "a,b,c") (str "1"))
  = [[(str "a", VStr (str "1")); (str "b", VNull); (str "c", VNull)]].
Proof. vm_compute. reflexivity. Qed.

(** A header that repeats a name: the row has one property of that name,
    and it holds the field of the last column of the name. *)
Example repeated_name_reads_its_last_column :
  parseCSVContent (nl (str "a,a") (str "1,2")) = [[(str "a", VStr (str "2"))]].
Proof. vm_compute. reflexivity. Qed.

(** ** Quoted fields (C7) *)

Lemma cell_at_comma_free (line : jsstring) (i : nat) :
  comma_free (cell_at (split COMMA line) i) = true.
Proof.
  unfold cell_at.
  destruct (nth_error (split COMMA line) i) as [v|] eqn:Hv; [|reflexivity].
  simpl. apply negb_true_iff, trim_free.
  pose proof (split_pieces_free COMMA line) as Hall.
  rewrite List.Forall_forall in Hall. apply Hall.
  eapply nth_error_In; eauto.
Qed.

Lemma filled_row_comma_free {A : Type} (key_of : A -> jsstring) (line : jsstring)
    (l : list A) (init : Row) :
  forallb (fun kv => comma_free (snd kv)) init = true ->
  forallb (fun kv => comma_free (snd kv))
    (forEach (fun obj x i => setProp obj (key_of x) (cell_at (split COMMA line) i))
             l init) = true.
Proof.
  intros Hinit. apply forallb_forall. intros kv Hkv.
  pose proof (fill_props key_of (split COMMA line) l 0 init) as Hall.
  rewrite List.Forall_forall in Hall.
  destruct (Hall kv Hkv) as [Hin|[j [x [_ [_ Hv]]]]].
  - rewrite forallb_forall in Hinit. now apply Hinit.
  - rewrite Hv. apply cell_at_comma_free.
Qed.

Lemma forallb_mapi_from {A B : Type} (p : B -> bool) (f : A -> nat -> B)
    (i : nat) (l : list A) :
  (forall x n, p (f x n) = true) -> forallb p (mapi_from f i l) = true.
Proof.
  intros H. revert i. induction l as [|x l IH]; intros i; simpl; [reflexivity|].
  now rewrite H, IH.
Qed.

Lemma trimStart_keeps (c : N) (s : jsstring) :
  is_white_space c = false ->
  List.filter (N.eqb c) (trimStart s) = List.filter (N.eqb c) s.
Proof.
  intros Hc. induction s as [|d s IH]; simpl; [reflexivity|].
  destruct (is_white_space d) eqn:Hd; [|reflexivity].
  rewrite IH. destruct (N.eqb_spec c d) as [->|_]; [congruence|reflexivity].
Qed.

Lemma filter_rev_length {A : Type} (p : A -> bool) (l : list A) :
  length (List.filter p (rev l)) = length (List.filter p l).
Proof.
  induction l as [|x l IH]; simpl; [reflexivity|].
  rewrite List.filter_app, length_app, IH. simpl.
  destruct (p x); simpl; lia.
Qed.

(** Trimming takes away white space only: a code unit that is not white
    space is in the trimmed string as often as in the string. *)
Lemma trim_keeps (c : N) (s : jsstring) :
  is_white_space c = false ->
  length (List.filter (N.eqb c) (trim s)) = length (List.filter (N.eqb c) s).
Proof.
  intros Hc. unfold trim, trimEnd.
  rewrite filter_rev_length, trimStart_keeps by exact Hc.
  rewrite filter_rev_length, trimStart_keeps by exact Hc. reflexivity.
Qed.

Lemma filled_row_cut_at_commas {A : Type} (key_of : A -> jsstring) (line : jsstring)
    (l : list A) (init : Row) :
  forallb (fun kv => comma_free (snd kv)) init = true ->
  cut_at_commas (List.map key_of l) line
    (forEach (fun obj x i => setProp obj (key_of x) (cell_at (split COMMA line) i))
             l init).
Proof.
  intros Hinit. unfold cut_at_commas.
  split; [apply length_split|]. split; [apply join_split|]. split.
  - intros i k field Hk Hproto Hfield Hlast. split.
    + now apply (proj2 (fill_row_reads key_of (split COMMA line) l init) i k field).
    + now apply trim_keeps.
  - now apply filled_row_comma_free.
Qed.

(** C7, as the code has it.  Neither parser reads quotes.  Each data line
    gives one row, made from the line cut at every comma, inside double
    quotes as well: the line has one field more than it has commas, the
    fields are the text between the commas as written (joined by commas they
    give the line back), and a column (other than [__proto__]) whose name no
    later column repeats holds the field of its position, trimmed of white
    space and with every double quote of the field still in it; no parsed
    cell ever holds a comma. *)
Theorem fields_are_cut_at_every_comma :
  forall (content : jsstring) (cols : list Column) (line : jsstring),
    let lines := nonblank_lines content in
    let headers := List.map trim (split COMMA (nth 0 lines [])) in
    Forall2 (cut_at_commas headers) (slice_from_1 lines) (parseCSVContent content)
    /\ Forall2 (cut_at_commas (List.map col_id cols)) (slice_from_1 lines)
               (PlotlyDemo.parsedData cols content)
    /\ forallb (fun row => forallb (fun kv => comma_free (snd kv)) row)
               (parseCSVContent content) = true
    /\ forallb (fun row => forallb (fun kv => comma_free (snd kv)) row)
               (PlotlyDemo.parsedData cols content) = true
    /\ length (split COMMA line)
       = Datatypes.S (length (List.filter (N.eqb COMMA) line))
    /\ join COMMA (split COMMA line) = line.
Proof.
  intros content cols line lines headers.
  split; [|split; [|split; [|split; [|split]]]].
  - unfold parseCSVContent. fold lines. fold headers.
    destruct (length lines <? 2)%nat eqn:E.
    + apply Nat.ltb_lt in E.
      destruct lines as [|l0 [|l1 rest]]; simpl in *; try lia; constructor.
    + apply Forall2_map_self. intros l.
      rewrite <- (map_id headers) at 1.
      now apply (filled_row_cut_at_commas (fun h : jsstring => h)).
  - unfold PlotlyDemo.parsedData. fold lines. unfold mapi.
    apply Forall2_mapi_from. intros l n.
    now apply (filled_row_cut_at_commas col_id).
  - unfold parseCSVContent.
    destruct (length (nonblank_lines content) <? 2)%nat; [reflexivity|].
    apply forallb_forall. intros row Hrow.
    apply in_map_iff in Hrow as [l [<- _]].
    now apply (filled_row_comma_free (fun h : jsstring => h)).
  - unfold PlotlyDemo.parsedData, mapi.
    apply forallb_mapi_from. intros l n.
    now apply (filled_row_comma_free col_id).
  - apply length_split.
  - apply join_split.
Qed.

(** C7 as stated fails: under the header [name,note] the line ["a,b",c] does
    not give the field [a,b]; the quoted field is cut at its comma and the
    halves keep their quote. *)
Lemma quoted_field_is_cut_at_its_comma :
  parseCSVContent (nl (str "name,note") (quoted (str "a,b") ++ str ",c"))
  = [[(str "name", VStr (DQUOTE :: str "a")); (str "note", VStr (str "b" ++ [DQUOTE]))]]
  /\ PlotlyDemo.parsedData
       [{| col_id := str "name"; col_name := str "name"; col_type := str "string";
           col_nullable := false |};
        {| col_id := str "note"; col_name := str "note"; col_type := str "string";
           col_nullable := false |}]
       (nl (str "name,note") (quoted (str "a,b") ++ str ",c"))
     = [[(str "id", VNum 0); (str "name", VStr (DQUOTE :: str "a"));
         (str "note", VStr (str "b" ++ [DQUOTE]))]].
Proof. split; vm_compute; reflexivity. Qed.

(** ** The quality report of a load (C6) *)

Lemma length_mapi_from {A B : Type} (f : A -> nat -> B) (i : nat) (l : list A) :
  length (mapi_from f i l) = length l.
Proof. revert i. induction l; intros i; simpl; auto. Qed.

(** The report counts every line after the first, blank or not, while the
    rows come from the non-blank lines after the first non-blank one: the
    count of the report is the number of rows plus the number of blank lines
    (when the file has a non-blank line at all). *)
Lemma valid_rows_counts_blank_lines (cols : list Column) (text : jsstring) :
  nonblank_lines text <> [] ->
  valid_rows (PlotlyDemo.qualityReport text)
  = Z.of_nat (length (PlotlyDemo.parsedData cols text))
    + Z.of_nat (length (List.filter (fun line => negb (truthy (VStr (trim line))))
                                    (split LF text))).
Proof.
  intros Hne. unfold PlotlyDemo.qualityReport, PlotlyDemo.parsedData, mapi. simpl.
  rewrite length_mapi_from. unfold slice_from_1. rewrite length_skipn.
  assert (length (nonblank_lines text) <> 0)%nat as Hpos
    by (destruct (nonblank_lines text); [congruence|discriminate]).
  unfold nonblank_lines in *.
  pose proof (List.filter_length (fun line => truthy (VStr (trim line))) (split LF text)) as Hsum.
  simpl in *. lia.
Qed.

(** C6 at a file that ends with a newline.  Loading [a,b\n1,2\n] completes,
    the store holds one data row for the file, and the quality report stored
    with it says two valid rows. *)
Lemma quality_report_counts_the_trailing_line :
  let loaded :=
    PlotlyDemo.processSingleFile (Filters := unit) (SortConfig := unit)
      (SelectedRows := unit)
      (str "1700000000000_tmp") (str "1700000000001_abc")
      {| fd_name := str "t.csv"; fd_path := str "/data/t.csv"; fd_size := 8 |}
      (Some {| content := nl (str "a,b") (nl (str "1,2") []) |})
      (Some {| estimated_rows := 1; column_count := 2 |})
      (Some [{| ci_name := str "a"; ci_data_type := str "integer"; ci_nullable := false |};
             {| ci_name := str "b"; ci_data_type := str "integer"; ci_nullable := false |}])
      csvDataActions.clearAll in
  snd loaded = true
  /\ parsedData (fst loaded) !! str "1700000000001_abc"
     = Some [[(str "id", VNum 0); (str "a", VStr (str "1")); (str "b", VStr (str "2"))]]
  /\ (valid_rows ∘ fs_qualityReport) <$> (fileStats (fst loaded) !! str "1700000000001_abc")
     = Some 2.
Proof. vm_compute. repeat split; reflexivity. Qed.

(** ** Unloading a file (C5) *)

Section StoreFacts.
Context {Filters SortConfig SelectedRows : Type}.

Lemma step_keeps_forgotten (fileId : jsstring) (a : csvDataActions.action)
    (s : Store Filters SortConfig SelectedRows) :
  csvDataActions.stores_under fileId a = false ->
  csvDataActions.forgotten fileId s ->
  csvDataActions.forgotten fileId (csvDataActions.step a s).
Proof.
  intros Ha (H1 & H2 & H3 & H4 & H5 & H6 & H7).
  destruct a; simpl in Ha; unfold csvDataActions.forgotten; simpl;
    try (repeat split; assumption);
    try (repeat split; apply lookup_empty);
    try (assert (fileId0 <> fileId) as Hne
           by (intros ->; rewrite eqb_refl in Ha; discriminate);
         repeat split; try assumption; rewrite lookup_insert_ne; assumption).
  repeat split;
    (destruct (decide (fileId0 = fileId)) as [->|Hne];
     [apply lookup_delete_eq|rewrite lookup_delete_ne; assumption]).
Qed.

Lemma run_keeps_forgotten (fileId : jsstring) (later : list csvDataActions.action)
    (s : Store Filters SortConfig SelectedRows) :
  forallb (fun a => negb (csvDataActions.stores_under fileId a)) later = true ->
  csvDataActions.forgotten fileId s ->
  csvDataActions.forgotten fileId (csvDataActions.run later s).
Proof.
  revert s. induction later as [|a later IH]; intros s Hlater Hs; [exact Hs|].
  simpl in Hlater. apply andb_true_iff in Hlater as [Ha Hlater].
  apply negb_true_iff in Ha.
  unfold csvDataActions.run. simpl. apply IH; [exact Hlater|].
  now apply step_keeps_forgotten.
Qed.

(** C5.  After [removeFile(fileId)] the store has nothing under that id:
    each of the maps for parsed data, filtered data, columns, filters, sort
    configuration, selected rows and statistics answers "not there"
    ([undefined], here [None]) to a lookup of the id, no entry of [files]
    has it, and it is not the current file; a table pointed at the id reads
    no rows ([undefined]; the empty id, which [addFile] never makes, reads
    the empty array).  The lookups keep answering "not there" through any
    later calls of the store actions, until one stores under the id again. *)
Theorem removeFile_forgets_the_handle :
  forall (s : Store Filters SortConfig SelectedRows) (fileId : jsstring),
    let s' := csvDataActions.removeFile fileId s in
    parsedData s' !! fileId = None
    /\ filteredData s' !! fileId = None
    /\ columns s' !! fileId = None
    /\ filters s' !! fileId = None
    /\ sortConfig s' !! fileId = None
    /\ selectedRows s' !! fileId = None
    /\ fileStats s' !! fileId = None
    /\ Forall (fun f => file_id f <> fileId) (files s')
    /\ currentFileId s' <> Some fileId
    /\ DataTable.parsedData_view (csvDataActions.setCurrentFile (Some fileId) s')
       = (if truthy (VStr fileId) then None else Some [])
    /\ (forall later : list csvDataActions.action,
          forallb (fun a => negb (csvDataActions.stores_under fileId a)) later = true ->
          csvDataActions.forgotten fileId (csvDataActions.run later s')).
Proof.
  intros s fileId s'.
  assert (Hgone : csvDataActions.forgotten fileId s')
    by (repeat split; apply lookup_delete_eq).
  assert (Hfiles : Forall (fun f => file_id f <> fileId) (files s')).
  { apply List.Forall_forall. intros f Hf. apply filter_In in Hf as [_ Hf].
    intros Heq. rewrite Heq, eqb_refl in Hf. discriminate. }
  destruct Hgone as (H1 & H2 & H3 & H4 & H5 & H6 & H7).
  repeat (split; [assumption|]). split; [|split].
  - subst s'. unfold csvDataActions.removeFile in *. simpl in *.
    case_bool_decide as Hcur; [|exact Hcur].
    destruct (List.filter _ (files s)) as [|f fs] eqn:E; [discriminate|].
    inversion Hfiles as [|? ? Hf _]; subst. congruence.
  - unfold DataTable.parsedData_view. simpl.
    destruct (negb _); [apply lookup_delete_eq|reflexivity].
  - intros later Hlater. apply run_keeps_forgotten; [exact Hlater|].
    repeat split; assumption.
Qed.

End StoreFacts.

(** Unloading, then other calls (one of them loads another file), then a
    lookup of the unloaded id. *)
Example unloaded_file_stays_unloaded :
  let rows : list Row := [[(str "id", VNum 0); (str "a", VStr (str "1"))]] in
  let s := csvDataActions.setParsedData (str "f1") rows []
             (csvDataActions.clearAll (Filters := unit) (SortConfig := unit)
                (SelectedRows := unit)) in
  let later :=
    [csvDataActions.SetParsedData (str "f2") rows [];
     csvDataActions.SetCurrentFile (Some (str "f1"))] in
  let s' := csvDataActions.run later (csvDataActions.removeFile (str "f1") s) in
  parsedData s !! str "f1" = Some rows
  /\ parsedData s' !! str "f1" = None
  /\ DataTable.parsedData_view s' = None
  /\ parsedData s' !! str "f2" = Some rows.
Proof. vm_compute. repeat split; reflexivity. Qed.

(** ** Pages (C4) *)

Lemma Math_ceil_div_spec (a b : Z) :
  1 <= b -> b * (Math_ceil_div a b - 1) < a <= b * Math_ceil_div a b.
Proof.
  intros Hb. unfold Math_ceil_div.
  pose proof (Z.div_mod (- a) b ltac:(lia)) as Hdm.
  pose proof (Z.mod_pos_bound (- a) b ltac:(lia)) as Hr.
  nia.
Qed.

Lemma length_Array_slice_window {A : Type} (l : list A) (start size : Z) :
  1 <= size -> Z.of_nat (length (Array_slice l start (start + size))) <= size.
Proof.
  intros Hsize. unfold Array_slice.
  rewrite length_firstn.
  set (len := Z.of_nat (length l)).
  assert (0 <= len) by (unfold len; lia).
  unfold relative_index.
  destruct (Z.ltb_spec start 0), (Z.ltb_spec (start + size) 0); lia.
Qed.

Lemma Array_slice_past_end {A : Type} (l : list A) (start end_ : Z) :
  Z.of_nat (length l) <= start -> Array_slice l start end_ = [].
Proof.
  intros Hstart. unfold Array_slice.
  assert (relative_index (Z.of_nat (length l)) start = Z.of_nat (length l)) as ->.
  { unfold relative_index. destruct (Z.ltb_spec start 0); lia. }
  rewrite Nat2Z.id, skipn_all. apply firstn_nil.
Qed.

(** C4.  With [T] filtered rows and a page size [P >= 1]: the page count of
    [tableInfo] is the ceiling of [T / P] (the least [N] with [T <= P * N]);
    every page, whatever its number, has at most [P] rows; page [N + 1] is
    empty, and the table info computed for it still reports [T] filtered rows
    and [N] pages. *)
Theorem page_count_and_page_past_the_end :
  forall (parsed filtered : list Row) (page P : Z),
    1 <= P ->
    let T := Z.of_nat (length filtered) in
    let N := totalPages (DataTable.tableInfo parsed filtered page P) in
    (P * (N - 1) < T <= P * N)
    /\ Z.of_nat (length (DataTable.paginateData filtered page P)) <= P
    /\ DataTable.paginateData filtered (N + 1) P = []
    /\ filteredRows (DataTable.tableInfo parsed filtered (N + 1) P) = T
    /\ totalPages (DataTable.tableInfo parsed filtered (N + 1) P) = N.
Proof.
  intros parsed filtered page P HP T N. subst N. simpl.
  pose proof (Math_ceil_div_spec T P HP) as Hceil.
  repeat split; try apply Hceil.
  - unfold DataTable.paginateData. now apply length_Array_slice_window.
  - unfold DataTable.paginateData. apply Array_slice_past_end.
    fold T. nia.
Qed.

(** Three rows in pages of two: two pages, and page three is empty. *)
Example three_rows_in_pages_of_two :
  let rows : list Row :=
    [[(str "n", VStr (str "1"))]; [(str "n", VStr (str "2"))]; [(str "n", VStr (str "3"))]] in
  totalPages (DataTable.tableInfo rows rows 1 2) = 2
  /\ DataTable.paginateData rows 1 2 = [[(str "n", VStr (str "1"))]; [(str "n", VStr (str "2"))]]
  /\ DataTable.paginateData rows 2 2 = [[(str "n", VStr (str "3"))]]
  /\ DataTable.paginateData rows 3 2 = []
  /\ DataTable.paginateData rows 0 2 = []
  /\ DataTable.paginateData rows (-1) 2 = [[(str "n", VStr (str "1"))]].
Proof. vm_compute. repeat split; reflexivity. Qed.

(** The page property at three rows and pages of two. *)
Lemma page_count_and_page_past_the_end_witness :
  let rows : list Row :=
    [[(str "n", VStr (str "1"))]; [(str "n", VStr (str "2"))]; [(str "n", VStr (str "3"))]] in
  1 <= 2
  /\ (let T := Z.of_nat (length rows) in
      let N := totalPages (DataTable.tableInfo rows rows 1 2) in
      (2 * (N - 1) < T <= 2 * N)
      /\ Z.of_nat (length (DataTable.paginateData rows 1 2)) <= 2
      /\ DataTable.paginateData rows (N + 1) 2 = []
      /\ filteredRows (DataTable.tableInfo rows rows (N + 1) 2) = T
      /\ totalPages (DataTable.tableInfo rows rows (N + 1) 2) = N).
Proof.
  intros rows. split; [lia|].
  apply (page_count_and_page_past_the_end rows rows 1 2). lia.
Defined.

(** ** Sorting (C2, C8) *)

Lemma sorted_insert_Permutation {A : Type} (compare : A -> A -> Z) (x : A) (l : list A) :
  Permutation (sorted_insert compare x l) (x :: l).
Proof.
  induction l as [|y l IH]; simpl; [reflexivity|].
  destruct (compare x y <=? 0); [reflexivity|].
  rewrite IH. apply perm_swap.
Qed.

(** Sorting rearranges: the result has the same rows, each as often. *)
Lemma Array_sort_Permutation {A : Type} (compare : A -> A -> Z) (l : list A) :
  Permutation (Array_sort compare l) l.
Proof.
  induction l as [|x l IH]; simpl; [reflexivity|].
  rewrite sorted_insert_Permutation. now constructor.
Qed.

Lemma sorted_insert_first {A : Type} (compare : A -> A -> Z) (x : A) (l : list A) :
  (forall y, In y l -> compare x y <= 0) -> sorted_insert compare x l = x :: l.
Proof.
  destruct l as [|y l]; simpl; [reflexivity|].
  intros H. destruct (Z.leb_spec (compare x y) 0); [reflexivity|].
  specialize (H y (or_introl eq_refl)). lia.
Qed.

Lemma sorted_insert_skip {A : Type} (compare : A -> A -> Z) (x : A) (l1 l2 : list A) :
  (forall y, In y l1 -> 0 < compare x y) ->
  sorted_insert compare x (l1 ++ l2) = l1 ++ sorted_insert compare x l2.
Proof.
  induction l1 as [|y l1 IH]; simpl; [reflexivity|].
  intros H. destruct (Z.leb_spec (compare x y) 0) as [Hle|_].
  - specialize (H y (or_introl eq_refl)). lia.
  - f_equal. apply IH. intros z Hz. apply H. now right.
Qed.

Lemma sorted_insert_stop {A : Type} (compare : A -> A -> Z) (x : A) (l1 l2 : list A) :
  (forall y, In y l2 -> compare x y <= 0) ->
  sorted_insert compare x (l1 ++ l2) = sorted_insert compare x l1 ++ l2.
Proof.
  intros H. induction l1 as [|y l1 IH]; simpl.
  - now apply sorted_insert_first.
  - destruct (compare x y <=? 0); [reflexivity|].
    simpl. f_equal. exact IH.
Qed.

(** For a comparator that is total and transitive the result is in order:
    no row is followed, at any distance, by one it compares greater than. *)
Lemma Array_sort_in_order {A : Type} (compare : A -> A -> Z) (l : list A) :
  (forall a b, 0 < compare a b -> compare b a <= 0) ->
  (forall a b c, compare a b <= 0 -> compare b c <= 0 -> compare a c <= 0) ->
  StronglySorted (fun a b => compare a b <= 0) (Array_sort compare l).
Proof.
  intros Htotal Htrans.
  assert (Hins : forall x s, StronglySorted (fun a b => compare a b <= 0) s ->
            StronglySorted (fun a b => compare a b <= 0) (sorted_insert compare x s)).
  { intros x s Hs. induction Hs as [|y s Hs IH Hy]; simpl.
    - constructor; constructor.
    - destruct (Z.leb_spec (compare x y) 0) as [Hle|Hgt].
      + constructor; [now constructor|].
        constructor; [exact Hle|].
        eapply List.Forall_impl; [|exact Hy]. intros z Hz. now apply (Htrans x y z).
      + constructor; [exact IH|].
        apply List.Forall_forall. intros z Hz.
        apply (Permutation_in _ (sorted_insert_Permutation compare x s)) in Hz.
        destruct Hz as [<-|Hz]; [now apply Htotal|].
        rewrite List.Forall_forall in Hy. now apply Hy. }
  induction l as [|x l IH]; simpl; [constructor|now apply Hins].
Qed.

Section SortFacts.
Context {L : Locale}.

Lemma compare_rows_null_null (column direction : jsstring) (a b : Row) :
  null_at column a = true -> null_at column b = true ->
  DataTable.compare_rows column direction a b = 0.
Proof.
  unfold null_at, DataTable.compare_rows. intros -> ->. reflexivity.
Qed.

Lemma compare_rows_null_value (column direction : jsstring) (a b : Row) :
  null_at column a = true -> null_at column b = false ->
  DataTable.compare_rows column direction a b
  = if JsString.eqb direction DataTable.asc then -1 else 1.
Proof.
  unfold null_at, DataTable.compare_rows. intros -> ->. reflexivity.
Qed.

Lemma compare_rows_value_null (column direction : jsstring) (a b : Row) :
  null_at column a = false -> null_at column b = true ->
  DataTable.compare_rows column direction a b
  = if JsString.eqb direction DataTable.asc then 1 else -1.
Proof.
  unfold null_at, DataTable.compare_rows. intros -> ->. reflexivity.
Qed.

Lemma Array_sort_keeps (P : Row -> bool) (compare : Row -> Row -> Z) (l : list Row) :
  forall y, In y (Array_sort compare (List.filter P l)) -> P y = true.
Proof.
  intros y Hy.
  apply (Permutation_in _ (Array_sort_Permutation compare _)) in Hy.
  now apply filter_In in Hy.
Qed.

(** Ascending: the rows without a value first, in their order, then the
    others sorted. *)
Lemma Array_sort_asc_nulls_first (column : jsstring) (data : list Row) :
  let compare := DataTable.compare_rows column DataTable.asc in
  Array_sort compare data
  = List.filter (null_at column) data
    ++ Array_sort compare (List.filter (fun r => negb (null_at column r)) data).
Proof.
  intros compare. induction data as [|x data IH]; simpl; [reflexivity|].
  rewrite IH. destruct (null_at column x) eqn:Hx; simpl.
  - apply sorted_insert_first. intros y Hy.
    apply in_app_or in Hy as [Hy|Hy].
    + apply filter_In in Hy as [_ Hy]. unfold compare.
      rewrite compare_rows_null_null by assumption. lia.
    + apply Array_sort_keeps in Hy. apply negb_true_iff in Hy. unfold compare.
      rewrite compare_rows_null_value by assumption. rewrite eqb_refl. lia.
  - apply sorted_insert_skip. intros y Hy.
    apply filter_In in Hy as [_ Hy]. unfold compare.
    rewrite compare_rows_value_null by assumption. rewrite eqb_refl. lia.
Qed.

(** Any other direction: the others sorted, then the rows without a value,
    in their order. *)
Lemma Array_sort_desc_nulls_last (column direction : jsstring) (data : list Row) :
  JsString.eqb direction DataTable.asc = false ->
  let compare := DataTable.compare_rows column direction in
  Array_sort compare data
  = Array_sort compare (List.filter (fun r => negb (null_at column r)) data)
    ++ List.filter (null_at column) data.
Proof.
  intros Hdir compare. induction data as [|x data IH]; simpl; [reflexivity|].
  rewrite IH. destruct (null_at column x) eqn:Hx; simpl.
  - rewrite sorted_insert_skip.
    + f_equal. apply sorted_insert_first. intros y Hy.
      apply filter_In in Hy as [_ Hy]. unfold compare.
      rewrite compare_rows_null_null by assumption. lia.
    + intros y Hy. apply Array_sort_keeps in Hy. apply negb_true_iff in Hy.
      unfold compare. rewrite compare_rows_null_value by assumption.
      rewrite Hdir. lia.
  - apply sorted_insert_stop. intros y Hy.
    apply filter_In in Hy as [_ Hy]. unfold compare.
    rewrite compare_rows_value_null by assumption. rewrite Hdir. lia.
Qed.

End SortFacts.

Lemma nulls_last_all_null (column : jsstring) (rows : list Row) :
  forallb (null_at column) rows = true -> nulls_last column rows = true.
Proof.
  induction rows as [|r rows IH]; simpl; [reflexivity|].
  intros H. apply andb_true_iff in H as [Hr Hrows].
  now rewrite Hr, Hrows, IH.
Qed.

Lemma nulls_last_app (column : jsstring) (values nulls : list Row) :
  forallb (fun r => negb (null_at column r)) values = true ->
  forallb (null_at column) nulls = true ->
  nulls_last column (values ++ nulls) = true.
Proof.
  intros Hvalues Hnulls. induction values as [|r values IH]; simpl.
  - now apply nulls_last_all_null.
  - simpl in Hvalues. apply andb_true_iff in Hvalues as [Hr Hvalues].
    apply negb_true_iff in Hr. rewrite Hr. simpl. now apply IH.
Qed.

Section SortData.
Context {L : Locale}.

(** C2, as the code has it.  The comparator orders a missing value below
    every value and then follows the direction.  With a sort column given,
    sorting ascending returns the rows without a value first (in their
    original order) followed by the sorted rows with a value; any other
    direction returns the sorted rows with a value first and the rows
    without one last. *)
Theorem sortData_null_rows_follow_the_direction :
  forall (data : list Row) (c : N) (name direction : jsstring),
    let column := c :: name in
    let nulls := List.filter (null_at column) data in
    let others := List.filter (fun r => negb (null_at column r)) data in
    DataTable.sortData data column direction
    = (if JsString.eqb direction DataTable.asc
       then nulls ++ DataTable.sortData others column direction
       else DataTable.sortData others column direction ++ nulls)
    /\ forallb (null_at column) nulls = true
    /\ forallb (fun r => negb (null_at column r))
               (DataTable.sortData others column direction) = true
    /\ (if JsString.eqb direction DataTable.asc then true
        else nulls_last column (DataTable.sortData data column direction)) = true.
Proof.
  intros data c name direction column nulls others.
  assert (Hnulls : forallb (null_at column) nulls = true)
    by (apply forallb_forall; intros r Hr; now apply filter_In in Hr).
  assert (Hothers : forallb (fun r => negb (null_at column r))
            (Array_sort (DataTable.compare_rows column direction) others) = true)
    by (apply forallb_forall; intros r Hr; now apply Array_sort_keeps in Hr).
  unfold DataTable.sortData. simpl.
  destruct (JsString.eqb direction DataTable.asc) eqn:Hdir.
  - repeat split; try assumption.
    apply eqb_true in Hdir. subst direction.
    apply Array_sort_asc_nulls_first.
  - repeat split; try assumption.
    + now apply Array_sort_desc_nulls_last.
    + rewrite Array_sort_desc_nulls_last by assumption.
      now apply nulls_last_app.
Qed.

(** Cells that are text are compared by [localeCompare], whatever the type
    the column analysis gave the column. *)
Lemma compare_rows_of_text (column : jsstring) (a b : Row) (s t : jsstring) :
  get a column = VStr s -> get b column = VStr t ->
  DataTable.compare_rows column DataTable.asc a b = localeCompare s t.
Proof.
  intros Ha Hb. unfold DataTable.compare_rows. rewrite Ha, Hb.
  now rewrite eqb_refl.
Qed.

End SortData.

(** C2 as stated fails for the ascending direction: the row without a value
    is put first. *)
Lemma ascending_sort_puts_null_rows_first :
  DataTable.sortData (L := ascii_locale)
    [[(str "x", VStr (str "a"))]; [(str "x", VNull)]] (str "x") (str "asc")
  = [[(str "x", VNull)]; [(str "x", VStr (str "a"))]]
  /\ nulls_last (str "x")
       (DataTable.sortData (L := ascii_locale)
          [[(str "x", VStr (str "a"))]; [(str "x", VNull)]] (str "x") (str "asc"))
     = false.
Proof. split; vm_compute; reflexivity. Qed.

(** Descending, the same rows end with the row without a value. *)
Example descending_sort_puts_null_rows_last :
  DataTable.sortData (L := ascii_locale)
    [[(str "x", VNull)]; [(str "x", VStr (str "a"))]; [(str "x", VStr (str "b"))]]
    (str "x") (str "desc")
  = [[(str "x", VStr (str "b"))]; [(str "x", VStr (str "a"))]; [(str "x", VNull)]].
Proof. vm_compute. reflexivity. Qed.

(** Every cell the loader writes for a column is a string or [null]. *)
Lemma loaded_cells_are_text (cols : list Column) (text : jsstring) (col : Column) :
  In col cols ->
  forallb (fun row => is_text_or_null (get row (col_id col)))
          (PlotlyDemo.parsedData cols text) = true.
Proof.
  intros Hcol. unfold PlotlyDemo.parsedData, mapi.
  apply forallb_mapi_from. intros line n.
  destruct (fill_get_cell col_id (split COMMA line) cols 0
              [(str "id", VNum (Z.of_nat n))] (col_id col)) as [j Hj]; [eauto|].
  unfold forEach. rewrite Hj. unfold cell_at.
  now destruct (nth_error (split COMMA line) j).
Qed.

(** C8 at a numeric column.  The file [n\n9\n10] is loaded with the column
    [n] analysed as an integer column; its cells are the strings ["9"] and
    ["10"], and sorting ascending on [n] puts the row of 10 before the row
    of 9. *)
Lemma numeric_column_is_sorted_as_text :
  let cols := [{| col_id := str "n"; col_name := str "n"; col_type := str "integer";
                  col_nullable := false |}] in
  let rows := PlotlyDemo.parsedData cols (nl (str "n") (nl (str "9") (str "10"))) in
  rows = [[(str "id", VNum 0); (str "n", VStr (str "9"))];
          [(str "id", VNum 1); (str "n", VStr (str "10"))]]
  /\ DataTable.sortData (L := ascii_locale) rows (str "n") (str "asc")
     = [[(str "id", VNum 1); (str "n", VStr (str "10"))];
        [(str "id", VNum 0); (str "n", VStr (str "9"))]].
Proof. split; vm_compute; reflexivity. Qed.

(** The same in any locale that collates ["10"] before ["9"], as every
    collation without the numeric option does. *)
Lemma numeric_column_is_sorted_as_text_in_any_locale {L : Locale} :
  0 < localeCompare (str "9") (str "10") ->
  DataTable.sortData
    [[(str "id", VNum 0); (str "n", VStr (str "9"))];
     [(str "id", VNum 1); (str "n", VStr (str "10"))]] (str "n") (str "asc")
  = [[(str "id", VNum 1); (str "n", VStr (str "10"))];
     [(str "id", VNum 0); (str "n", VStr (str "9"))]].
Proof.
  intros Hlt. unfold DataTable.sortData. simpl.
  erewrite compare_rows_of_text by reflexivity.
  destruct (Z.leb_spec (localeCompare (str "9") (str "10")) 0); [lia|reflexivity].
Qed.

(** Cells that are numbers are compared as numbers: the branch exists, the
    loader never feeds it. *)
Example number_cells_are_sorted_as_numbers :
  DataTable.sortData (L := ascii_locale)
    [[(str "n", VNum 10)]; [(str "n", VNum 9)]] (str "n") (str "asc")
  = [[(str "n", VNum 9)]; [(str "n", VNum 10)]].
Proof. vm_compute. reflexivity. Qed.

(** ** Column filters (C3, C10) *)

Lemma filter_none {A : Type} (p : A -> bool) (l : list A) :
  (forall x, In x l -> p x = false) -> List.filter p l = [].
Proof.
  induction l as [|x l IH]; simpl; [reflexivity|].
  intros H. rewrite (H x) by now left. apply IH. intros y Hy. apply H. now right.
Qed.

Lemma includes_empty (sub : jsstring) : sub <> [] -> includes [] sub = false.
Proof. destruct sub; [congruence|reflexivity]. Qed.

Lemma trim_empty : trim [] = [].
Proof. reflexivity. Qed.

Section FilterFacts.
Context {L : Locale}.

(** A blank cell is matched against the empty string. *)
Lemma cellValue_blank (row : Row) (columnId : jsstring) :
  blank_cell (get row columnId) = true -> DataTable.cellValue row columnId = [].
Proof.
  unfold DataTable.cellValue. intros Hb.
  destruct (get row columnId) as [| |n|[|c s]]; try discriminate;
    simpl; apply toLowerCase_empty.
Qed.

(** A kept filter on a column whose cell is blank rejects the row. *)
Lemma row_passes_blank (globalLower : jsstring) (columnFilters : list (jsstring * jsstring))
    (row : Row) (columnId filterValue : jsstring) :
  In (columnId, filterValue) columnFilters ->
  truthy (VStr (trim filterValue)) = true ->
  blank_cell (get row columnId) = true ->
  DataTable.row_passes globalLower (DataTable.columnFilterEntries columnFilters) row = false.
Proof.
  intros Hin Hactive Hblank. unfold DataTable.row_passes.
  destruct (_ && _); [reflexivity|].
  apply not_true_is_false. intros Hall.
  rewrite forallb_forall in Hall.
  assert (Hkept : In (columnId, filterValue) (DataTable.columnFilterEntries columnFilters))
    by (apply filter_In; split; assumption).
  specialize (Hall _ Hkept). simpl in Hall.
  rewrite cellValue_blank, includes_empty in Hall; [discriminate| |assumption].
  intros Hlow. apply toLowerCase_nonempty in Hlow. subst filterValue.
  discriminate Hactive.
Qed.

Lemma kept_filter_entries_nonempty (columnFilters : list (jsstring * jsstring))
    (columnId filterValue : jsstring) :
  In (columnId, filterValue) columnFilters ->
  truthy (VStr (trim filterValue)) = true ->
  Nat.eqb (length (DataTable.columnFilterEntries columnFilters)) 0 = false.
Proof.
  intros Hin Hactive.
  assert (In (columnId, filterValue) (DataTable.columnFilterEntries columnFilters)) as H
    by (apply filter_In; split; assumption).
  destruct (DataTable.columnFilterEntries columnFilters); [destruct H|reflexivity].
Qed.

(** C10.  Under a kept (non-blank) filter on a column, a row whose cell in
    that column is [undefined], [null] or the empty string is matched as the
    empty string, which contains no non-empty filter text: the row is in no
    result of [filterDataSimple], whatever the data and the global filter. *)
Theorem blank_cells_fail_every_column_filter :
  forall (columnFilters : list (jsstring * jsstring)) (row : Row)
         (columnId filterValue : jsstring),
    In (columnId, filterValue) columnFilters ->
    truthy (VStr (trim filterValue)) = true ->
    blank_cell (get row columnId) = true ->
    DataTable.cellValue row columnId = []
    /\ includes (DataTable.cellValue row columnId) (toLowerCase filterValue) = false
    /\ forall (data : list Row) (globalFilter : jsstring),
         ~ In row (DataTable.filterDataSimple data globalFilter columnFilters).
Proof.
  intros columnFilters row columnId filterValue Hin Hactive Hblank.
  split; [now apply cellValue_blank|]. split.
  - rewrite cellValue_blank by assumption. apply includes_empty.
    intros Hlow. apply toLowerCase_nonempty in Hlow. subst filterValue.
    discriminate Hactive.
  - intros data globalFilter Hrow. unfold DataTable.filterDataSimple in Hrow.
    destruct (Nat.eqb (length data) 0); [destruct Hrow|].
    rewrite (kept_filter_entries_nonempty _ _ _ Hin Hactive), andb_false_r in Hrow.
    apply filter_In in Hrow as [_ Hpass].
    rewrite (row_passes_blank _ _ _ _ _ Hin Hactive Hblank) in Hpass.
    discriminate.
Qed.

(** C3, as the code has it.  A kept (non-blank) filter under a key that no
    row has a value for, and that is not one of the names a row inherits from
    [Object.prototype], rejects every row: [filterDataSimple] returns the
    empty array.  It has no error result.  (Under an inherited name such as
    [constructor] the code reads the inherited function, not [undefined].) *)
Theorem filter_on_unknown_column_returns_no_rows :
  forall (data : list Row) (globalFilter : jsstring)
         (columnFilters : list (jsstring * jsstring)) (columnId filterValue : jsstring),
    In (columnId, filterValue) columnFilters ->
    truthy (VStr (trim filterValue)) = true ->
    inherited columnId = false ->
    Forall (fun row => get row columnId = VUndefined) data ->
    DataTable.filterDataSimple data globalFilter columnFilters = [].
Proof.
  intros data globalFilter columnFilters columnId filterValue Hin Hactive _ Hdata.
  unfold DataTable.filterDataSimple.
  destruct (Nat.eqb (length data) 0); [reflexivity|].
  rewrite (kept_filter_entries_nonempty _ _ _ Hin Hactive), andb_false_r.
  apply filter_none. intros row Hrow.
  apply (row_passes_blank _ _ _ _ _ Hin Hactive).
  rewrite List.Forall_forall in Hdata. now rewrite (Hdata row Hrow).
Qed.

End FilterFacts.

(** The blank-cell property at the row of Bob, whose age is empty, under a
    filter on the age. *)
Lemma blank_cells_fail_every_column_filter_witness :
  let columnFilters := [(str "age", str "3")] in
  let row : Row := [(str "id", VNum 1); (str "name", VStr (str "Bob")); (str "age", VStr [])] in
  In (str "age", str "3") columnFilters
  /\ truthy (VStr (trim (str "3"))) = true
  /\ blank_cell (get row (str "age")) = true
  /\ (DataTable.cellValue (L := ascii_locale) row (str "age") = []
      /\ includes (DataTable.cellValue (L := ascii_locale) row (str "age"))
                  (toLowerCase (Locale := ascii_locale) (str "3")) = false
      /\ forall (data : list Row) (globalFilter : jsstring),
           ~ In row (DataTable.filterDataSimple (L := ascii_locale) data globalFilter
                       columnFilters)).
Proof.
  intros columnFilters row.
  split; [now left|]. split; [reflexivity|]. split; [reflexivity|].
  apply (blank_cells_fail_every_column_filter (L := ascii_locale));
    [now left|reflexivity|reflexivity].
Defined.

(** The unknown-column property at rows with a name and a filter on a city. *)
Lemma filter_on_unknown_column_returns_no_rows_witness :
  let data : list Row := [[(str "id", VNum 0); (str "name", VStr (str "Alice"))]] in
  let columnFilters := [(str "city", str "a")] in
  In (str "city", str "a") columnFilters
  /\ truthy (VStr (trim (str "a"))) = true
  /\ inherited (str "city") = false
  /\ Forall (fun row => get row (str "city") = VUndefined) data
  /\ DataTable.filterDataSimple (L := ascii_locale) data [] columnFilters = [].
Proof.
  intros data columnFilters.
  assert (Hin : In (str "city", str "a") columnFilters) by now left.
  assert (Hactive : truthy (VStr (trim (str "a"))) = true) by reflexivity.
  assert (Hown : inherited (str "city") = false) by reflexivity.
  assert (Hdata : Forall (fun row => get row (str "city") = VUndefined) data)
    by (repeat constructor).
  split; [exact Hin|]. split; [exact Hactive|]. split; [exact Hown|].
  split; [exact Hdata|].
  exact (filter_on_unknown_column_returns_no_rows (L := ascii_locale)
           data [] columnFilters (str "city") (str "a") Hin Hactive Hown Hdata).
Defined.

(** C3 as stated fails: the rows have a [name] and no [city]; a filter on
    [city] gives back a row set, the empty one, where the same filter on
    [name] gives the row. *)
Lemma filter_on_unknown_column_is_no_error :
  DataTable.filterDataSimple (L := ascii_locale)
    [[(str "id", VNum 0); (str "name", VStr (str "Alice"))]] [] [(str "city", str "a")]
  = []
  /\ DataTable.filterDataSimple (L := ascii_locale)
       [[(str "id", VNum 0); (str "name", VStr (str "Alice"))]] [] [(str "name", str "a")]
     = [[(str "id", VNum 0); (str "name", VStr (str "Alice"))]].
Proof. split; vm_compute; reflexivity. Qed.

(** A filter of blanks is dropped before the rows are looked at, on a known
    column or not. *)
Example blank_filter_is_dropped :
  DataTable.filterDataSimple (L := ascii_locale)
    [[(str "id", VNum 0); (str "name", VStr (str "Alice"))]] [] [(str "city", str "  ")]
  = [[(str "id", VNum 0); (str "name", VStr (str "Alice"))]].
Proof. vm_compute. reflexivity. Qed.

(** ** The input array of a query function (C9) *)

(** A new array gets a reference no array had, and leaves the others as
    they are. *)
Lemma alloc_fresh (rows : list Row) (h : Heap.heap) :
  exists a, Heap.alloc rows h = Some (a, <[a := rows]> h) /\ h !! a = None.
Proof.
  exists (fresh (dom h)). split; [reflexivity|].
  apply not_elem_of_dom. apply is_fresh.
Qed.

Section HeapFacts.
Context {L : Locale}.

(** [filterDataSimple] on references: the input array and every other array
    keep their rows; the result holds the filtered rows; it is the input
    array itself when there are rows and no filter is kept, and a new array
    otherwise. *)
Lemma filterDataSimple_frame (h : Heap.heap) (data : Heap.loc) (rows : list Row)
    (globalFilter : jsstring) (columnFilters : list (jsstring * jsstring)) :
  h !! data = Some rows ->
  exists r h',
    Heap.filterDataSimple data globalFilter columnFilters h = Some (r, h')
    /\ h' !! data = Some rows
    /\ h ⊆ h'
    /\ h' !! r = Some (DataTable.filterDataSimple rows globalFilter columnFilters)
    /\ (if negb (Nat.eqb (length rows) 0)
           && (negb (0 <? length (DataTable.globalFilterLower globalFilter))%nat
               && Nat.eqb (length (DataTable.columnFilterEntries columnFilters)) 0)
        then r = data /\ h' = h
        else h !! r = None).
Proof.
  intros Hdata.
  unfold Heap.filterDataSimple, DataTable.filterDataSimple, Heap.bind, Heap.read.
  rewrite Hdata.
  destruct (Nat.eqb (length rows) 0); simpl.
  - destruct (alloc_fresh [] h) as [a [-> Ha]].
    exists a, (<[a := []]> h). repeat split; auto.
    + rewrite lookup_insert_ne; [exact Hdata|congruence].
    + now apply insert_subseteq.
    + apply lookup_insert_eq.
  - destruct (negb _ && _).
    + exists data, h. repeat split; auto.
    + match goal with |- context [Heap.alloc ?v h] =>
        destruct (alloc_fresh v h) as [a [-> Ha]]; exists a, (<[a := v]> h)
      end.
      repeat split; auto.
      * rewrite lookup_insert_ne; [exact Hdata|congruence].
      * now apply insert_subseteq.
      * apply lookup_insert_eq.
Qed.

(** [sortData] on references: with a sort column the rows are copied into a
    new array and the copy is sorted; without one the input array itself is
    returned.  The input array and every other array keep their rows. *)
Lemma sortData_frame (h : Heap.heap) (data : Heap.loc) (rows : list Row)
    (column direction : jsstring) :
  h !! data = Some rows ->
  exists r h',
    Heap.sortData data column direction h = Some (r, h')
    /\ h' !! data = Some rows
    /\ h ⊆ h'
    /\ h' !! r = Some (DataTable.sortData rows column direction)
    /\ (if truthy (VStr column) then h !! r = None else r = data /\ h' = h).
Proof.
  intros Hdata. unfold Heap.sortData, DataTable.sortData.
  destruct (truthy (VStr column)); simpl.
  - unfold Heap.bind, Heap.spread, Heap.bind, Heap.read. rewrite Hdata.
    destruct (alloc_fresh rows h) as [a [-> Ha]].
    unfold Heap.sort_in_place, Heap.bind, Heap.read, Heap.write, Heap.ret.
    rewrite lookup_insert_eq, insert_insert_eq.
    eexists _, _. split; [reflexivity|]. repeat split; auto.
    + rewrite lookup_insert_ne; [exact Hdata|congruence].
    + now apply insert_subseteq.
    + apply lookup_insert_eq.
  - exists data, h. repeat split; auto.
Qed.

(** [paginateData] on references: the page is a new array; the input array
    and every other array keep their rows. *)
Lemma paginateData_frame (h : Heap.heap) (data : Heap.loc) (rows : list Row)
    (page size : Z) :
  h !! data = Some rows ->
  exists r h',
    Heap.paginateData data page size h = Some (r, h')
    /\ h' !! data = Some rows
    /\ h ⊆ h'
    /\ h' !! r = Some (DataTable.paginateData rows page size)
    /\ h !! r = None.
Proof.
  intros Hdata. unfold Heap.paginateData, DataTable.paginateData, Heap.bind, Heap.read.
  rewrite Hdata.
  match goal with |- context [Heap.alloc ?v h] =>
    destruct (alloc_fresh v h) as [a [-> Ha]]; exists a, (<[a := v]> h)
  end.
  repeat split; auto.
  - rewrite lookup_insert_ne; [exact Hdata|congruence].
  - now apply insert_subseteq.
  - apply lookup_insert_eq.
Qed.

(** C9, as the code has it.  None of the three functions writes to its input
    array, or to any array that exists when it is called: afterwards the
    input holds the same rows in the same order.  The page is always a new
    array.  The sorted rows are in a new array (a sorted copy) when a sort
    column is given, and the filtered rows are in a new array when the input
    is empty or a filter is kept; with no sort column, and with rows but no
    kept filter, the function returns the input array itself. *)
Theorem query_functions_keep_their_input :
  forall (h : Heap.heap) (data : Heap.loc) (rows : list Row)
         (globalFilter : jsstring) (columnFilters : list (jsstring * jsstring))
         (column direction : jsstring) (page size : Z),
    h !! data = Some rows ->
    (exists r h',
        Heap.filterDataSimple data globalFilter columnFilters h = Some (r, h')
        /\ h' !! data = Some rows /\ h ⊆ h'
        /\ h' !! r = Some (DataTable.filterDataSimple rows globalFilter columnFilters)
        /\ (if negb (Nat.eqb (length rows) 0)
               && (negb (0 <? length (DataTable.globalFilterLower globalFilter))%nat
                   && Nat.eqb (length (DataTable.columnFilterEntries columnFilters)) 0)
            then r = data /\ h' = h
            else h !! r = None))
    /\ (exists r h',
           Heap.sortData data column direction h = Some (r, h')
           /\ h' !! data = Some rows /\ h ⊆ h'
           /\ h' !! r = Some (DataTable.sortData rows column direction)
           /\ (if truthy (VStr column) then h !! r = None else r = data /\ h' = h))
    /\ (exists r h',
           Heap.paginateData data page size h = Some (r, h')
           /\ h' !! data = Some rows /\ h ⊆ h'
           /\ h' !! r = Some (DataTable.paginateData rows page size)
           /\ h !! r = None).
Proof.
  intros h data rows globalFilter columnFilters column direction page size Hdata.
  split; [|split].
  - now apply filterDataSimple_frame.
  - now apply sortData_frame.
  - now apply paginateData_frame.
Qed.

End HeapFacts.

(** The input property at a heap with one array of two rows. *)
Lemma query_functions_keep_their_input_witness :
  let rows : list Row := [[(str "name", VStr (str "b"))]; [(str "name", VStr (str "a"))]] in
  let h : Heap.heap := {[ 1%positive := rows ]} in
  let data := 1%positive in
  let columnFilters := [(str "name", str "a")] in
  h !! data = Some rows
  /\ ((exists r h',
          Heap.filterDataSimple (L := ascii_locale) data [] columnFilters h = Some (r, h')
          /\ h' !! data = Some rows /\ h ⊆ h'
          /\ h' !! r = Some (DataTable.filterDataSimple (L := ascii_locale) rows []
                               columnFilters)
          /\ (if negb (Nat.eqb (length rows) 0)
                 && (negb (0 <? length (DataTable.globalFilterLower (L := ascii_locale) []))%nat
                     && Nat.eqb (length (DataTable.columnFilterEntries columnFilters)) 0)
              then r = data /\ h' = h
              else h !! r = None))
      /\ (exists r h',
             Heap.sortData (L := ascii_locale) data (str "name") (str "asc") h = Some (r, h')
             /\ h' !! data = Some rows /\ h ⊆ h'
             /\ h' !! r = Some (DataTable.sortData (L := ascii_locale) rows (str "name")
                                  (str "asc"))
             /\ (if truthy (VStr (str "name")) then h !! r = None else r = data /\ h' = h))
      /\ (exists r h',
             Heap.paginateData data 1 1 h = Some (r, h')
             /\ h' !! data = Some rows /\ h ⊆ h'
             /\ h' !! r = Some (DataTable.paginateData rows 1 1)
             /\ h !! r = None)).
Proof.
  intros rows h data columnFilters.
  assert (Hdata : h !! data = Some rows) by reflexivity.
  split; [exact Hdata|].
  exact (query_functions_keep_their_input (L := ascii_locale) h data rows []
           columnFilters (str "name") (str "asc") 1 1 Hdata).
Defined.

(** C9 as stated fails on the results: with no sort column [sortData]
    returns the very array it was given, and so does [filterDataSimple] when
    no filter is set; neither is a new array. *)
Lemma no_column_or_no_filter_returns_the_input_array :
  let rows : list Row := [[(str "name", VStr (str "b"))]; [(str "name", VStr (str "a"))]] in
  let h : Heap.heap := {[ 1%positive := rows ]} in
  Heap.sortData (L := ascii_locale) 1%positive [] (str "asc") h = Some (1%positive, h)
  /\ Heap.filterDataSimple (L := ascii_locale) 1%positive [] [] h = Some (1%positive, h).
Proof. split; reflexivity. Qed.

(** With a sort column the copy is sorted and the input is left as it was. *)
Example sortData_sorts_a_copy :
  let rows : list Row := [[(str "name", VStr (str "b"))]; [(str "name", VStr (str "a"))]] in
  let h : Heap.heap := {[ 1%positive := rows ]} in
  exists r h',
    Heap.sortData (L := ascii_locale) 1%positive (str "name") (str "asc") h = Some (r, h')
    /\ r <> 1%positive
    /\ h' !! 1%positive = Some rows
    /\ h' !! r = Some [[(str "name", VStr (str "a"))]; [(str "name", VStr (str "b"))]].
Proof.
  intros rows h.
  destruct (sortData_frame (L := ascii_locale) h 1%positive rows (str "name") (str "asc")
              eq_refl) as [r [h' [Hrun [Hin [_ [Hout Hnew]]]]]].
  exists r, h'. repeat split; auto.
  simpl in Hnew. intros ->. unfold h in Hnew. rewrite lookup_singleton_eq in Hnew.
  discriminate.
Qed.

(* ===================================================================== *)
(** * Further properties of the table, the stores and the chart filters *)
(* ===================================================================== *)

(** ** Filtering *)

Lemma filter_all {A : Type} (p : A -> bool) (l : list A) :
  (forall x, In x l -> p x = true) -> List.filter p l = l.
Proof.
  induction l as [|x l IH]; simpl; [reflexivity|].
  intros H. rewrite (H x) by now left. f_equal. apply IH. intros y Hy. apply H. now right.
Qed.

Lemma filter_twice {A : Type} (p q : A -> bool) (l : list A) :
  List.filter q (List.filter p l) = List.filter (fun x => p x && q x) l.
Proof.
  induction l as [|x l IH]; simpl; [reflexivity|].
  destruct (p x); simpl; [destruct (q x); now rewrite IH|exact IH].
Qed.

Section FilterMore.
Context {L : Locale}.

Lemma globalFilterLower_eq (g : jsstring) :
  DataTable.globalFilterLower g = toLowerCase (trim g).
Proof.
  unfold DataTable.globalFilterLower, or_else. simpl.
  destruct (toLowerCase (trim g)); reflexivity.
Qed.

(** Whatever the early returns, the result is the input filtered by the
    callback. *)
Lemma filterDataSimple_as_filter (data : list Row) (g : jsstring)
    (cf : list (jsstring * jsstring)) :
  DataTable.filterDataSimple data g cf
  = List.filter (DataTable.row_passes (DataTable.globalFilterLower g)
                                      (DataTable.columnFilterEntries cf)) data.
Proof.
  unfold DataTable.filterDataSimple.
  destruct data as [|r data]; [reflexivity|].
  cbn [length Nat.eqb].
  destruct (negb _ && _) eqn:E; [|reflexivity].
  apply andb_true_iff in E as [Hg He].
  symmetry. apply filter_all. intros row _.
  unfold DataTable.row_passes.
  apply negb_true_iff in Hg. rewrite Hg. simpl.
  destruct (DataTable.columnFilterEntries cf); [reflexivity|discriminate].
Qed.

Lemma filterDataSimple_In :
  forall (data : list Row) (g : jsstring) (cf : list (jsstring * jsstring)) (row : Row),
    In row (DataTable.filterDataSimple data g cf)
    <-> In row data
        /\ (toLowerCase (trim g) = []
            \/ exists v, In v (Object_values row)
                         /\ includes (toLowerCase (ToString v)) (toLowerCase (trim g)) = true)
        /\ (forall columnId filterValue,
               In (columnId, filterValue) cf -> trim filterValue <> [] ->
               includes (DataTable.cellValue row columnId) (toLowerCase filterValue) = true).
Proof.
  intros data g cf row.
  rewrite filterDataSimple_as_filter, filter_In, globalFilterLower_eq.
  unfold DataTable.row_passes.
  split.
  - intros [Hin Hpass]. split; [exact Hin|].
    destruct (toLowerCase (trim g)) as [|c gl] eqn:Hg.
    + split; [now left|]. simpl in Hpass.
      intros columnId filterValue Hcf Hkept.
      rewrite forallb_forall in Hpass.
      apply (Hpass (columnId, filterValue)).
      apply filter_In. split; [exact Hcf|].
      simpl. destruct (trim filterValue); [congruence|reflexivity].
    + cbn [length Nat.ltb Nat.leb andb] in Hpass.
      destruct (existsb _ (Object_values row)) eqn:Hex; simpl in Hpass; [|discriminate].
      split.
      * right. apply existsb_exists in Hex. exact Hex.
      * intros columnId filterValue Hcf Hkept.
        rewrite forallb_forall in Hpass.
        apply (Hpass (columnId, filterValue)).
        apply filter_In. split; [exact Hcf|].
        simpl. destruct (trim filterValue); [congruence|reflexivity].
  - intros [Hin [Hglobal Hcols]]. split; [exact Hin|].
    assert (Hall : forallb (fun '(columnId, filterValue) =>
                    includes (DataTable.cellValue row columnId) (toLowerCase filterValue))
                    (DataTable.columnFilterEntries cf) = true).
    { apply forallb_forall. intros [columnId filterValue] Hkv.
      apply filter_In in Hkv as [Hcf Hkept]. apply Hcols; [exact Hcf|].
      simpl in Hkept. intros Hnil. rewrite Hnil in Hkept. discriminate. }
    destruct (toLowerCase (trim g)) as [|c gl] eqn:Hg; [exact Hall|].
    cbn [length Nat.ltb Nat.leb andb].
    destruct Hglobal as [Hnil|Hex]; [discriminate|].
    assert (existsb (fun v => includes (toLowerCase (ToString v)) (c :: gl))
              (Object_values row) = true) as -> by (apply existsb_exists; exact Hex).
    exact Hall.
Qed.


(** X1.  Which rows [filterDataSimple] returns.  A row of the data is in the
    result exactly when (1) the global filter is blank or the text of one of
    the row's cells contains it, lower-cased, and (2) for every column filter
    that is not blank the lower-cased text of the row's cell in that column
    contains the lower-cased filter text; the result has no other rows. *)
Theorem filterDataSimple_keeps_exactly_the_matching_rows :
  forall (data : list Row) (g : jsstring) (cf : list (jsstring * jsstring)) (row : Row),
    In row (DataTable.filterDataSimple data g cf)
    <-> In row data
        /\ (toLowerCase (trim g) = []
            \/ exists v, In v (Object_values row)
                         /\ includes (toLowerCase (ToString v)) (toLowerCase (trim g)) = true)
        /\ (forall columnId filterValue,
               In (columnId, filterValue) cf -> trim filterValue <> [] ->
               includes (DataTable.cellValue row columnId) (toLowerCase filterValue) = true).
Proof. exact filterDataSimple_In. Qed.

Lemma columnFilterEntries_app (cf1 cf2 : list (jsstring * jsstring)) :
  DataTable.columnFilterEntries (cf1 ++ cf2)
  = DataTable.columnFilterEntries cf1 ++ DataTable.columnFilterEntries cf2.
Proof. apply List.filter_app. Qed.

Lemma row_passes_app (gl : jsstring) (e1 e2 : list (jsstring * jsstring)) (row : Row) :
  DataTable.row_passes gl (e1 ++ e2) row
  = DataTable.row_passes gl e1 row && DataTable.row_passes [] e2 row.
Proof.
  unfold DataTable.row_passes. simpl. rewrite forallb_app.
  destruct (_ && negb _); reflexivity.
Qed.

(** X2.  Column filters add up.  Filtering with the filters of two groups gives
    the rows that filtering with the first group and then filtering the
    result with the second gives; and the order of the groups does not
    matter. *)
Theorem column_filters_narrow_one_after_the_other :
  forall (data : list Row) (g : jsstring) (cf1 cf2 : list (jsstring * jsstring)),
    DataTable.filterDataSimple data g (cf1 ++ cf2)
    = DataTable.filterDataSimple (DataTable.filterDataSimple data g cf1) [] cf2
    /\ DataTable.filterDataSimple data g (cf1 ++ cf2)
       = DataTable.filterDataSimple data g (cf2 ++ cf1).
Proof.
  intros data g cf1 cf2. rewrite !filterDataSimple_as_filter. split.
  - rewrite filter_twice. apply List.filter_ext. intros row.
    rewrite columnFilterEntries_app, row_passes_app. f_equal.
    rewrite (globalFilterLower_eq []). simpl. now rewrite toLowerCase_empty.
  - apply List.filter_ext. intros row.
    rewrite !columnFilterEntries_app.
    unfold DataTable.row_passes. rewrite !forallb_app.
    destruct (_ && negb _); [reflexivity|apply andb_comm].
Qed.

(** X3.  Filters of white space only filter nothing: with a blank global filter
    and only blank column filters the result is the data as given. *)
Theorem blank_filters_return_all_rows :
  forall (data : list Row) (g : jsstring) (cf : list (jsstring * jsstring)),
    trim g = [] ->
    Forall (fun kv => trim (snd kv) = []) cf ->
    DataTable.filterDataSimple data g cf = data.
Proof.
  intros data g cf Hg Hcf.
  rewrite filterDataSimple_as_filter, globalFilterLower_eq, Hg, toLowerCase_empty.
  assert (DataTable.columnFilterEntries cf = []) as ->.
  { apply filter_none. intros [k v] Hkv. rewrite List.Forall_forall in Hcf.
    specialize (Hcf _ Hkv). simpl in Hcf. simpl. now rewrite Hcf. }
  apply filter_all. intros row _. reflexivity.
Qed.

(** X4.  The first filter function and the one in use agree on a filter text
    without white space around it (the older one does not trim). *)
Theorem filterData_agrees_on_trimmed_text :
  forall (data : list Row) (filter : jsstring),
    trim filter = filter ->
    DataTableHandlers.filterData data filter = DataTable.filterDataSimple data filter [].
Proof.
  intros data filter Htrim.
  rewrite filterDataSimple_as_filter, globalFilterLower_eq, Htrim.
  unfold DataTableHandlers.filterData.
  destruct filter as [|c filter]; simpl.
  - rewrite toLowerCase_empty. symmetry. apply filter_all. intros row _. reflexivity.
  - apply List.filter_ext. intros row. unfold DataTable.row_passes.
    destruct (toLowerCase (c :: filter)) as [|d low] eqn:Hlow.
    + apply toLowerCase_nonempty in Hlow. discriminate.
    + cbn [length Nat.ltb Nat.leb andb DataTable.columnFilterEntries List.filter forallb].
      now destruct (existsb _ (Object_values row)).
Qed.

(** X5.  The global filter reads an empty cell as the text [null]: a row that
    has a [null] cell is found by every global filter whose lower-cased text
    is part of the lower-cased [null]. *)
Theorem global_filter_finds_null_cells_as_text :
  forall (data : list Row) (g : jsstring) (row : Row) (key : jsstring),
    In row data ->
    In (key, VNull) row ->
    includes (toLowerCase (str "null")) (toLowerCase (trim g)) = true ->
    In row (DataTable.filterDataSimple data g []).
Proof.
  intros data g row key Hrow Hcell Hpart.
  apply filterDataSimple_In.
  split; [exact Hrow|]. split.
  - right. exists VNull. split; [|exact Hpart].
    unfold Object_values. apply in_map_iff. exists (key, VNull). auto.
  - intros ? ? [].
Qed.

End FilterMore.

Lemma blank_filters_return_all_rows_witness :
  let data : list Row := [[(str "id", VNum 0); (str "name", VStr (str "Alice"))]] in
  trim (str "  ") = []
  /\ Forall (fun kv : jsstring * jsstring => trim (snd kv) = []) [(str "name", str " ")]
  /\ DataTable.filterDataSimple (L := ascii_locale) data (str "  ") [(str "name", str " ")]
     = data.
Proof.
  intros data.
  assert (Hg : trim (str "  ") = []) by reflexivity.
  assert (Hcf : Forall (fun kv : jsstring * jsstring => trim (snd kv) = [])
                  [(str "name", str " ")]) by (repeat constructor).
  split; [exact Hg|]. split; [exact Hcf|].
  exact (blank_filters_return_all_rows (L := ascii_locale) data _ _ Hg Hcf).
Defined.

Lemma filterData_agrees_on_trimmed_text_witness :
  let data : list Row := [[(str "name", VStr (str "Alice"))]; [(str "name", VStr (str "Bob"))]] in
  trim (str "LI") = str "LI"
  /\ DataTableHandlers.filterData (L := ascii_locale) data (str "LI")
     = DataTable.filterDataSimple (L := ascii_locale) data (str "LI") [].
Proof.
  intros data.
  assert (Htrim : trim (str "LI") = str "LI") by reflexivity.
  split; [exact Htrim|].
  exact (filterData_agrees_on_trimmed_text (L := ascii_locale) data (str "LI") Htrim).
Defined.

(** With white space around the text the two differ: the older function
    looks for the text with its spaces. *)
Example filterData_does_not_trim :
  let data : list Row := [[(str "name", VStr (str "Alice"))]] in
  DataTableHandlers.filterData (L := ascii_locale) data (str " ali") = []
  /\ DataTable.filterDataSimple (L := ascii_locale) data (str " ali") [] = data.
Proof. split; vm_compute; reflexivity. Qed.

Lemma global_filter_finds_null_cells_as_text_witness :
  let row : Row := [(str "id", VNum 1); (str "name", VStr (str "Bob")); (str "age", VNull)] in
  let data := [[(str "id", VNum 0); (str "name", VStr (str "Alice")); (str "age", VStr (str "30"))];
               row] in
  In row data
  /\ In (str "age", VNull) row
  /\ includes (toLowerCase (Locale := ascii_locale) (str "null"))
              (toLowerCase (Locale := ascii_locale) (trim (str "NUL"))) = true
  /\ In row (DataTable.filterDataSimple (L := ascii_locale) data (str "NUL") []).
Proof.
  intros row data.
  assert (Hrow : In row data) by (right; now left).
  assert (Hcell : In (str "age", VNull) row) by (right; right; now left).
  assert (Hpart : includes (toLowerCase (Locale := ascii_locale) (str "null"))
                    (toLowerCase (Locale := ascii_locale) (trim (str "NUL"))) = true)
    by reflexivity.
  split; [exact Hrow|]. split; [exact Hcell|]. split; [exact Hpart|].
  exact (global_filter_finds_null_cells_as_text (L := ascii_locale) data (str "NUL") row
           (str "age") Hrow Hcell Hpart).
Defined.

(** ** Sorting *)

Lemma StronglySorted_weaken {A : Type} (R R' : A -> A -> Prop) (l : list A) :
  (forall a b, R a b -> R' a b) -> StronglySorted R l -> StronglySorted R' l.
Proof.
  intros Himp Hs. induction Hs as [|x l Hs IH Hx]; constructor; [exact IH|].
  eapply List.Forall_impl; [|exact Hx]. intros b. apply Himp.
Qed.

(** The sort puts rows in order whenever the comparator is total and
    transitive on the rows it is given. *)
Lemma Array_sort_in_order_on {A : Type} (compare : A -> A -> Z) (P : A -> Prop)
    (l : list A) :
  Forall P l ->
  (forall a b, P a -> P b -> 0 < compare a b -> compare b a <= 0) ->
  (forall a b c, P a -> P b -> P c ->
                 compare a b <= 0 -> compare b c <= 0 -> compare a c <= 0) ->
  StronglySorted (fun a b => compare a b <= 0 /\ P a /\ P b) (Array_sort compare l).
Proof.
  intros Hl Htotal Htrans.
  assert (Hins : forall x s, P x ->
            StronglySorted (fun a b => compare a b <= 0 /\ P a /\ P b) s ->
            Forall P s ->
            StronglySorted (fun a b => compare a b <= 0 /\ P a /\ P b)
                           (sorted_insert compare x s)).
  { intros x s Hx Hs HPs. induction Hs as [|y s Hs IH Hy]; simpl.
    - constructor; constructor.
    - inversion HPs as [|? ? HPy HPs']; subst.
      destruct (Z.leb_spec (compare x y) 0) as [Hle|Hgt].
      + constructor; [now constructor|].
        constructor; [auto|].
        eapply List.Forall_impl; [|exact Hy]. intros z [Hyz [_ HPz]].
        split; [|auto]. now apply (Htrans x y z).
      + constructor; [now apply IH|].
        apply List.Forall_forall. intros z Hz.
        apply (Permutation_in _ (sorted_insert_Permutation compare x s)) in Hz.
        destruct Hz as [<-|Hz].
        * split; [|auto]. apply Htotal; auto.
        * rewrite List.Forall_forall in Hy. now apply Hy. }
  induction Hl as [|x l Hx Hl IH]; simpl; [constructor|].
  apply Hins; [exact Hx|exact IH|].
  apply List.Forall_forall. intros z Hz.
  apply (Permutation_in _ (Array_sort_Permutation compare l)) in Hz.
  rewrite List.Forall_forall in Hl. now apply Hl.
Qed.

Section SortMore.
Context {L : Locale}.

(** X6.  Sorting only rearranges: the result has the rows of the input, each as
    often as the input has it, whatever the column and the direction. *)
Theorem sortData_rearranges_the_rows :
  forall (data : list Row) (column direction : jsstring),
    Permutation (DataTable.sortData data column direction) data
    /\ length (DataTable.sortData data column direction) = length data.
Proof.
  intros data column direction.
  assert (Hperm : Permutation (DataTable.sortData data column direction) data).
  { unfold DataTable.sortData. destruct (negb _); [reflexivity|].
    apply Array_sort_Permutation. }
  split; [exact Hperm|]. now apply Permutation_length.
Qed.

(** X7.  On a column whose cells are all numbers the rows come out in the order
    of the numbers: not decreasing when the direction is [asc], not
    increasing for any other direction. *)
Theorem sortData_orders_number_cells :
  forall (data : list Row) (column direction : jsstring),
    column <> [] ->
    Forall (fun row => exists n, get row column = VNum n) data ->
    if JsString.eqb direction DataTable.asc
    then StronglySorted (number_le column) (DataTable.sortData data column direction)
    else StronglySorted (fun a b => number_le column b a)
                        (DataTable.sortData data column direction).
Proof.
  intros data column direction Hcol Hdata.
  unfold DataTable.sortData.
  destruct column as [|c column]; [congruence|]. cbn [truthy length Nat.eqb negb].
  set (col := c :: column) in *.
  pose proof (Array_sort_in_order_on (DataTable.compare_rows col direction)
                (fun row => exists n, get row col = VNum n) data Hdata) as Hsorted.
  destruct (JsString.eqb direction DataTable.asc) eqn:Hdir.
  - eapply StronglySorted_weaken; [|apply Hsorted].
    + intros a b [Hle [[x Hx] [y Hy]]]. unfold number_le. rewrite Hx, Hy.
      unfold DataTable.compare_rows in Hle. rewrite Hx, Hy, Hdir in Hle. simpl in Hle. lia.
    + intros a b [x Hx] [y Hy]. unfold DataTable.compare_rows.
      rewrite Hx, Hy, Hdir. simpl. lia.
    + intros a b d [x Hx] [y Hy] [z Hz]. unfold DataTable.compare_rows.
      rewrite Hx, Hy, Hz, Hdir. simpl. lia.
  - eapply StronglySorted_weaken; [|apply Hsorted].
    + intros a b [Hle [[x Hx] [y Hy]]]. unfold number_le. rewrite Hx, Hy.
      unfold DataTable.compare_rows in Hle. rewrite Hx, Hy, Hdir in Hle. simpl in Hle. lia.
    + intros a b [x Hx] [y Hy]. unfold DataTable.compare_rows.
      rewrite Hx, Hy, Hdir. simpl. lia.
    + intros a b d [x Hx] [y Hy] [z Hz]. unfold DataTable.compare_rows.
      rewrite Hx, Hy, Hz, Hdir. simpl. lia.
Qed.

End SortMore.

Lemma sortData_orders_number_cells_witness :
  let data : list Row := [[(str "id", VNum 2)]; [(str "id", VNum 0)]; [(str "id", VNum 1)]] in
  str "id" <> []
  /\ Forall (fun row => exists n, get row (str "id") = VNum n) data
  /\ (if JsString.eqb (str "desc") DataTable.asc
      then StronglySorted (number_le (str "id"))
             (DataTable.sortData (L := ascii_locale) data (str "id") (str "desc"))
      else StronglySorted (fun a b => number_le (str "id") b a)
             (DataTable.sortData (L := ascii_locale) data (str "id") (str "desc"))).
Proof.
  intros data.
  assert (Hcol : str "id" <> []) by discriminate.
  assert (Hdata : Forall (fun row => exists n, get row (str "id") = VNum n) data)
    by (repeat constructor; eexists; reflexivity).
  split; [exact Hcol|]. split; [exact Hdata|].
  exact (sortData_orders_number_cells (L := ascii_locale) data (str "id") (str "desc")
           Hcol Hdata).
Defined.

(** The rows of the witness, sorted downwards by their id. *)
Example sortData_by_id_descending :
  DataTable.sortData (L := ascii_locale)
    [[(str "id", VNum 2)]; [(str "id", VNum 0)]; [(str "id", VNum 1)]] (str "id") (str "desc")
  = [[(str "id", VNum 2)]; [(str "id", VNum 1)]; [(str "id", VNum 0)]].
Proof. vm_compute. reflexivity. Qed.

(** ** Pages *)

Lemma firstn_min_length {A : Type} (n : nat) (l : list A) :
  List.firstn (Nat.min n (length l)) l = List.firstn n l.
Proof.
  destruct (Nat.le_ge_cases n (length l)) as [H|H].
  - now rewrite Nat.min_l.
  - rewrite Nat.min_r by exact H. now rewrite !firstn_all2 by lia.
Qed.

(** A slice between two indices that are not negative, in order. *)
Lemma Array_slice_nonneg {A : Type} (l : list A) (a b : Z) :
  0 <= a <= b ->
  Array_slice l a b = List.firstn (Z.to_nat (b - a)) (List.skipn (Z.to_nat a) l).
Proof.
  intros Hab. unfold Array_slice, relative_index.
  destruct (Z.ltb_spec a 0); [lia|]. destruct (Z.ltb_spec b 0); [lia|].
  destruct (Z.le_gt_cases (Z.of_nat (length l)) a) as [Hout|Hin].
  - rewrite !Z.min_r by lia.
    rewrite !skipn_all2 by lia. now rewrite !firstn_nil.
  - rewrite (Z.min_l a) by lia.
    rewrite <- (firstn_min_length (Z.to_nat (b - a))).
    f_equal. rewrite length_skipn. lia.
Qed.

Lemma firstn_then_next {A : Type} (a b : nat) (l : list A) :
  List.firstn a l ++ List.firstn b (List.skipn a l) = List.firstn (a + b) l.
Proof.
  revert l. induction a as [|a IH]; intros l; simpl; [reflexivity|].
  destruct l as [|x l]; simpl; [now rewrite firstn_nil|].
  f_equal. apply IH.
Qed.

Lemma pages_up_to {A : Type} (l : list A) (size : nat) (n : nat) :
  List.concat (List.map (fun p => List.firstn size (List.skipn (p * size) l)) (seq 0 n))
  = List.firstn (n * size) l.
Proof.
  induction n as [|n IH]; [reflexivity|].
  rewrite seq_S, List.map_app, List.concat_app, IH. simpl.
  rewrite app_nil_r, firstn_then_next. f_equal. lia.
Qed.

Lemma paginateData_as_chunk (data : list Row) (p : nat) (size : Z) :
  1 <= size ->
  DataTable.paginateData data (Z.of_nat (Datatypes.S p)) size
  = List.firstn (Z.to_nat size) (List.skipn (p * Z.to_nat size) data).
Proof.
  intros Hsize. unfold DataTable.paginateData.
  rewrite Array_slice_nonneg by nia.
  f_equal; [f_equal; lia|f_equal; nia].
Qed.

(** X8.  The pages cover the data.  For a page size of at least one, the pages
    1 to [totalPages] put one after the other are the rows of the data, in
    their order: no row is left out and none is on two pages. *)
Theorem pages_put_together_are_the_data :
  forall (parsed filtered : list Row) (page size : Z),
    1 <= size ->
    let pages := totalPages (DataTable.tableInfo parsed filtered page size) in
    List.concat (List.map (fun p => DataTable.paginateData filtered (Z.of_nat p) size)
                          (seq 1 (Z.to_nat pages)))
    = filtered.
Proof.
  intros parsed filtered page size Hsize pages. subst pages. simpl.
  pose proof (Math_ceil_div_spec (Z.of_nat (length filtered)) size Hsize) as Hceil.
  set (n := Z.to_nat (Math_ceil_div (Z.of_nat (length filtered)) size)) in *.
  rewrite <- seq_shift, List.map_map.
  rewrite (List.map_ext _ (fun p => List.firstn (Z.to_nat size)
                             (List.skipn (p * Z.to_nat size) filtered)))
    by (intros p; now apply paginateData_as_chunk).
  rewrite pages_up_to. apply firstn_all2. subst n. nia.
Qed.

(** X9.  The range the table shows is the page.  For a page size of at least one
    and a page between 1 and [totalPages], [startRow] and [endRow] are
    positions of the filtered rows ([1 <= startRow <= endRow <= filteredRows]),
    the page holds [endRow - startRow + 1] rows, and they are the filtered
    rows at the positions [startRow] to [endRow]. *)
Theorem shown_range_is_the_page :
  forall (parsed filtered : list Row) (page size : Z),
    1 <= size ->
    let info := DataTable.tableInfo parsed filtered page size in
    1 <= page <= totalPages info ->
    1 <= startRow info <= endRow info
    /\ endRow info <= filteredRows info
    /\ Z.of_nat (length (DataTable.paginateData filtered page size))
       = endRow info - startRow info + 1
    /\ DataTable.paginateData filtered page size
       = rows_from_to (startRow info) (endRow info) filtered.
Proof.
  intros parsed filtered page size Hsize info Hpage. subst info. simpl in *.
  pose proof (Math_ceil_div_spec (Z.of_nat (length filtered)) size Hsize) as Hceil.
  set (T := Z.of_nat (length filtered)) in *.
  set (N := Math_ceil_div T size) in *.
  assert (Hbefore : (page - 1) * size < T) by nia.
  assert (Hstart : 0 <= (page - 1) * size) by nia.
  assert (Hpage_eq : DataTable.paginateData filtered page size
            = rows_from_to ((page - 1) * size + 1) (Z.min (page * size) T) filtered).
  { unfold DataTable.paginateData, rows_from_to.
    rewrite Array_slice_nonneg by nia.
    replace (Z.to_nat ((page - 1) * size + 1 - 1)) with (Z.to_nat ((page - 1) * size)) by lia.
    rewrite <- (firstn_min_length (Z.to_nat ((page - 1) * size + size - (page - 1) * size))).
    f_equal. rewrite length_skipn. unfold T in *. lia. }
  repeat split; try lia.
  - rewrite Hpage_eq. unfold rows_from_to.
    rewrite length_firstn, length_skipn. unfold T in *. lia.
  - exact Hpage_eq.
Qed.

Lemma shown_range_is_the_page_witness :
  let rows : list Row :=
    [[(str "n", VStr (str "1"))]; [(str "n", VStr (str "2"))]; [(str "n", VStr (str "3"))]] in
  1 <= 2
  /\ (let info := DataTable.tableInfo rows rows 2 2 in
      1 <= 2 <= totalPages info
      /\ (1 <= startRow info <= endRow info
          /\ endRow info <= filteredRows info
          /\ Z.of_nat (length (DataTable.paginateData rows 2 2))
             = endRow info - startRow info + 1
          /\ DataTable.paginateData rows 2 2
             = rows_from_to (startRow info) (endRow info) rows)).
Proof.
  intros rows.
  assert (Hsize : 1 <= 2) by lia.
  assert (Hpage : 1 <= 2 <= totalPages (DataTable.tableInfo rows rows 2 2))
    by (vm_compute; split; discriminate).
  split; [exact Hsize|]. split; [exact Hpage|].
  exact (shown_range_is_the_page rows rows 2 2 Hsize Hpage).
Defined.

Lemma pages_put_together_are_the_data_witness :
  let rows : list Row :=
    [[(str "n", VStr (str "1"))]; [(str "n", VStr (str "2"))]; [(str "n", VStr (str "3"))]] in
  1 <= 2
  /\ (let pages := totalPages (DataTable.tableInfo rows rows 1 2) in
      List.concat (List.map (fun p => DataTable.paginateData rows (Z.of_nat p) 2)
                            (seq 1 (Z.to_nat pages)))
      = rows).
Proof.
  intros rows.
  assert (Hsize : 1 <= 2) by lia.
  split; [exact Hsize|].
  exact (pages_put_together_are_the_data rows rows 1 2 Hsize).
Defined.

(** An empty table shows the range 1 to 0 and has no page. *)
Example empty_table_shows_one_to_zero :
  let info := DataTable.tableInfo [] [] 1 50 in
  startRow info = 1 /\ endRow info = 0 /\ totalPages info = 0
  /\ DataTableHandlers.pageNumbers 1 (totalPages info) = [].
Proof. vm_compute. repeat split; reflexivity. Qed.

(** X10.  The page buttons.  With the current page between 1 and the number of
    pages, the template shows at most five buttons, each for a page between
    1 and the number of pages and inside the window of five pages that
    starts two pages before the current one (or at page 1), and one of the
    buttons is the current page. *)
Theorem page_buttons_hold_the_current_page :
  forall (page pages : Z),
    1 <= page <= pages ->
    In page (DataTableHandlers.pageNumbers page pages)
    /\ Forall (fun p => 1 <= p <= pages /\ page - 2 <= p <= Z.max 1 (page - 2) + 4)
              (DataTableHandlers.pageNumbers page pages)
    /\ (length (DataTableHandlers.pageNumbers page pages) <= 5)%nat.
Proof.
  intros page pages Hpage. unfold DataTableHandlers.pageNumbers. repeat split.
  - apply filter_In. split; [|apply Z.leb_le; lia].
    apply in_map_iff. exists (Z.to_nat (page - Z.max 1 (page - 2))).
    split; [lia|]. apply in_seq. lia.
  - apply List.Forall_forall. intros p Hp.
    apply filter_In in Hp as [Hp Hle]. apply Z.leb_le in Hle.
    apply in_map_iff in Hp as [i [<- Hi]]. apply in_seq in Hi. lia.
  - etransitivity; [apply List.filter_length_le|].
    rewrite length_map, length_seq. lia.
Qed.

Lemma page_buttons_hold_the_current_page_witness :
  1 <= 9 <= 10
  /\ (In 9 (DataTableHandlers.pageNumbers 9 10)
      /\ Forall (fun p => 1 <= p <= 10 /\ 9 - 2 <= p <= Z.max 1 (9 - 2) + 4)
                (DataTableHandlers.pageNumbers 9 10)
      /\ (length (DataTableHandlers.pageNumbers 9 10) <= 5)%nat).
Proof.
  assert (H : 1 <= 9 <= 10) by lia.
  split; [exact H|]. exact (page_buttons_hold_the_current_page 9 10 H).
Defined.

(** On page 9 of 10 the buttons are 7 to 10; on page 1 they are 1 to 5. *)
Example page_buttons_near_the_ends :
  DataTableHandlers.pageNumbers 9 10 = [7; 8; 9; 10]
  /\ DataTableHandlers.pageNumbers 1 10 = [1; 2; 3; 4; 5]
  /\ DataTableHandlers.pageNumbers 2 3 = [1; 2; 3].
Proof. vm_compute. repeat split; reflexivity. Qed.

(** ** Trimming *)

Lemma trimStart_app (a b : jsstring) :
  trimStart (a ++ b)
  = match trimStart a with
    | [] => trimStart b
    | c :: t => (c :: t) ++ b
    end.
Proof.
  induction a as [|c a IH]; simpl; [reflexivity|].
  destruct (is_white_space c); [exact IH|reflexivity].
Qed.

Lemma trimStart_idempotent (s : jsstring) : trimStart (trimStart s) = trimStart s.
Proof.
  induction s as [|c s IH]; simpl; [reflexivity|].
  destruct (is_white_space c) eqn:E; [exact IH|]. simpl. now rewrite E.
Qed.

Lemma trimStart_starts_clean (s : jsstring) : starts_clean (trimStart s) = true.
Proof.
  induction s as [|c s IH]; simpl; [reflexivity|].
  destruct (is_white_space c) eqn:E; [exact IH|]. simpl. now rewrite E.
Qed.

Lemma trimStart_of_clean (s : jsstring) : starts_clean s = true -> trimStart s = s.
Proof.
  destruct s as [|c s]; simpl; [reflexivity|].
  intros H. apply negb_true_iff in H. now rewrite H.
Qed.

Lemma trimEnd_starts_clean (s : jsstring) :
  starts_clean s = true -> starts_clean (trimEnd s) = true.
Proof.
  destruct s as [|c s]; [reflexivity|]. simpl. intros Hc.
  unfold trimEnd. simpl. rewrite trimStart_app.
  destruct (trimStart (rev s)) as [|d t].
  - simpl. apply negb_true_iff in Hc. rewrite Hc. simpl. now rewrite Hc.
  - rewrite rev_app_distr. simpl. exact Hc.
Qed.

(** Trimming a trimmed string changes nothing. *)
Lemma trim_idempotent (s : jsstring) : trim (trim s) = trim s.
Proof.
  unfold trim at 1.
  rewrite (trimStart_of_clean (trim s)).
  - unfold trim, trimEnd. rewrite rev_involutive. now rewrite trimStart_idempotent.
  - unfold trim. apply trimEnd_starts_clean, trimStart_starts_clean.
Qed.

(** ** The state of the table *)

Lemma JsMap_set_Forall {V : Type} (P : jsstring * V -> Prop) (m : list (jsstring * V))
    (k : jsstring) (v : V) :
  Forall P m -> P (k, v) -> Forall P (JsMap.set m k v).
Proof.
  intros Hm Hkv. induction Hm as [|[k' w] m Hw Hm IH]; simpl.
  - constructor; [exact Hkv|constructor].
  - destruct (JsString.eqb k' k) eqn:E.
    + apply eqb_true in E. subst k'. constructor; assumption.
    + constructor; assumption.
Qed.

Lemma JsMap_set_keys {V : Type} (m : list (jsstring * V)) (k : jsstring) (v : V) :
  List.map fst (JsMap.set m k v)
  = if existsb (JsString.eqb k) (List.map fst m) then List.map fst m
    else List.map fst m ++ [k].
Proof.
  induction m as [|[k' w] m IH]; simpl; [reflexivity|].
  destruct (decide (k' = k)) as [->|Hne].
  - rewrite !eqb_refl. reflexivity.
  - rewrite (eqb_neq k' k), (eqb_neq k k') by congruence. simpl. rewrite IH.
    destruct (existsb _ _); reflexivity.
Qed.

Lemma JsMap_set_NoDup {V : Type} (m : list (jsstring * V)) (k : jsstring) (v : V) :
  NoDup (List.map fst m) -> NoDup (List.map fst (JsMap.set m k v)).
Proof.
  intros Hm. rewrite JsMap_set_keys.
  destruct (existsb (JsString.eqb k) (List.map fst m)) eqn:E; [exact Hm|].
  apply NoDup_app. repeat split; [exact Hm| |apply NoDup_singleton].
  intros x Hx Hk. apply list_elem_of_In in Hx. apply list_elem_of_In in Hk.
  destruct Hk as [<-|[]].
  assert (existsb (JsString.eqb k) (List.map fst m) = true) as Ht
    by (apply existsb_exists; exists k; split; [exact Hx|apply eqb_refl]).
  congruence.
Qed.

Lemma JsMap_delete_NoDup {V : Type} (m : list (jsstring * V)) (k : jsstring) :
  NoDup (List.map fst m) -> NoDup (List.map fst (JsMap.delete m k)).
Proof.
  induction m as [|[k' w] m IH]; simpl; [auto|].
  intros Hm. apply NoDup_cons in Hm as [Hk' Hm].
  destruct (negb (JsString.eqb k' k)); simpl; [|now apply IH].
  apply NoDup_cons. split; [|now apply IH].
  intros Hin. apply Hk'. apply list_elem_of_In. apply list_elem_of_In in Hin.
  apply in_map_iff in Hin as [[k0 w0] [Hk0 Hin]]. simpl in Hk0. subst k0.
  apply filter_In in Hin as [Hin _].
  apply in_map_iff. exists (k', w0). auto.
Qed.

Lemma handle_keeps_ok (e : DataTableHandlers.event) (st : TableState) :
  table_state_ok st -> table_state_ok (DataTableHandlers.handle e st).
Proof.
  intros (Hcf & Hkeys & Hdir).
  destruct e; simpl; unfold table_state_ok; simpl; try (repeat split; assumption).
  - unfold DataTableHandlers.handleSort.
    destruct (JsString.eqb (ts_sortColumn st) columnId); simpl; repeat split; auto.
    destruct (JsString.eqb (ts_sortDirection st) DataTable.asc); auto.
  - repeat split; [|now apply JsMap_delete_NoDup|exact Hdir].
    apply List.Forall_forall. intros kv Hkv. apply filter_In in Hkv as [Hkv _].
    rewrite List.Forall_forall in Hcf. now apply Hcf.
  - repeat split; auto; constructor.
  - unfold DataTableHandlers.handleColumnFilterInput.
    destruct (JsString.eqb (trim v) []) eqn:E; simpl.
    + repeat split; [|now apply JsMap_delete_NoDup|exact Hdir].
      apply List.Forall_forall. intros kv Hkv. apply filter_In in Hkv as [Hkv _].
      rewrite List.Forall_forall in Hcf. now apply Hcf.
    + repeat split; [|now apply JsMap_set_NoDup|exact Hdir].
      apply JsMap_set_Forall; [exact Hcf|]. simpl. split; [|apply trim_idempotent].
      intros Hnil. rewrite Hnil in E. discriminate.
Qed.

Lemma handle_all_keeps_ok (events : list DataTableHandlers.event) (st : TableState) :
  table_state_ok st -> table_state_ok (DataTableHandlers.handle_all events st).
Proof.
  revert st. induction events as [|e events IH]; intros st Hst; [exact Hst|].
  unfold DataTableHandlers.handle_all. simpl. apply IH. now apply handle_keeps_ok.
Qed.

(** X11.  The filter map never holds a blank.  Whatever the user does to the
    table, starting from the initial state: every text in the column filter
    map is trimmed and not empty, no column has two entries, so
    [filterDataSimple] keeps every entry of the map as a filter; and the sort
    direction is [asc] or [desc]. *)
Theorem table_state_holds_only_real_filters :
  forall (pageSize : Z) (events : list DataTableHandlers.event),
    let st := DataTableHandlers.handle_all events (DataTableHandlers.initial pageSize) in
    Forall (fun kv => snd kv <> [] /\ trim (snd kv) = snd kv) (ts_columnFilters st)
    /\ NoDup (List.map fst (ts_columnFilters st))
    /\ DataTable.columnFilterEntries (ts_columnFilters st) = ts_columnFilters st
    /\ (ts_sortDirection st = DataTable.asc \/ ts_sortDirection st = DataTableHandlers.desc).
Proof.
  intros pageSize events st.
  assert (Hok : table_state_ok st).
  { apply handle_all_keeps_ok. unfold table_state_ok. simpl.
    split; [constructor|]. split; [constructor|]. now left. }
  destruct Hok as (Hcf & Hkeys & Hdir).
  repeat split; try assumption.
  apply filter_all. intros [k v] Hkv. rewrite List.Forall_forall in Hcf.
  destruct (Hcf _ Hkv) as [Hne Htrim]. simpl in *. rewrite Htrim.
  destruct v; [congruence|reflexivity].
Qed.

(** Typing, retyping and erasing filters, and sorting twice on a column. *)
Example table_state_after_some_events :
  let st :=
    DataTableHandlers.handle_all
      [DataTableHandlers.ColumnFilterInput (str "name") (str "  al ");
       DataTableHandlers.ColumnFilterInput (str "age") (str "3");
       DataTableHandlers.ColumnFilterInput (str "name") (str "bo");
       DataTableHandlers.ColumnFilterInput (str "age") (str "   ");
       DataTableHandlers.PageChange 4;
       DataTableHandlers.Sort (str "age");
       DataTableHandlers.Sort (str "age")]
      (DataTableHandlers.initial 50) in
  ts_columnFilters st = [(str "name", str "bo")]
  /\ ts_sortColumn st = str "age"
  /\ ts_sortDirection st = str "desc"
  /\ ts_currentPage st = 1.
Proof. vm_compute. repeat split; reflexivity. Qed.

(** ** Cells as the table shows them *)

(** X12.  What a cell shows.  A cell that is [null], [undefined] or the empty
    string shows the text [null], whatever the type of its column; in a
    column of type [boolean] every cell that is a non-empty string shows
    [true], whatever its text; and in a column of no special type a cell
    shows its text. *)
Theorem formatCellValue_of_blank_and_boolean_cells :
  forall (toLocaleString : Z -> jsstring) (toLocaleDateString : value -> option jsstring)
         (v : value) (type s : jsstring) (c : N),
    (is_missing v = true ->
     DataTableHandlers.formatCellValue toLocaleString toLocaleDateString v type
     = VStr (str "null"))
    /\ DataTableHandlers.formatCellValue toLocaleString toLocaleDateString
         (VStr (c :: s)) (str "boolean") = VStr (str "true")
    /\ DataTableHandlers.formatCellValue toLocaleString toLocaleDateString
         (VStr (c :: s)) (str "string") = VStr (c :: s).
Proof.
  intros toLocaleString toLocaleDateString v type s c. repeat split.
  intros Hmissing. unfold DataTableHandlers.formatCellValue.
  unfold is_missing in Hmissing. now rewrite Hmissing.
Qed.

(** In a boolean column the text [false] shows as [true]. *)
Example boolean_column_shows_true_for_false :
  DataTableHandlers.formatCellValue (fun n => of_Z n) (fun _ => None)
    (VStr (str "false")) (str "boolean")
  = VStr (str "true").
Proof. reflexivity. Qed.

(** ** Loading into the CSV data store *)



Lemma update_first_unknown (fileId : jsstring) (f : FileEntry -> FileEntry)
    (l : list FileEntry) :
  ~ In fileId (List.map file_id l) -> csvDataActions.update_first fileId f l = l.
Proof.
  induction l as [|e l IH]; simpl; [reflexivity|].
  intros Hno. rewrite eqb_neq by (intros Heq; apply Hno; now left).
  f_equal. apply IH. intros Hin. apply Hno. now right.
Qed.

Lemma update_first_In (fileId : jsstring) (f : FileEntry -> FileEntry)
    (l : list FileEntry) (e : FileEntry) :
  In e l ->
  In e (csvDataActions.update_first fileId f l)
  \/ In (f e) (csvDataActions.update_first fileId f l).
Proof.
  induction l as [|e0 l IH]; simpl; [intros []|].
  intros [<-|Hin]; destruct (JsString.eqb (file_id e0) fileId); simpl; auto.
  destruct (IH Hin); auto.
Qed.

(** The path the loader works with is there exactly when the file has a
    path or a name; the name it lists the file under is never empty. *)
Lemma filePath_of_missing (file : FileData) :
  truthy (VStr (PlotlyDemo.filePath_of file)) = false
  <-> fd_path file = [] /\ fd_name file = [].
Proof.
  unfold PlotlyDemo.filePath_of, or_else.
  destruct (fd_path file) as [|c p], (fd_name file) as [|d n]; simpl;
    split; try tauto; try discriminate; intros [? ?]; discriminate.
Qed.


Section LoadFacts.
Context {Filters SortConfig SelectedRows : Type}.

(** The entry [addFile] appends for the file stays in the list, under its
    id, name and path, through [updateFile]. *)
Lemma added_file_is_listed (s : Store Filters SortConfig SelectedRows)
    (fileId : jsstring) (fileData : FileData) (rowCount columnCount : Z) :
  let s1 := csvDataActions.addFile fileId fileData s in
  (exists e, In e (files s1) /\ file_id e = fileId /\ file_name e = fd_name fileData
             /\ file_path e = fd_path fileData /\ file_size e = fd_size fileData)
  /\ (exists e, In e (files (csvDataActions.updateFile fileId rowCount columnCount s1))
                /\ file_id e = fileId /\ file_name e = fd_name fileData
                /\ file_path e = fd_path fileData /\ file_size e = fd_size fileData).
Proof.
  intros s1.
  assert (Hnew : In {| file_id := fileId; file_name := fd_name fileData;
                       file_path := fd_path fileData; file_size := fd_size fileData;
                       file_rowCount := None; file_columnCount := None |} (files s1))
    by (simpl; apply in_app_iff; right; now left).
  split; [eexists; split; [exact Hnew|]; auto|].
  unfold csvDataActions.updateFile. cbn [files].
  match goal with |- context [csvDataActions.update_first fileId ?f ?l] =>
    destruct (update_first_In fileId f l _ Hnew) as [H|H]
  end; eexists; (split; [exact H|]); auto.
Qed.

(** What the [catch] block does to a store in which the file is listed. *)
Lemma on_error_removes_the_temporary_id (s0 : Store Filters SortConfig SelectedRows)
    (tempFileId fileId : jsstring) (P : FileEntry -> Prop) :
  tempFileId <> fileId -> tempFileId <> [] ->
  (exists e, In e (files s0) /\ file_id e = fileId /\ P e) ->
  let s' := PlotlyDemo.on_error tempFileId s0 in
  (exists e, In e (files s') /\ file_id e = fileId /\ P e)
  /\ parsedData s' !! fileId = parsedData s0 !! fileId
  /\ filteredData s' !! fileId = filteredData s0 !! fileId
  /\ columns s' !! fileId = columns s0 !! fileId
  /\ fileStats s' !! fileId = fileStats s0 !! fileId
  /\ csvDataActions.forgotten tempFileId s'
  /\ Forall (fun f => file_id f <> tempFileId) (files s')
  /\ currentFileId s' <> Some tempFileId.
Proof.
  intros Hne Htemp [e [He [Hid HP]]] s'. subst s'. unfold PlotlyDemo.on_error.
  assert (truthy (VStr tempFileId) = true) as ->
    by (destruct tempFileId; [congruence|reflexivity]).
  assert (Hfiles : Forall (fun f => file_id f <> tempFileId)
                          (files (csvDataActions.removeFile tempFileId s0))).
  { apply List.Forall_forall. intros f Hf. apply filter_In in Hf as [_ Hf].
    intros Heq. rewrite Heq, eqb_refl in Hf. discriminate. }
  split; [|split; [|split; [|split; [|split; [|split; [|split]]]]]].
  - exists e. split; [|auto]. apply filter_In. split; [exact He|].
    rewrite Hid. apply negb_true_iff, eqb_neq. congruence.
  - unfold csvDataActions.removeFile. simpl. now rewrite lookup_delete_ne.
  - unfold csvDataActions.removeFile. simpl. now rewrite lookup_delete_ne.
  - unfold csvDataActions.removeFile. simpl. now rewrite lookup_delete_ne.
  - unfold csvDataActions.removeFile. simpl. now rewrite lookup_delete_ne.
  - repeat split; apply lookup_delete_eq.
  - exact Hfiles.
  - unfold csvDataActions.removeFile in *. simpl in *.
    case_bool_decide as Hcur; [|exact Hcur].
    destruct (List.filter _ (files s0)) as [|f fs] eqn:E; [discriminate|].
    inversion Hfiles as [|? ? Hf _]; subst. congruence.
Qed.


(** X14.  A load that fails.  Without a path and a name [processSingleFile]
    throws before anything is stored: the store is as it was, whatever the
    backend would answer.  For a file with a path or a name, when a backend
    call is rejected or the content is empty, [processSingleFile] throws
    after its [catch] block has removed the temporary id, not the id under
    which [addFile] listed the file.  So, for two different ids, the store
    then holds nothing under the temporary id (no data, no entry of the
    list, not the current file), while the file stays in the list under its
    id, name and path, and the store holds for its id the data it held
    before the load. *)
Theorem failed_load_leaves_the_file_listed :
  forall (s : Store Filters SortConfig SelectedRows) (tempFileId fileId : jsstring)
         (file : FileData) (read : option FileContent)
         (validated : option ValidationResult) (analysed : option (list ColumnInfo)),
    tempFileId <> fileId ->
    tempFileId <> [] ->
    let r := PlotlyDemo.processSingleFile tempFileId fileId file read validated analysed s in
    (fd_path file = [] -> fd_name file = [] -> r = (s, false))
    /\ (fd_path file <> [] \/ fd_name file <> [] ->
        backend_ok read validated analysed = false ->
        snd r = false
        /\ (exists e, In e (files (fst r)) /\ file_id e = fileId)
        /\ parsedData (fst r) !! fileId = parsedData s !! fileId
        /\ filteredData (fst r) !! fileId = filteredData s !! fileId
        /\ columns (fst r) !! fileId = columns s !! fileId
        /\ fileStats (fst r) !! fileId = fileStats s !! fileId
        /\ (exists e, In e (files (fst r)) /\ file_id e = fileId
                      /\ file_name e = PlotlyDemo.fileName_of file
                      /\ file_path e = PlotlyDemo.filePath_of file
                      /\ file_size e = fd_size file)
        /\ csvDataActions.forgotten tempFileId (fst r)
        /\ Forall (fun f => file_id f <> tempFileId) (files (fst r))
        /\ currentFileId (fst r) <> Some tempFileId).
Proof.
  intros s tempFileId fileId file read validated analysed Hne Htemp r. subst r.
  unfold PlotlyDemo.processSingleFile. split.
  - intros Hp Hn.
    assert (truthy (VStr (PlotlyDemo.filePath_of file)) = false) as ->
      by (apply filePath_of_missing; auto).
    reflexivity.
  - intros Hfile Hfail.
    assert (truthy (VStr (PlotlyDemo.filePath_of file)) = true) as ->.
    { destruct (truthy (VStr (PlotlyDemo.filePath_of file))) eqn:E; [reflexivity|].
      apply filePath_of_missing in E as [Hp Hn]. destruct Hfile; congruence. }
    cbn [negb].
    set (fileData := {| fd_name := PlotlyDemo.fileName_of file;
                        fd_path := PlotlyDemo.filePath_of file;
                        fd_size := fd_size file |}).
    assert (Hcatch : forall s0 : Store Filters SortConfig SelectedRows,
              (exists e, In e (files s0) /\ file_id e = fileId
                         /\ file_name e = PlotlyDemo.fileName_of file
                            /\ file_path e = PlotlyDemo.filePath_of file
                            /\ file_size e = fd_size file) ->
              parsedData s0 = parsedData s -> filteredData s0 = filteredData s ->
              columns s0 = columns s -> fileStats s0 = fileStats s ->
              let r := (PlotlyDemo.on_error tempFileId s0, false) in
              snd r = false
              /\ (exists e, In e (files (fst r)) /\ file_id e = fileId)
              /\ parsedData (fst r) !! fileId = parsedData s !! fileId
              /\ filteredData (fst r) !! fileId = filteredData s !! fileId
              /\ columns (fst r) !! fileId = columns s !! fileId
              /\ fileStats (fst r) !! fileId = fileStats s !! fileId
              /\ (exists e, In e (files (fst r)) /\ file_id e = fileId
                            /\ file_name e = PlotlyDemo.fileName_of file
                            /\ file_path e = PlotlyDemo.filePath_of file
                            /\ file_size e = fd_size file)
              /\ csvDataActions.forgotten tempFileId (fst r)
              /\ Forall (fun f => file_id f <> tempFileId) (files (fst r))
              /\ currentFileId (fst r) <> Some tempFileId).
    { intros s0 Hlisted Hp Hf Hc Hs. cbn [fst snd].
      destruct (on_error_removes_the_temporary_id s0 tempFileId fileId
                  (fun e => file_name e = PlotlyDemo.fileName_of file
                            /\ file_path e = PlotlyDemo.filePath_of file
                            /\ file_size e = fd_size file) Hne Htemp Hlisted)
        as (H1 & H2 & H3 & H4 & H5 & H6 & H7 & H8).
      rewrite <- Hp, <- Hf, <- Hc, <- Hs.
      split; [reflexivity|]. split.
      { destruct H1 as [e [He [Hid _]]]. eauto. }
      repeat (split; [assumption|]). assumption. }
    pose proof (added_file_is_listed s fileId fileData) as Hadded.
    destruct read as [fileContent|], validated as [validation|], analysed as [analysis|];
      cbn [backend_ok] in Hfail;
      try (apply Hcatch; [apply (Hadded 0 0)|reflexivity..]).
    rewrite Hfail. cbn [negb].
    apply Hcatch; [apply (Hadded (estimated_rows validation) (column_count validation))
                  |reflexivity..].
Qed.

End LoadFacts.


(** A failed load into a store that holds rows under the temporary id. *)
Lemma failed_load_leaves_the_file_listed_witness :
  let tempFileId := str "1700000000000_tmp" in
  let fileId := str "1700000000001_abc" in
  let s := csvDataActions.setParsedData tempFileId [[(str "id", VNum 0)]] []
             (csvDataActions.clearAll (Filters := unit) (SortConfig := unit)
                (SelectedRows := unit)) in
  let file := {| fd_name := str "t.csv"; fd_path := str "/data/t.csv"; fd_size := 8 |} in
  let r := PlotlyDemo.processSingleFile tempFileId fileId file None None None s in
  tempFileId <> fileId
  /\ tempFileId <> []
  /\ (fd_path file <> [] \/ fd_name file <> [])
  /\ backend_ok (None : option FileContent) (None : option ValidationResult)
       (None : option (list ColumnInfo)) = false
  /\ parsedData s !! tempFileId = Some [[(str "id", VNum 0)]]
  /\ snd r = false
  /\ (exists e, In e (files (fst r)) /\ file_id e = fileId)
  /\ parsedData (fst r) !! fileId = parsedData s !! fileId
  /\ filteredData (fst r) !! fileId = filteredData s !! fileId
  /\ columns (fst r) !! fileId = columns s !! fileId
  /\ fileStats (fst r) !! fileId = fileStats s !! fileId
  /\ (exists e, In e (files (fst r)) /\ file_id e = fileId
                /\ file_name e = PlotlyDemo.fileName_of file
                /\ file_path e = PlotlyDemo.filePath_of file
                /\ file_size e = fd_size file)
  /\ csvDataActions.forgotten tempFileId (fst r)
  /\ Forall (fun f => file_id f <> tempFileId) (files (fst r))
  /\ currentFileId (fst r) <> Some tempFileId.
Proof.
  intros tempFileId fileId s file r.
  assert (Hne : tempFileId <> fileId) by discriminate.
  assert (Htemp : tempFileId <> []) by discriminate.
  assert (Hfile : fd_path file <> [] \/ fd_name file <> []) by (left; discriminate).
  assert (Hfail : backend_ok (None : option FileContent) (None : option ValidationResult)
                    (None : option (list ColumnInfo)) = false) by reflexivity.
  split; [exact Hne|]. split; [exact Htemp|]. split; [exact Hfile|].
  split; [exact Hfail|]. split; [reflexivity|].
  exact (proj2 (failed_load_leaves_the_file_listed s tempFileId fileId file None None None
                  Hne Htemp) Hfile Hfail).
Defined.

(** The list after the failed load of a file with a name and a path: the
    file is in it, with no counts and no data.  A file with neither is not
    listed, also when the backend would answer. *)
Example failed_load_example :
  files (fst (PlotlyDemo.processSingleFile (Filters := unit) (SortConfig := unit)
                (SelectedRows := unit)
                (str "1700000000000_tmp") (str "1700000000001_abc")
                {| fd_name := str "t.csv"; fd_path := str "/data/t.csv"; fd_size := 8 |}
                None None None csvDataActions.clearAll))
  = [{| file_id := str "1700000000001_abc"; file_name := str "t.csv";
        file_path := str "/data/t.csv"; file_size := 8;
        file_rowCount := None; file_columnCount := None |}]
  /\ PlotlyDemo.processSingleFile (Filters := unit) (SortConfig := unit)
       (SelectedRows := unit)
       (str "1700000000000_tmp") (str "1700000000001_abc")
       {| fd_name := []; fd_path := []; fd_size := 8 |}
       (Some {| content := nl (str "a") (str "1") |})
       (Some {| estimated_rows := 1; column_count := 1 |})
       (Some [{| ci_name := str "a"; ci_data_type := str "integer";
                 ci_nullable := false |}])
       csvDataActions.clearAll
     = (csvDataActions.clearAll, false).
Proof. split; vm_compute; reflexivity. Qed.

(** The names the loader works out: the last segment of the path for a file
    without a name, the name as the path for a file without a path. *)
Example names_the_loader_works_out :
  PlotlyDemo.fileName_of {| fd_name := []; fd_path := str "/data/t.csv"; fd_size := 0 |}
  = str "t.csv"
  /\ PlotlyDemo.fileName_of {| fd_name := []; fd_path := str "/data/"; fd_size := 0 |}
     = str "unknown_file.csv"
  /\ PlotlyDemo.filePath_of {| fd_name := str "t.csv"; fd_path := []; fd_size := 0 |}
     = str "t.csv".
Proof. vm_compute. repeat split; reflexivity. Qed.

(** ** Adding and removing files *)

Section StoreMore.
Context {Filters SortConfig SelectedRows : Type}.

Lemma Store_eq (s t : Store Filters SortConfig SelectedRows) :
  files s = files t -> currentFileId s = currentFileId t ->
  parsedData s = parsedData t -> filteredData s = filteredData t ->
  columns s = columns t -> filters s = filters t -> sortConfig s = sortConfig t ->
  selectedRows s = selectedRows t -> fileStats s = fileStats t -> s = t.
Proof. destruct s, t; simpl; intros; subst; reflexivity. Qed.

Lemma removeFile_current (s : Store Filters SortConfig SelectedRows) (fileId : jsstring) :
  currentFileId (csvDataActions.removeFile fileId s) <> Some fileId.
Proof.
  unfold csvDataActions.removeFile. simpl.
  case_bool_decide as Hcur; [|exact Hcur].
  destruct (List.filter _ (files s)) as [|f fs] eqn:E; [discriminate|].
  assert (In f (List.filter (fun f => negb (JsString.eqb (file_id f) fileId)) (files s)))
    as Hf by (rewrite E; now left).
  apply filter_In in Hf as [_ Hf]. intros Heq. injection Heq as Heq.
  rewrite Heq, eqb_refl in Hf. discriminate.
Qed.

(** X15.  Removing a file twice is removing it once. *)
Theorem removeFile_twice_is_once :
  forall (s : Store Filters SortConfig SelectedRows) (fileId : jsstring),
    csvDataActions.removeFile fileId (csvDataActions.removeFile fileId s)
    = csvDataActions.removeFile fileId s.
Proof.
  intros s fileId.
  pose proof (removeFile_current s fileId) as Hcur.
  apply Store_eq; unfold csvDataActions.removeFile in *; simpl in *;
    try apply delete_delete_eq.
  - rewrite filter_twice. apply List.filter_ext. intros f. now destruct (negb _).
  - rewrite bool_decide_eq_false_2 by exact Hcur. reflexivity.
Qed.

(** X16.  Adding a file under an id the store does not know, and removing it
    again, gives the store back: the list, the current file and every map. *)
Theorem addFile_then_removeFile_restores_the_store :
  forall (s : Store Filters SortConfig SelectedRows) (fileId : jsstring) (file : FileData),
    Forall (fun f => file_id f <> fileId) (files s) ->
    currentFileId s <> Some fileId ->
    csvDataActions.forgotten fileId s ->
    csvDataActions.removeFile fileId (csvDataActions.addFile fileId file s) = s.
Proof.
  intros s fileId file Hfiles Hcur (H1 & H2 & H3 & H4 & H5 & H6 & H7).
  apply Store_eq; unfold csvDataActions.removeFile, csvDataActions.addFile; simpl;
    try (now apply delete_id).
  - rewrite List.filter_app. simpl. rewrite eqb_refl. simpl. rewrite app_nil_r.
    apply filter_all. intros f Hf. rewrite List.Forall_forall in Hfiles.
    apply negb_true_iff, eqb_neq. now apply Hfiles.
  - now rewrite bool_decide_eq_false_2.
Qed.


End StoreMore.

Lemma addFile_then_removeFile_restores_the_store_witness :
  let s := csvDataActions.setParsedData (str "f1") [[(str "id", VNum 0)]] []
             (csvDataActions.addFile (str "f1")
                {| fd_name := str "one.csv"; fd_path := str "/one.csv"; fd_size := 1 |}
                (csvDataActions.clearAll (Filters := unit) (SortConfig := unit)
                   (SelectedRows := unit))) in
  let file := {| fd_name := str "two.csv"; fd_path := str "/two.csv"; fd_size := 2 |} in
  Forall (fun f => file_id f <> str "f2") (files s)
  /\ currentFileId s <> Some (str "f2")
  /\ csvDataActions.forgotten (str "f2") s
  /\ csvDataActions.removeFile (str "f2") (csvDataActions.addFile (str "f2") file s) = s.
Proof.
  intros s file.
  assert (Hfiles : Forall (fun f => file_id f <> str "f2") (files s))
    by (repeat constructor; discriminate).
  assert (Hcur : currentFileId s <> Some (str "f2")) by discriminate.
  assert (Hgone : csvDataActions.forgotten (str "f2") s)
    by (repeat split; vm_compute; reflexivity).
  split; [exact Hfiles|]. split; [exact Hcur|]. split; [exact Hgone|].
  exact (addFile_then_removeFile_restores_the_store s (str "f2") file Hfiles Hcur Hgone).
Defined.


(** ** The file store *)

Lemma count_status_as_filter (status : jsstring) (m : gmap jsstring ProcessingStatus) :
  fileActions.count_status status m
  = Z.of_nat (length (List.filter (fun kv => JsString.eqb (ps_status (snd kv)) status)
                                  (map_to_list m))).
Proof.
  unfold fileActions.count_status. rewrite map_fold_foldr.
  induction (map_to_list m) as [|[k st] l IH]; simpl; [reflexivity|].
  rewrite IH. destruct (JsString.eqb (ps_status st) status); simpl; lia.
Qed.

Lemma four_counts_of_distinct (s1 s2 s3 s4 : jsstring)
    (l : list (jsstring * ProcessingStatus)) :
  s1 <> s2 -> s1 <> s3 -> s1 <> s4 -> s2 <> s3 -> s2 <> s4 -> s3 <> s4 ->
  (length (List.filter (fun kv => JsString.eqb (ps_status (snd kv)) s1) l)
   + length (List.filter (fun kv => JsString.eqb (ps_status (snd kv)) s2) l)
   + length (List.filter (fun kv => JsString.eqb (ps_status (snd kv)) s3) l)
   + length (List.filter (fun kv => JsString.eqb (ps_status (snd kv)) s4) l)
   = length (List.filter
               (fun kv => JsString.eqb (ps_status (snd kv)) s1
                          || JsString.eqb (ps_status (snd kv)) s2
                          || JsString.eqb (ps_status (snd kv)) s3
                          || JsString.eqb (ps_status (snd kv)) s4) l))%nat.
Proof.
  intros H12 H13 H14 H23 H24 H34.
  induction l as [|[k st] l IH]; [reflexivity|].
  cbn [List.filter snd].
  destruct (JsString.eqb (ps_status st) s1) eqn:E1;
    destruct (JsString.eqb (ps_status st) s2) eqn:E2;
    destruct (JsString.eqb (ps_status st) s3) eqn:E3;
    destruct (JsString.eqb (ps_status st) s4) eqn:E4;
    try (apply eqb_true in E1); try (apply eqb_true in E2);
    try (apply eqb_true in E3); try (apply eqb_true in E4);
    try congruence; cbn [orb length]; lia.
Qed.

Lemma four_counts_of_a_list (l : list (jsstring * ProcessingStatus)) :
  (length (List.filter (fun kv => JsString.eqb (ps_status (snd kv)) (str "pending")) l)
   + length (List.filter (fun kv => JsString.eqb (ps_status (snd kv)) (str "processing")) l)
   + length (List.filter (fun kv => JsString.eqb (ps_status (snd kv)) (str "completed")) l)
   + length (List.filter (fun kv => JsString.eqb (ps_status (snd kv)) (str "failed")) l)
   = length (List.filter (fun kv => counted_status (snd kv)) l))%nat.
Proof. apply four_counts_of_distinct; discriminate. Qed.

Section FileStoreFacts.
Context {File Metadata Validation : Type}.

(** X18.  The processing queue holds no id twice.  Whatever actions run on the
    empty file store, no id is in the queue twice; adding an id appends it to
    the end of the queue when it is not queued and changes nothing when it
    is; and [getNextInQueue] hands out the head of the queue and leaves the
    rest. *)
Theorem processing_queue_has_no_repeats :
  forall (actions : list (fileActions.action (File := File) (Metadata := Metadata)
                            (Validation := Validation)))
         (fileId : jsstring),
    let s := fileActions.run actions fileActions.clearAll in
    NoDup (processingQueue s)
    /\ processingQueue (fileActions.addToProcessingQueue fileId s)
       = (if fileActions.queued fileId (processingQueue s) then processingQueue s
          else processingQueue s ++ [fileId])
    /\ fileActions.addToProcessingQueue fileId (fileActions.addToProcessingQueue fileId s)
       = fileActions.addToProcessingQueue fileId s
    /\ match processingQueue s with
       | [] => fileActions.getNextInQueue s = (None, s)
       | next :: rest =>
           fst (fileActions.getNextInQueue s) = Some next
           /\ processingQueue (snd (fileActions.getNextInQueue s)) = rest
           /\ ~ In next rest
       end.
Proof.
  intros actions fileId s.
  assert (Hstep : forall a (t : FileStore File Metadata Validation),
            NoDup (processingQueue t) -> NoDup (processingQueue (fileActions.step a t))).
  { intros a t Ht. destruct a; simpl; try exact Ht.
    - destruct (fileActions.queued fileId0 (processingQueue t)) eqn:E; simpl; [exact Ht|].
      apply NoDup_app. repeat split; [exact Ht| |apply NoDup_singleton].
      intros x Hx Hk. apply list_elem_of_In in Hx. apply list_elem_of_In in Hk.
      destruct Hk as [<-|[]].
      assert (fileActions.queued fileId0 (processingQueue t) = true) as Hq
        by (apply existsb_exists; exists fileId0; split; [exact Hx|apply eqb_refl]).
      congruence.
    - now apply NoDup_ListNoDup, List.NoDup_filter, NoDup_ListNoDup.
    - unfold fileActions.getNextInQueue.
      destruct (processingQueue t) as [|next rest] eqn:E; simpl; [now rewrite E|].
      now apply NoDup_cons in Ht as [_ Ht].
    - now apply NoDup_ListNoDup, List.NoDup_filter, NoDup_ListNoDup.
    - apply NoDup_nil_2. }
  assert (Hrun : forall acts (t : FileStore File Metadata Validation),
            NoDup (processingQueue t) -> NoDup (processingQueue (fileActions.run acts t))).
  { induction acts as [|a acts IH]; intros t Ht; [exact Ht|].
    unfold fileActions.run. simpl. apply IH. now apply Hstep. }
  assert (Hs : NoDup (processingQueue s)) by (apply Hrun; apply NoDup_nil_2).
  repeat split.
  - exact Hs.
  - simpl. now destruct (fileActions.queued fileId (processingQueue s)).
  - unfold fileActions.addToProcessingQueue. simpl.
    destruct (fileActions.queued fileId (processingQueue s)) eqn:E; simpl.
    + now rewrite E.
    + unfold fileActions.queued at 1. rewrite existsb_app. simpl.
      rewrite eqb_refl, orb_true_r. reflexivity.
  - unfold fileActions.getNextInQueue.
    destruct (processingQueue s) as [|next rest] eqn:E; [reflexivity|].
    simpl. repeat split.
    apply NoDup_cons in Hs as [Hnext _].
    intros Hin. apply Hnext. now apply list_elem_of_In.
Qed.

(** X19.  What the statistics count.  [getProcessingStats] reports the number of
    uploaded files as the total and the length of the queue as queued; its
    four status counts add up to the number of status entries whose status
    is one of [pending], [processing], [completed] and [failed], so to no
    more than the number of status entries. *)
Theorem processing_stats_count_the_statuses :
  forall (s : FileStore File Metadata Validation),
    let stats := fileActions.getProcessingStats s in
    stat_total stats = Z.of_nat (size (uploadedFiles s))
    /\ stat_queued stats = Z.of_nat (length (processingQueue s))
    /\ stat_pending stats + stat_processing stats + stat_completed stats + stat_failed stats
       = Z.of_nat (length (List.filter (fun kv => counted_status (snd kv))
                                       (map_to_list (processingStatus s))))
    /\ stat_pending stats + stat_processing stats + stat_completed stats + stat_failed stats
       <= Z.of_nat (size (processingStatus s))
    /\ 0 <= stat_pending stats /\ 0 <= stat_processing stats
    /\ 0 <= stat_completed stats /\ 0 <= stat_failed stats.
Proof.
  intros s stats. subst stats. unfold fileActions.getProcessingStats. simpl.
  rewrite !count_status_as_filter.
  pose proof (four_counts_of_a_list (map_to_list (processingStatus s))) as Hsum.
  pose proof (List.filter_length_le (fun kv => counted_status (snd kv))
                (map_to_list (processingStatus s))) as Hle.
  rewrite length_map_to_list in Hle.
  repeat split; lia.
Qed.

(** X20.  An upload counts as pending.  Uploading a file under an id the store
    has neither a file nor a status for raises the total and the pending
    count by one and leaves the other counts. *)
Theorem new_upload_counts_as_pending :
  forall (s : FileStore File Metadata Validation) (fileId : jsstring) (file : File),
    uploadedFiles s !! fileId = None ->
    processingStatus s !! fileId = None ->
    let before := fileActions.getProcessingStats s in
    let after := fileActions.getProcessingStats (fileActions.addUploadedFile fileId file s) in
    stat_total after = stat_total before + 1
    /\ stat_pending after = stat_pending before + 1
    /\ stat_processing after = stat_processing before
    /\ stat_completed after = stat_completed before
    /\ stat_failed after = stat_failed before
    /\ stat_queued after = stat_queued before.
Proof.
  intros s fileId file Hfile Hstatus before after. subst before after.
  unfold fileActions.getProcessingStats, fileActions.addUploadedFile. simpl.
  rewrite map_size_insert_None by exact Hfile.
  unfold fileActions.count_status.
  rewrite !map_fold_insert_L; try exact Hstatus;
    try (intros j1 j2 z1 z2 y _ _ _;
         destruct (JsString.eqb (ps_status z1) _), (JsString.eqb (ps_status z2) _);
         reflexivity).
  simpl. repeat split; lia.
Qed.

Lemma step_keeps_uploads_have_status
    (a : fileActions.action (File := File) (Metadata := Metadata) (Validation := Validation))
    (s : FileStore File Metadata Validation) :
  uploads_have_status s -> uploads_have_status (fileActions.step a s).
Proof.
  intros Hs. unfold uploads_have_status in *.
  destruct a; simpl; try exact Hs.
  - intros k Hk. destruct (decide (fileId = k)) as [->|Hne].
    + rewrite lookup_insert_eq. eexists. split; [reflexivity|]. simpl. eauto.
    + rewrite lookup_insert_ne in Hk by exact Hne.
      rewrite lookup_insert_ne by exact Hne. now apply Hs.
  - intros k Hk. destruct (decide (fileId = k)) as [->|Hne].
    + rewrite lookup_insert_eq. eexists. split; [reflexivity|]. simpl.
      destruct (Hs k Hk) as [st [-> [Hp Hm]]]. simpl.
      split; [destruct progress|destruct message]; eauto.
    + rewrite lookup_insert_ne by exact Hne. now apply Hs.
  - unfold fileActions.getNextInQueue. destruct (processingQueue s); exact Hs.
  - intros k Hk. destruct (decide (fileId = k)) as [->|Hne].
    + rewrite lookup_delete_eq in Hk. destruct Hk as [? Hk]. discriminate.
    + rewrite lookup_delete_ne in Hk by exact Hne.
      rewrite lookup_delete_ne by exact Hne. now apply Hs.
  - intros k Hk. rewrite lookup_empty in Hk. destruct Hk as [? Hk]. discriminate.
Qed.

(** X21.  Every uploaded file has something to show.  Whatever actions run on
    the empty file store, each id that has an uploaded file has a processing
    status, with a progress and a message. *)
Theorem uploaded_files_always_have_a_status :
  forall (actions : list (fileActions.action (File := File) (Metadata := Metadata)
                            (Validation := Validation)))
         (fileId : jsstring) (file : File),
    let s := fileActions.run actions fileActions.clearAll in
    uploadedFiles s !! fileId = Some file ->
    exists st, processingStatus s !! fileId = Some st
               /\ is_Some (ps_progress st) /\ is_Some (ps_message st).
Proof.
  intros actions fileId file s Hfile.
  assert (Hrun : forall acts (t : FileStore File Metadata Validation),
            uploads_have_status t -> uploads_have_status (fileActions.run acts t)).
  { induction acts as [|a acts IH]; intros t Ht; [exact Ht|].
    unfold fileActions.run. simpl. apply IH. now apply step_keeps_uploads_have_status. }
  assert (Hs : uploads_have_status s).
  { apply Hrun. intros k Hk. simpl in Hk. rewrite lookup_empty in Hk.
    destruct Hk as [? Hk]. discriminate. }
  apply Hs. eauto.
Qed.

End FileStoreFacts.

Lemma new_upload_counts_as_pending_witness :
  let s := fileActions.clearAll (File := unit) (Metadata := unit) (Validation := unit) in
  uploadedFiles s !! str "f1" = None
  /\ processingStatus s !! str "f1" = None
  /\ (let before := fileActions.getProcessingStats s in
      let after := fileActions.getProcessingStats (fileActions.addUploadedFile (str "f1") tt s) in
      stat_total after = stat_total before + 1
      /\ stat_pending after = stat_pending before + 1
      /\ stat_processing after = stat_processing before
      /\ stat_completed after = stat_completed before
      /\ stat_failed after = stat_failed before
      /\ stat_queued after = stat_queued before).
Proof.
  intros s.
  assert (H1 : uploadedFiles s !! str "f1" = None) by reflexivity.
  assert (H2 : processingStatus s !! str "f1" = None) by reflexivity.
  split; [exact H1|]. split; [exact H2|].
  exact (new_upload_counts_as_pending s (str "f1") tt H1 H2).
Defined.

Lemma uploaded_files_always_have_a_status_witness :
  let actions :=
    [fileActions.AddUploadedFile (Metadata := unit) (Validation := unit) (str "f1") tt;
     fileActions.UpdateProcessingStatus (str "f1") (str "processing") (Some 30) None] in
  let s := fileActions.run actions fileActions.clearAll in
  uploadedFiles s !! str "f1" = Some tt
  /\ exists st, processingStatus s !! str "f1" = Some st
                /\ is_Some (ps_progress st) /\ is_Some (ps_message st).
Proof.
  intros actions s.
  assert (H : uploadedFiles s !! str "f1" = Some tt) by reflexivity.
  split; [exact H|].
  exact (uploaded_files_always_have_a_status actions (str "f1") tt H).
Defined.

(** An upload, a status update without a message, and the statistics. *)
Example file_store_after_an_upload :
  let s :=
    fileActions.run
      [fileActions.AddUploadedFile (Metadata := unit) (Validation := unit) (str "f1") tt;
       fileActions.AddToProcessingQueue (str "f1");
       fileActions.AddToProcessingQueue (str "f1");
       fileActions.UpdateProcessingStatus (str "f1") (str "processing") (Some 30) None]
      fileActions.clearAll in
  processingStatus s !! str "f1"
  = Some {| ps_status := str "processing"; ps_progress := Some 30;
            ps_message := Some (str "Waiting to process...") |}
  /\ processingQueue s = [str "f1"]
  /\ fileActions.getProcessingStats s
     = {| stat_total := 1; stat_pending := 0; stat_processing := 1; stat_completed := 0;
          stat_failed := 0; stat_queued := 1 |}.
Proof. vm_compute. repeat split; reflexivity. Qed.

(** ** The column selection of the UI state *)

Lemma UiState_eq (s t : UiState) :
  isLoading s = isLoading t -> loadingMessage s = loadingMessage t ->
  showFilters s = showFilters t -> tableView s = tableView t -> theme s = theme t ->
  sidebarCollapsed s = sidebarCollapsed t ->
  showColumnAnalyzer s = showColumnAnalyzer t ->
  showDataSummary s = showDataSummary t -> searchQuery s = searchQuery t ->
  selectedColumns s = selectedColumns t -> ui_pageSize s = ui_pageSize t ->
  ui_currentPage s = ui_currentPage t -> fullscreenMode s = fullscreenMode t -> s = t.
Proof. destruct s, t; simpl; intros; subst; reflexivity. Qed.

Local Set Warnings "-clear-no-such-hyp".

(** X22.  Toggling a column.  [toggleColumnSelection] turns the column's
    membership in the selection around and leaves every other column's; two
    toggles of a column give the state back. *)
Theorem toggleColumnSelection_flips_one_column :
  forall (s : UiState) (columnId other : jsstring),
    (columnId ∈ selectedColumns (uiStateActions.toggleColumnSelection columnId s)
     <-> columnId ∉ selectedColumns s)
    /\ (other <> columnId ->
        (other ∈ selectedColumns (uiStateActions.toggleColumnSelection columnId s)
         <-> other ∈ selectedColumns s))
    /\ uiStateActions.toggleColumnSelection columnId
         (uiStateActions.toggleColumnSelection columnId s) = s.
Proof.
  intros s columnId other.
  unfold uiStateActions.toggleColumnSelection. simpl.
  destruct (decide (columnId ∈ selectedColumns s)) as [Hin|Hout].
  - rewrite (bool_decide_eq_true_2 _ Hin). split; [|split].
    + rewrite elem_of_difference, elem_of_singleton. naive_solver.
    + intros Hne. rewrite elem_of_difference, elem_of_singleton. naive_solver.
    + apply UiState_eq; try reflexivity. simpl.
      rewrite bool_decide_eq_false_2
        by (rewrite elem_of_difference, elem_of_singleton; naive_solver).
      apply set_eq. intros x.
      rewrite elem_of_union, elem_of_difference, elem_of_singleton.
      destruct (decide (x = columnId)); naive_solver.
  - rewrite (bool_decide_eq_false_2 _ Hout). split; [|split].
    + rewrite elem_of_union, elem_of_singleton. naive_solver.
    + intros Hne. rewrite elem_of_union, elem_of_singleton. naive_solver.
    + apply UiState_eq; try reflexivity. simpl.
      rewrite bool_decide_eq_true_2
        by (rewrite elem_of_union, elem_of_singleton; naive_solver).
      apply set_eq. intros x.
      rewrite elem_of_difference, elem_of_union, elem_of_singleton.
      naive_solver.
Qed.

(** ** The chart component's filters *)

Lemma existsb_negb_forallb {A : Type} (p : A -> bool) (l : list A) :
  existsb p l = negb (forallb (fun x => negb (p x)) l).
Proof.
  induction l as [|x l IH]; simpl; [reflexivity|].
  rewrite IH. now destruct (p x).
Qed.

Lemma In_Set_values (v : value) (values : list value) :
  In v (Set_values values) <-> In v values.
Proof.
  induction values as [|w values IH]; simpl; [tauto|].
  rewrite filter_In, IH. split.
  - intros [Heq|[Hin _]]; auto.
  - intros [Heq|Hin]; [now left|].
    destruct (decide (v = w)) as [->|Hne]; [now left|].
    right. split; [exact Hin|]. now rewrite bool_decide_eq_false_2.
Qed.

Lemma Set_values_NoDup (values : list value) : List.NoDup (Set_values values).
Proof.
  induction values as [|w values IH]; simpl; constructor.
  - intros Hin. apply filter_In in Hin as [_ Hw].
    rewrite bool_decide_eq_true_2 in Hw by reflexivity. discriminate.
  - now apply List.NoDup_filter.
Qed.

Lemma NoDup_firstn {A : Type} (n : nat) (l : list A) :
  List.NoDup l -> List.NoDup (List.firstn n l).
Proof.
  revert n. induction l as [|x l IH]; intros n Hl; destruct n; simpl; try constructor.
  - inversion Hl as [|? ? Hx Hl']; subst. intros Hin. apply Hx.
    rewrite <- (firstn_skipn n l). apply in_app_iff. now left.
  - inversion Hl; subst. now apply IH.
Qed.

Section ChartFacts.
Context {Filters SortConfig SelectedRows : Type}.

Lemma view_of_set_current_filtered (rows : list Row)
    (s : Store Filters SortConfig SelectedRows) :
  Charts.filteredData_view (Charts.set_current_filtered rows s)
  = match currentFileId s with
    | Some fileId => if truthy (VStr fileId) then rows else []
    | None => []
    end.
Proof.
  unfold Charts.set_current_filtered, Charts.filteredData_view.
  destruct (currentFileId s) as [fileId|] eqn:Hcur; [|now rewrite Hcur].
  destruct (truthy (VStr fileId)) eqn:Hid.
  - unfold csvDataActions.setFilteredData. cbn [currentFileId filteredData].
    rewrite Hcur, Hid, lookup_insert_eq. reflexivity.
  - now rewrite Hcur, Hid.
Qed.

Lemma view_without_current (s : Store Filters SortConfig SelectedRows) :
  match currentFileId s with
  | Some fileId => truthy (VStr fileId) = false
  | None => True
  end ->
  Charts.filteredData_view s = [].
Proof.
  unfold Charts.filteredData_view. destruct (currentFileId s); [|reflexivity].
  now intros ->.
Qed.

(** The view after a category filter with a column and a value chosen: the
    rows of the view before whose cell in the column is that value. *)
Lemma view_of_applyCategoryFilter (column v : jsstring)
    (s : Store Filters SortConfig SelectedRows) :
  column <> [] -> v <> [] ->
  Charts.filteredData_view (Charts.applyCategoryFilter column v s)
  = List.filter (fun row => bool_decide (get row column = VStr v))
                (Charts.filteredData_view s).
Proof.
  intros Hc Hv. unfold Charts.applyCategoryFilter.
  destruct column as [|c column]; [congruence|]. destruct v as [|d v]; [congruence|].
  cbn [truthy length Nat.eqb negb orb].
  rewrite view_of_set_current_filtered.
  destruct (currentFileId s) as [fileId|] eqn:Hcur.
  - destruct (truthy (VStr fileId)) eqn:Hid; [reflexivity|].
    rewrite (view_without_current s) by (now rewrite Hcur). reflexivity.
  - rewrite (view_without_current s) by (now rewrite Hcur). reflexivity.
Qed.

(** X23.  Category filters narrow what is shown, they do not start over.  With a
    column and a value chosen, [applyCategoryFilter] shows exactly the rows of
    the current view whose cell in the column is the value, in their order
    (every such row, and no other row), and the data parsed from the file
    stays as it is.  So a second filter on the same value changes nothing,
    and a second filter on another value of the same column leaves no row. *)
Theorem category_filters_narrow_the_current_view :
  forall (s : Store Filters SortConfig SelectedRows) (column a b : jsstring),
    column <> [] -> a <> [] -> b <> [] -> a <> b ->
    let once := Charts.applyCategoryFilter column a s in
    Charts.filteredData_view once
    = List.filter (fun row => bool_decide (get row column = VStr a))
                  (Charts.filteredData_view s)
    /\ (forall row, In row (Charts.filteredData_view once)
                    <-> In row (Charts.filteredData_view s) /\ get row column = VStr a)
    /\ Forall (fun row => get row column = VStr a /\ In row (Charts.filteredData_view s))
           (Charts.filteredData_view once)
    /\ Charts.filteredData_view (Charts.applyCategoryFilter column a once)
       = Charts.filteredData_view once
    /\ Charts.filteredData_view (Charts.applyCategoryFilter column b once) = []
    /\ parsedData once = parsedData s.
Proof.
  intros s column a b Hc Ha Hb Hab once. subst once.
  rewrite !view_of_applyCategoryFilter by assumption.
  split; [reflexivity|]. split.
  { intros row. rewrite filter_In, bool_decide_eq_true. reflexivity. }
  repeat split.
  - apply List.Forall_forall. intros row Hrow. apply filter_In in Hrow as [Hin Hrow].
    apply bool_decide_eq_true in Hrow. auto.
  - rewrite filter_twice. apply List.filter_ext. intros row. now destruct (bool_decide _).
  - rewrite filter_twice. apply filter_none. intros row _.
    destruct (bool_decide (get row column = VStr a)) eqn:E; [|reflexivity].
    apply bool_decide_eq_true in E. simpl. apply bool_decide_eq_false. congruence.
  - unfold Charts.applyCategoryFilter, Charts.set_current_filtered.
    destruct (_ || _), (currentFileId s) as [fileId|]; try reflexivity;
      destruct (truthy (VStr fileId)); reflexivity.
Qed.

(** X24.  The two presets split the rows.  Each row parsed for the current file
    is shown by exactly one of the presets [complete] and [incomplete]: the
    two views together have as many rows as the view after clearing the
    filters, no row is in both, and every row of the cleared view is in one.
    Neither preset changes the parsed data. *)
Theorem presets_split_the_parsed_rows :
  forall (s : Store Filters SortConfig SelectedRows) (outliers : list Row -> list Row),
    let complete :=
      Charts.filteredData_view (Charts.applyPresetFilter outliers (str "complete") s) in
    let incomplete :=
      Charts.filteredData_view (Charts.applyPresetFilter outliers (str "incomplete") s) in
    let all := Charts.filteredData_view (Charts.clearAdvancedFilters s) in
    (length complete + length incomplete = length all)%nat
    /\ (forall row, In row complete -> ~ In row incomplete)
    /\ (forall row, In row all -> In row complete \/ In row incomplete)
    /\ parsedData (Charts.applyPresetFilter outliers (str "complete") s) = parsedData s
    /\ parsedData (Charts.applyPresetFilter outliers (str "incomplete") s) = parsedData s.
Proof.
  intros s outliers complete incomplete all. subst complete incomplete all.
  unfold Charts.clearAdvancedFilters. rewrite view_of_set_current_filtered.
  unfold Charts.applyPresetFilter, Charts.originalData.
  destruct (currentFileId s) as [fileId|] eqn:Hcur.
  2:{ rewrite (view_without_current s) by (now rewrite Hcur).
      repeat split; try reflexivity; intros row []. }
  destruct (truthy (VStr fileId)) eqn:Hid.
  2:{ rewrite (view_without_current s) by (now rewrite Hcur).
      repeat split; try reflexivity; intros row []. }
  cbn [JsString.eqb].
  assert (Hview : forall rows,
            Charts.filteredData_view (csvDataActions.setFilteredData fileId rows s) = rows).
  { intros rows. unfold Charts.filteredData_view, csvDataActions.setFilteredData.
    cbn [currentFileId filteredData].
    now rewrite Hcur, Hid, lookup_insert_eq. }
  replace (JsString.eqb (str "complete") (str "complete")) with true by reflexivity.
  replace (JsString.eqb (str "incomplete") (str "complete")) with false by reflexivity.
  replace (JsString.eqb (str "incomplete") (str "incomplete")) with true by reflexivity.
  rewrite !Hview.
  set (rows := default [] (parsedData s !! fileId)).
  set (cols := Charts.availableColumns s).
  unfold Charts.complete_rows, Charts.incomplete_rows.
  assert (Hneg : forall row,
            existsb (fun col => is_missing (get row (col_id col))) cols
            = negb (forallb (fun col => negb (is_missing (get row (col_id col)))) cols))
    by (intros row; apply existsb_negb_forallb).
  rewrite (List.filter_ext _ _ Hneg).
  repeat split.
  - apply List.filter_length.
  - intros row Hc Hi. apply filter_In in Hc as [_ Hc]. apply filter_In in Hi as [_ Hi].
    rewrite Hc in Hi. discriminate.
  - intros row Hrow.
    destruct (forallb (fun col => negb (is_missing (get row (col_id col)))) cols) eqn:E.
    + left. apply filter_In. auto.
    + right. apply filter_In. rewrite E. auto.
Qed.

(** X25.  The values offered for a column.  [getUniqueValues] returns at most 50
    values, no value twice, none of them [null], [undefined] or the empty
    string, each the cell of a row of the current view in that column. *)
Theorem getUniqueValues_are_distinct_cells :
  forall (s : Store Filters SortConfig SelectedRows) (columnId : jsstring),
    List.NoDup (Charts.getUniqueValues columnId s)
    /\ (length (Charts.getUniqueValues columnId s) <= 50)%nat
    /\ Forall (fun v => is_missing v = false
                        /\ exists row, In row (Charts.filteredData_view s)
                                       /\ get row columnId = v)
              (Charts.getUniqueValues columnId s).
Proof.
  intros s columnId. unfold Charts.getUniqueValues.
  rewrite Array_slice_nonneg by lia.
  change (Z.to_nat (50 - 0)) with 50%nat. change (Z.to_nat 0) with 0%nat.
  cbn [List.skipn].
  set (values := Set_values _).
  repeat split.
  - apply (NoDup_firstn 50), Set_values_NoDup.
  - rewrite length_firstn. lia.
  - apply List.Forall_forall. intros v Hv.
    assert (In v values) as Hin.
    { rewrite <- (firstn_skipn 50 values). apply in_app_iff. now left. }
    subst values.
    apply (proj1 (In_Set_values _ _)) in Hin. apply filter_In in Hin as [Hin Hmiss].
    apply negb_true_iff in Hmiss. split; [exact Hmiss|].
    apply in_map_iff in Hin as [row [Hrow Hin]]. eauto.
Qed.

End ChartFacts.

(** A store with one file of three rows, two of the kind [x] and one of the
    kind [y], shown in a chart. *)
Lemma category_filters_narrow_the_current_view_witness :
  let rows := [ [(str "id", VNum 0); (str "kind", VStr (str "x"))];
                [(str "id", VNum 1); (str "kind", VStr (str "y"))];
                [(str "id", VNum 2); (str "kind", VStr (str "x"))] ] in
  let s := csvDataActions.setParsedData (str "f1") rows []
             (csvDataActions.setCurrentFile (Some (str "f1"))
                (csvDataActions.clearAll (Filters := unit) (SortConfig := unit)
                   (SelectedRows := unit))) in
  let once := Charts.applyCategoryFilter (str "kind") (str "x") s in
  (str "kind" <> [] /\ str "x" <> [] /\ str "y" <> [] /\ str "x" <> str "y")
  /\ Charts.filteredData_view once
     = List.filter (fun row => bool_decide (get row (str "kind") = VStr (str "x")))
                   (Charts.filteredData_view s)
  /\ (forall row, In row (Charts.filteredData_view once)
                  <-> In row (Charts.filteredData_view s)
                      /\ get row (str "kind") = VStr (str "x"))
  /\ Forall (fun row => get row (str "kind") = VStr (str "x")
                        /\ In row (Charts.filteredData_view s))
            (Charts.filteredData_view once)
  /\ Charts.filteredData_view (Charts.applyCategoryFilter (str "kind") (str "x") once)
     = Charts.filteredData_view once
  /\ Charts.filteredData_view (Charts.applyCategoryFilter (str "kind") (str "y") once) = []
  /\ parsedData once = parsedData s.
Proof.
  intros rows s once.
  assert (Hc : str "kind" <> []) by discriminate.
  assert (Ha : str "x" <> []) by discriminate.
  assert (Hb : str "y" <> []) by discriminate.
  assert (Hab : str "x" <> str "y") by discriminate.
  split; [repeat split; assumption|].
  exact (category_filters_narrow_the_current_view s (str "kind") (str "x") (str "y")
           Hc Ha Hb Hab).
Defined.

(** In that store the filter on [x] shows rows 0 and 2, and clearing the
    filters shows the three rows again. *)
Example category_filter_then_clear :
  let rows := [ [(str "id", VNum 0); (str "kind", VStr (str "x"))];
                [(str "id", VNum 1); (str "kind", VStr (str "y"))];
                [(str "id", VNum 2); (str "kind", VStr (str "x"))] ] in
  let s := csvDataActions.setParsedData (str "f1") rows []
             (csvDataActions.setCurrentFile (Some (str "f1"))
                (csvDataActions.clearAll (Filters := unit) (SortConfig := unit)
                   (SelectedRows := unit))) in
  let once := Charts.applyCategoryFilter (str "kind") (str "x") s in
  List.map (fun row => get row (str "id")) (Charts.filteredData_view once) = [VNum 0; VNum 2]
  /\ Charts.filteredData_view (Charts.clearAdvancedFilters once) = rows
  /\ Charts.getUniqueValues (str "kind") s = [VStr (str "x"); VStr (str "y")].
Proof. vm_compute. repeat split; reflexivity. Qed.

(** ** The export and the two loaders *)

Lemma In_keys_setProp (row : Row) (k k' : jsstring) (v : value) :
  In k' (Object_keys (setProp row k v)) <-> In k' (Object_keys row) \/ k' = k.
Proof.
  unfold Object_keys. induction row as [|[k0 w] row IH]; simpl.
  - split; [intros [<-|[]]; now right|intros [[]| ->]; now left].
  - destruct (JsString.eqb k0 k) eqn:E; simpl.
    + apply eqb_true in E; subst. split; [tauto|]. intros [H| ->]; [exact H|now left].
    + rewrite IH. tauto.
Qed.

Section ExportRow.
Context (row : Row).

Let put (exportRow : Row) (col : Column) : Row :=
  setProp exportRow (col_name col) (get row (col_id col)).

Lemma export_get_other (cols : list Column) (init : Row) (k : jsstring) :
  ~ In k (List.map col_name cols) ->
  get (List.fold_left put cols init) k = get init k.
Proof.
  revert init. induction cols as [|c cols IH]; intros init Hk; simpl; [reflexivity|].
  rewrite IH by (intros H; apply Hk; now right).
  unfold put. apply get_setProp_ne. intros Heq. apply Hk. now left.
Qed.

Lemma export_get_column (cols : list Column) (init : Row) (c : Column) :
  List.NoDup (List.map col_name cols) -> In c cols ->
  get (List.fold_left put cols init) (col_name c) = get row (col_id c).
Proof.
  revert init. induction cols as [|c0 cols IH]; intros init Hnd Hc; [destruct Hc|].
  simpl in *. inversion Hnd as [|? ? Hfresh Hnd']; subst.
  destruct Hc as [->|Hc].
  - rewrite export_get_other by exact Hfresh. unfold put. apply get_setProp_eq.
  - now apply IH.
Qed.

Lemma export_keys (cols : list Column) (init : Row) (k : jsstring) :
  In k (Object_keys (List.fold_left put cols init))
  <-> In k (Object_keys init) \/ In k (List.map col_name cols).
Proof.
  revert init. induction cols as [|c cols IH]; intros init; simpl; [tauto|].
  rewrite IH. unfold put. rewrite In_keys_setProp. intuition congruence.
Qed.

End ExportRow.

(** X26.  What is exported.  For columns with distinct names, none of them
    [__proto__], and with ids that are not names a row inherits from
    [Object.prototype], [handleDataExport] hands the backend one row for each
    row it is given, in the same order; the properties of an exported row
    are the column names, no other, and under a column's name it holds the
    cell the row has under the column's id.  So the row number [id] of a
    loaded row is exported only when a column has that name. *)
Theorem exported_rows_hold_the_column_cells :
  forall (data : list Row) (cols : list Column),
    List.NoDup (List.map col_name cols) ->
    ~ In PROTO (List.map col_name cols) ->
    Forall (fun c => inherited (col_id c) = false) cols ->
    Forall2 (fun row exportRow =>
               (forall k, In k (Object_keys exportRow) <-> In k (List.map col_name cols))
               /\ (forall c, In c cols -> get exportRow (col_name c) = get row (col_id c)))
            data (D3Demo.exportData data cols).
Proof.
  intros data cols Hnd _ _. unfold D3Demo.exportData.
  induction data as [|row data IH]; simpl; constructor; [|exact IH].
  split.
  - intros k. rewrite export_keys. simpl. tauto.
  - intros c Hc. now apply export_get_column.
Qed.

Lemma exported_rows_hold_the_column_cells_witness :
  let cols := PlotlyDemo.columns_of
                [ {| ci_name := str "a"; ci_data_type := str "string"; ci_nullable := false |};
                  {| ci_name := str "b"; ci_data_type := str "string"; ci_nullable := true |} ] in
  let data := PlotlyDemo.parsedData cols (str "a,b" ++ LF :: str "1,2" ++ LF :: str "3") in
  List.NoDup (List.map col_name cols)
  /\ ~ In PROTO (List.map col_name cols)
  /\ Forall (fun c => inherited (col_id c) = false) cols
  /\ Forall2 (fun row exportRow =>
                (forall k, In k (Object_keys exportRow) <-> In k (List.map col_name cols))
                /\ (forall c, In c cols -> get exportRow (col_name c) = get row (col_id c)))
             data (D3Demo.exportData data cols).
Proof.
  intros cols data.
  assert (Hnd : List.NoDup (List.map col_name cols)).
  { repeat constructor; simpl; intros H; repeat (destruct H as [H|H]; [discriminate|]);
      exact H. }
  assert (Hnames : ~ In PROTO (List.map col_name cols))
    by (simpl; intros [H|[H|[]]]; discriminate).
  assert (Hids : Forall (fun c => inherited (col_id c) = false) cols)
    by (repeat constructor).
  split; [exact Hnd|]. split; [exact Hnames|]. split; [exact Hids|].
  exact (exported_rows_hold_the_column_cells data cols Hnd Hnames Hids).
Defined.

(** The file [a,b / 1,2 / 3] loaded and exported: the row numbers are gone,
    the missing cell is exported as [null]. *)
Example export_of_a_loaded_file :
  let cols := PlotlyDemo.columns_of
                [ {| ci_name := str "a"; ci_data_type := str "string"; ci_nullable := false |};
                  {| ci_name := str "b"; ci_data_type := str "string"; ci_nullable := true |} ] in
  let data := PlotlyDemo.parsedData cols (str "a,b" ++ LF :: str "1,2" ++ LF :: str "3") in
  D3Demo.exportData data cols
  = [ [(str "a", VStr (str "1")); (str "b", VStr (str "2"))];
      [(str "a", VStr (str "3")); (str "b", VNull)] ].
Proof. vm_compute. reflexivity. Qed.

Section TwoLoaders.
Context (values : list jsstring).

Lemma fill_by_ids (cols : list Column) (i : nat) (init : Row) :
  forEach_from (fun obj col colIndex => setProp obj (col_id col) (cell_at values colIndex))
               i cols init
  = forEach_from (fun row header index => setProp row header (cell_at values index))
                 i (List.map col_id cols) init.
Proof.
  revert i init. induction cols as [|c cols IH]; intros i init; simpl; [reflexivity|].
  apply IH.
Qed.

Lemma fill_get_agree (headers : list jsstring) (i : nat) (init1 init2 : Row)
    (k : jsstring) :
  get init1 k = get init2 k \/ In k headers ->
  get (forEach_from (fun row header index => setProp row header (cell_at values index))
                    i headers init1) k
  = get (forEach_from (fun row header index => setProp row header (cell_at values index))
                      i headers init2) k.
Proof.
  revert i init1 init2. induction headers as [|h headers IH]; intros i init1 init2 Hk; simpl.
  - destruct Hk as [Hk|[]]. exact Hk.
  - apply IH. destruct (decide (h = k)) as [->|Hne].
    + left. now rewrite !get_setProp_eq.
    + rewrite !get_setProp_ne by exact Hne.
      destruct Hk as [Hk|[Hk|Hk]]; [now left|contradiction|now right].
Qed.

End TwoLoaders.

Lemma Forall2_mapi_map {A B C : Type} (R : B -> C -> Prop) (f : A -> nat -> B)
    (g : A -> C) (l : list A) (i : nat) :
  (forall x j, R (f x j) (g x)) ->
  Forall2 R (mapi_from f i l) (List.map g l).
Proof.
  intros HR. revert i. induction l as [|x l IH]; intros i; simpl; constructor; auto.
Qed.

(** X27.  The two loaders agree.  When the columns the backend reports are the
    trimmed fields of the header line, the rows [processSingleFile] stores
    and the rows [parseCSVContent] returns for the same text are as many, and
    row by row they hold the same cell under every column.  They differ in
    the row number only, which [processSingleFile] writes under [id] and a
    column named [id] overwrites. *)
Theorem the_two_loaders_read_the_same_cells :
  forall (cols : list Column) (text : jsstring),
    List.map col_id cols
    = List.map trim (split COMMA (nth 0 (nonblank_lines text) [])) ->
    Forall2 (fun stored parsed =>
               forall k, k <> str "id" \/ In k (List.map col_id cols) ->
                         get stored k = get parsed k)
            (PlotlyDemo.parsedData cols text) (parseCSVContent text).
Proof.
  intros cols text Hcols. unfold PlotlyDemo.parsedData, parseCSVContent.
  destruct (Nat.ltb_spec (length (nonblank_lines text)) 2) as [Hshort|Hlong].
  - destruct (nonblank_lines text) as [|l0 [|l1 ls]]; simpl in *; try lia; constructor.
  - rewrite <- Hcols. unfold mapi. apply Forall2_mapi_map.
    intros line index k Hk. unfold forEach. rewrite fill_by_ids.
    apply fill_get_agree. destruct Hk as [Hk|Hk]; [left|now right].
    simpl. now rewrite eqb_neq.
Qed.

Lemma the_two_loaders_read_the_same_cells_witness :
  let text := str "a, b" ++ LF :: str "1,2" ++ LF :: str "3" in
  let cols := PlotlyDemo.columns_of
                [ {| ci_name := str "a"; ci_data_type := str "string"; ci_nullable := false |};
                  {| ci_name := str "b"; ci_data_type := str "string"; ci_nullable := true |} ] in
  List.map col_id cols = List.map trim (split COMMA (nth 0 (nonblank_lines text) []))
  /\ Forall2 (fun stored parsed =>
                forall k, k <> str "id" \/ In k (List.map col_id cols) ->
                          get stored k = get parsed k)
             (PlotlyDemo.parsedData cols text) (parseCSVContent text).
Proof.
  intros text cols.
  assert (H : List.map col_id cols
              = List.map trim (split COMMA (nth 0 (nonblank_lines text) [])))
    by (vm_compute; reflexivity).
  split; [exact H|]. exact (the_two_loaders_read_the_same_cells cols text H).
Defined.

(** A column named [id] takes the place of the row number. *)
Example id_column_overwrites_the_row_number :
  let cols := PlotlyDemo.columns_of
                [ {| ci_name := str "id"; ci_data_type := str "string"; ci_nullable := false |} ] in
  PlotlyDemo.parsedData cols (str "id" ++ LF :: str "x7" ++ LF :: str "x9")
  = [ [(str "id", VStr (str "x7"))]; [(str "id", VStr (str "x9"))] ].
Proof. vm_compute. reflexivity. Qed.

(** ** The name of a selected file *)

Lemma join_last (sep : N) (pieces : list jsstring) :
  pieces <> [] ->
  exists dir, join sep pieces = dir ++ List.last pieces []
              /\ (dir = [] \/ exists d, dir = d ++ [sep]).
Proof.
  induction pieces as [|p pieces IH]; [congruence|]. intros _.
  destruct pieces as [|q pieces].
  - exists []. split; [reflexivity|now left].
  - destruct IH as [dir [Hjoin Hdir]]; [discriminate|].
    exists (p ++ sep :: dir). split.
    + change (join sep (p :: q :: pieces)) with (p ++ sep :: join sep (q :: pieces)).
      rewrite Hjoin. change (List.last (p :: q :: pieces) []) with (List.last (q :: pieces) []).
      now rewrite <- app_assoc.
    + right. destruct Hdir as [->|[d ->]].
      * exists p. reflexivity.
      * exists (p ++ sep :: d). now rewrite <- app_assoc.
Qed.

(** X28.  The name of a selected file is the text after the last slash of its
    path: the path is a directory part, empty or ending in a slash, followed
    by a last segment without a slash, and the name is that segment, or
    [unknown.csv] when the segment is empty (the path is empty or ends in a
    slash). *)
Theorem name_of_path_is_the_text_after_the_last_slash :
  forall (path : jsstring),
    exists dir,
      path = dir ++ last_segment path
      /\ (dir = [] \/ exists d, dir = d ++ [SLASH])
      /\ existsb (N.eqb SLASH) (last_segment path) = false
      /\ name_of_path path
         = match last_segment path with
           | [] => str "unknown.csv"
           | _ :: _ => last_segment path
           end.
Proof.
  intros path. unfold last_segment.
  destruct (join_last SLASH (split SLASH path) (split_nonempty SLASH path))
    as [dir [Hjoin Hdir]].
  rewrite join_split in Hjoin.
  exists dir. split; [exact Hjoin|]. split; [exact Hdir|]. split.
  - pose proof (split_pieces_free SLASH path) as Hfree.
    pose proof (split_nonempty SLASH path) as Hne.
    rewrite List.Forall_forall in Hfree. apply Hfree.
    destruct (split SLASH path) as [|p ps]; [congruence|].
    apply (@exists_last _ (p :: ps)) in Hne as [l' [a ->]].
    rewrite last_last. apply in_app_iff. right. now left.
  - unfold name_of_path, last_segment, or_else.
    destruct (List.last (split SLASH path) []); reflexivity.
Qed.

(** Only the slash separates: a path written with backslashes is its own
    name, and a path that ends in a slash has the default name. *)
Example names_of_some_paths :
  name_of_path (str "/home/u/data.csv") = str "data.csv"
  /\ name_of_path (str "C:\data\a.csv") = str "C:\data\a.csv"
  /\ name_of_path (str "/home/u/") = str "unknown.csv"
  /\ name_of_path (str "") = str "unknown.csv".
Proof. vm_compute. repeat split; reflexivity. Qed.

(** ** The table's page and the UI state store *)

Lemma handle_all_snoc (events : list DataTableHandlers.event)
    (e : DataTableHandlers.event) (p : TableState * UiState) :
  DataTableWithStore.handle_all (events ++ [e]) p
  = DataTableWithStore.handle e (DataTableWithStore.handle_all events p).
Proof. unfold DataTableWithStore.handle_all. now rewrite fold_left_app. Qed.

Lemma handle_keeps_page_size (e : DataTableHandlers.event) (p : TableState * UiState) :
  ts_pageSize (fst p) = ui_pageSize (snd p) ->
  ts_pageSize (fst (DataTableWithStore.handle e p))
  = ui_pageSize (snd (DataTableWithStore.handle e p)).
Proof.
  destruct p as [st ui]. intros Hp. simpl in Hp.
  destruct e; simpl; try exact Hp; try reflexivity.
  - unfold DataTableHandlers.handleSort. now destruct (JsString.eqb _ _).
  - unfold DataTableHandlers.handleColumnFilterInput. now destruct (JsString.eqb _ _).
Qed.

(** X29.  The table and the UI state store agree on the page size.  From the
    mounted component on, whatever the user does to the table, the page size
    of the table is the page size in the store, and the column selection in
    the store is untouched; right after a page change or a page size change
    the two also agree on the current page. *)
Theorem table_and_store_agree_on_the_page_size :
  forall (ui : UiState) (events : list DataTableHandlers.event)
         (e : DataTableHandlers.event),
    let p := DataTableWithStore.handle_all events (DataTableWithStore.mounted ui) in
    let q := DataTableWithStore.handle e p in
    ts_pageSize (fst p) = ui_pageSize (snd p)
    /\ selectedColumns (snd p) = selectedColumns ui
    /\ (if DataTableWithStore.is_page_event e
        then ts_currentPage (fst q) = ui_currentPage (snd q)
        else ui_currentPage (snd q) = ui_currentPage (snd p)).
Proof.
  intros ui events e p q. subst q p.
  induction events as [|e' events IH] using rev_ind.
  - split; [reflexivity|]. split; [reflexivity|]. destruct e; reflexivity.
  - rewrite handle_all_snoc. destruct IH as [Hsize [Hsel _]].
    split; [now apply handle_keeps_page_size|]. split.
    + rewrite <- Hsel. destruct e'; reflexivity.
    + destruct e; reflexivity.
Qed.

(** The current page is not kept the same way: after going to page 3 and
    then sorting, the table is on page 1 and the store still holds page 3. *)
Example sorting_leaves_the_page_in_the_store :
  let p := DataTableWithStore.handle_all
             [DataTableHandlers.PageChange 3; DataTableHandlers.Sort (str "a")]
             (DataTableWithStore.mounted uiStateActions.reset) in
  ts_currentPage (fst p) = 1 /\ ui_currentPage (snd p) = 3
  /\ ts_pageSize (fst p) = 50 /\ ui_pageSize (snd p) = 50.
Proof. vm_compute. repeat split; reflexivity. Qed.
